(** * CUMULO swath pipeline ([src/pipeline.py]): a shallow embedding

    The pipeline module orchestrates external collaborators (HDF readers,
    the interpolation routine, the CloudSat aligner, the tile sampler) and
    decides the usability tag, the error policy and what is written to
    disk.  The embedding keeps that shape:

    - Python exceptions are values of [exn] with a class taken from a small
      hierarchy; a computation ends in [Return], [Raise] or [Exit];
    - effects (console lines, collaborator calls, directory creation and
      file writes, clock reads) are threaded through a [world] by a small
      state-and-error monad [M];
    - the collaborators, which live in other modules of the repository, are
      the fields of a record [collaborators];
    - numpy arrays are a shape, a dtype tag and a flat row-major buffer;
    - the file system is keyed by the components of paths as they are
      written: [.] and empty components are dropped, [..] and symbolic
      links are not resolved. *)

From Stdlib Require Import ZArith Lia Ascii String.
From stdpp Require Import base option list sorting strings gmap sets.

Local Open Scope string_scope.
Local Open Scope list_scope.

(** ** Exceptions *)

(** The classes under Python's [Exception] that the pipeline can meet.
    [Derived name base] stands for any library- or user-defined subclass. *)
Inductive exc_class : Type :=
| Exception
| ValueError
| TypeError
| AttributeError
| NameError
| UnboundLocalError
| LookupError
| IndexError
| OSError
| FileExistsError
| FileNotFoundError
| Derived (name : string) (base : exc_class).

#[global] Instance exc_class_eq_dec : EqDecision exc_class.
Proof. solve_decision. Defined.

(** The class itself followed by its bases, most specific first. *)
Fixpoint mro (c : exc_class) : list exc_class :=
  match c with
  | Exception => [Exception]
  | ValueError => [ValueError; Exception]
  | TypeError => [TypeError; Exception]
  | AttributeError => [AttributeError; Exception]
  | NameError => [NameError; Exception]
  | UnboundLocalError => [UnboundLocalError; NameError; Exception]
  | LookupError => [LookupError; Exception]
  | IndexError => [IndexError; LookupError; Exception]
  | OSError => [OSError; Exception]
  | FileExistsError => [FileExistsError; OSError; Exception]
  | FileNotFoundError => [FileNotFoundError; OSError; Exception]
  | Derived _ base => c :: mro base
  end.

Record exn : Type := mkExn { exn_class : exc_class; exn_msg : string }.

#[global] Instance exn_eq_dec : EqDecision exn.
Proof. solve_decision. Defined.

(** [isinstance(e, c)] *)
Definition isinstance (c : exc_class) (e : exn) : bool :=
  bool_decide (c ∈ mro (exn_class e)).

(** How a call ends: with a value, with a raised [Exception], or with the
    interpreter's exit request ([exit(code)] raises [SystemExit], which is
    outside the [Exception] hierarchy: [except Exception] and
    [except ValueError] let it through, a bare [except:] stops it). *)
Inductive outcome (A : Type) : Type :=
| Return (a : A)
| Raise (e : exn)
| Exit (code : Z).
Arguments Return {A} a.
Arguments Raise {A} e.
Arguments Exit {A} code.

Definition outcome_map {A B : Type} (f : A -> B) (o : outcome A) : outcome B :=
  match o with
  | Return a => Return (f a)
  | Raise e => Raise e
  | Exit c => Exit c
  end.

(** Exit status of a process whose top level ends with [o]. *)
Definition exit_status {A : Type} (o : outcome A) : Z :=
  match o with
  | Return _ => 0
  | Raise _ => 1
  | Exit c => c
  end.

(** ** Strings and POSIX paths *)

Definition slash : ascii := "/"%char.

(** [s.split(sep)] for a one-character separator *)
Fixpoint str_split (sep : ascii) (s : string) : list string :=
  match s with
  | EmptyString => [EmptyString]
  | String c s' =>
      if Ascii.eqb c sep then EmptyString :: str_split sep s'
      else match str_split sep s' with
           | [] => [String c EmptyString]
           | w :: ws => String c w :: ws
           end
  end.

(** [s.startswith(p)] and [s.endswith(p)] *)
Definition startswith (p s : string) : bool := String.prefix p s.

Definition endswith (p s : string) : bool :=
  String.prefix (String.rev p) (String.rev s).

Fixpoint lstrip_slash (s : string) : string :=
  match s with
  | String c s' => if Ascii.eqb c slash then lstrip_slash s' else s
  | EmptyString => EmptyString
  end.

(** [s.rstrip("/")] *)
Definition rstrip_slash (s : string) : string :=
  String.rev (lstrip_slash (String.rev s)).

Definition all_slashes (s : string) : bool :=
  forallb (fun c => Ascii.eqb c slash) (list_ascii_of_string s).

(** [os.path.basename(p)]: what follows the last slash *)
Definition basename (p : string) : string :=
  List.last (str_split slash p) EmptyString.

(** [os.path.split(p)]: the head up to the last slash (trailing slashes
    stripped unless it is all slashes) and the tail after it. *)
Definition os_path_split (p : string) : string * string :=
  let tail := basename p in
  let head := String.substring 0 (String.length p - String.length tail) p in
  let head := if negb (String.eqb head "") && negb (all_slashes head)
              then rstrip_slash head else head in
  (head, tail).

(** [os.path.join(a, b)] and its variadic form *)
Definition path_join2 (a b : string) : string :=
  if startswith "/" b then b
  else if String.eqb a "" || endswith "/" a then a +:+ b
  else a +:+ "/" +:+ b.

Definition os_path_join (a : string) (ps : list string) : string :=
  fold_left path_join2 ps a.

(** [s.replace(old, new)] for a non-empty [old] (every call site passes
    the literal [".hdf"]): leftmost non-overlapping occurrences. *)
Fixpoint str_replace_from (old new : string) (skip : nat) (s : string) : string :=
  match s with
  | EmptyString => EmptyString
  | String c s' =>
      match skip with
      | S k => str_replace_from old new k s'
      | O =>
          if String.prefix old s
          then new +:+ str_replace_from old new (String.length old - 1) s'
          else String c (str_replace_from old new 0 s')
      end
  end.

Definition str_replace (old new s : string) : string :=
  str_replace_from old new 0 s.

(** The components under which the file system knows a path:
    [pathlib.Path(p).parts], i.e. empty and ["."] components dropped and
    a leading ["/"] kept as the anchor. *)
Definition path_parts (p : string) : list string :=
  (if startswith "/" p then ["/"] else []) ++
  List.filter (fun c => negb (String.eqb c "") && negb (String.eqb c "."))
              (str_split slash p).

(** ** numpy arrays *)

Inductive dtype : Type :=
| Float64 | Float32 | Float16 | Int64 | Int32 | Int16 | Int8 | UInt8 | Bool8.

#[global] Instance dtype_eq_dec : EqDecision dtype.
Proof. solve_decision. Defined.

Section Model.

(** Carriers the pipeline only passes along: array elements, clock
    readings, the track's column span and pixel mapping, tiles and their
    metadata records. *)
Context {elem time span pixmap tile tmeta : Type}.

(** An [ndarray]: shape, dtype and the buffer in row-major order. *)
Record ndarray : Type := mkArr {
  shape : list nat;
  dtype_of : dtype;
  data : list elem
}.

Definition numel (sh : list nat) : nat := foldr Nat.mul 1 sh.

(** The buffer has as many elements as the shape announces. *)
Definition well_formed (a : ndarray) : Prop :=
  length (data a) = numel (shape a).

(** [a[-k]] for [k >= 1]: the [k]-th sub-array from the end of axis 0 *)
Definition getitem_neg (a : ndarray) (k : nat) : outcome ndarray :=
  match shape a with
  | [] => Raise (mkExn IndexError "too many indices for array")
  | n :: rest =>
      if (k <=? n)%nat
      then Return {| shape := rest;
                     dtype_of := dtype_of a;
                     data := take (numel rest) (drop ((n - k) * numel rest) (data a)) |}
      else Raise (mkExn IndexError "index out of bounds for axis 0")
  end.

(** [a[None, ]]: a new leading axis of length one *)
Definition expand_first (a : ndarray) : ndarray :=
  {| shape := 1 :: shape a; dtype_of := dtype_of a; data := data a |}.

(** [np.atleast_2d] *)
Definition atleast_2d (a : ndarray) : ndarray :=
  match shape a with
  | [] => {| shape := [1; 1]; dtype_of := dtype_of a; data := data a |}
  | [n] => {| shape := [1; n]; dtype_of := dtype_of a; data := data a |}
  | _ => a
  end.

(** The metadata values of the returned mapping. *)
Inductive meta_val : Type :=
| VRange (r : span)
| VMapping (m : pixmap)
| VVariable (a : ndarray).

(** The third component of the aligner's result, as far as
    [cloudsat_info.update({...})] can tell values apart: a [dict], [None]
    (no attribute [update]), or a value on which that call raises [e]. *)
Inductive pyobj : Type :=
| PyNone
| PyDict (d : gmap string meta_val)
| PyFaulty (e : exn).

(** ** Effects *)

Inductive collab : Type :=
| CGetSwath
| CFillAllChannels
| CGetChannels
| CGetCloudMask
| CGetCloudsatMask
| CSampleTiles
| CGetFileTimeInfo.

(** The readers of satellite products: the channel loader, the loaders
    of derived channels and of the cloud mask, and the track aligner. *)
Definition is_loader (c : collab) : bool :=
  match c with
  | CGetSwath | CGetChannels | CGetCloudMask | CGetCloudsatMask => true
  | _ => false
  end.

(** Console lines, one constructor per format string of the module. *)
Inductive line : Type :=
| SwathLoaded (filename : string)
| InterpolationTook (dt : time)
| ChannelsFull (idx : list nat)
| Level2Loaded
| CloudMaskLoaded
| CouldntExtract (filename : string) (e : exn)
| AlignmentTook (dt : time)
| TilesFailed (msg : string)
| TilesExtracted (n : nat) (swath_name : string).

Inductive payload : Type :=
| PTiles (ts : list tile)
| PMeta (ms : list tmeta).

(** What a path leads to: a directory, a [.npy] file with what was saved
    in it, or a file that was opened for writing and holds no array. *)
Inductive node : Type :=
| Dir
| File (p : payload)
| Broken.

Inductive event : Type :=
| EPrint (l : line)
| ECall (c : collab)
| EMakedirs (p : string)
| ESave (p : string).

Definition is_write (ev : event) : bool :=
  match ev with
  | EMakedirs _ | ESave _ => true
  | _ => false
  end.

Definition is_loader_call (ev : event) : bool :=
  match ev with
  | ECall c => is_loader c
  | _ => false
  end.

(** The world a run acts on: the file system (keyed by path components),
    everything that happened so far, and the number of clock reads. *)
Record world : Type := mkWorld {
  fs : gmap (list string) node;
  trace : list event;
  ticks : nat
}.

Definition M (A : Type) : Type := world -> outcome A * world.

Definition ret {A : Type} (a : A) : M A := fun w => (Return a, w).

Definition bind {A B : Type} (m : M A) (k : A -> M B) : M B :=
  fun w =>
    match m w with
    | (Return a, w') => k a w'
    | (Raise e, w') => (Raise e, w')
    | (Exit c, w') => (Exit c, w')
    end.

#[global] Instance M_ret : MRet M := @ret.
#[global] Instance M_bind : MBind M := fun A B k m => bind m k.

(** [raise e] and the builtin [exit(code)] *)
Definition raise {A : Type} (e : exn) : M A := fun w => (Raise e, w).
Definition py_exit {A : Type} (code : Z) : M A := fun w => (Exit code, w).

(** Lift the result of a pure evaluation that may raise. *)
Definition lift {A : Type} (o : outcome A) : M A := fun w => (o, w).

Definition emit (ev : event) : M unit :=
  fun w => (Return tt, {| fs := fs w; trace := trace w ++ [ev]; ticks := ticks w |}).

Definition print (l : line) : M unit := emit (EPrint l).

(** A collaborator is entered (recorded) and ends as its result says. *)
Definition call {A : Type} (c : collab) (res : outcome A) : M A :=
  emit (ECall c);; lift res.

(** [if cond: body] for a statement *)
Definition when (cond : bool) (body : M unit) : M unit :=
  if cond then body else ret tt.

(** [try: body  except C as e: handler e] *)
Definition try_except {A : Type} (body : M A) (c : exc_class) (handler : exn -> M A) : M A :=
  fun w =>
    match body w with
    | (Raise e, w') => if isinstance c e then handler e w' else (Raise e, w')
    | r => r
    end.

(** [try: body  except: handler]: a bare handler also stops [SystemExit] *)
Definition try_bare {A : Type} (body : M A) (handler : M A) : M A :=
  fun w =>
    match body w with
    | (Return a, w') => (Return a, w')
    | (Raise _, w') => handler w'
    | (Exit _, w') => handler w'
    end.

Fixpoint for_each {A : Type} (l : list A) (body : A -> M unit) : M unit :=
  match l with
  | [] => ret tt
  | x :: l' => body x;; for_each l' body
  end.

(** [l[i]] on a Python list, non-negative [i] *)
Definition list_index {A : Type} (l : list A) (i : nat) : outcome A :=
  match l !! i with
  | Some x => Return x
  | None => Raise (mkExn IndexError "list index out of range")
  end.

(** ** File system *)

(** [os.path.exists(p)] *)
Definition path_exists (p : string) : M bool :=
  fun w => (Return (bool_decide (is_Some (fs w !! path_parts p))), w).

(** The non-empty leading sub-paths of [parts], shortest first. *)
Definition ancestors_and_self (parts : list string) : list (list string) :=
  List.map (fun n => take n parts) (seq 1 (length parts)).

(** The same without [parts] itself. *)
Definition proper_ancestors (parts : list string) : list (list string) :=
  List.map (fun n => take n parts) (seq 1 (length parts - 1)).

Definition mkdir_if_absent (m : gmap (list string) node) (d : list string)
  : gmap (list string) node :=
  match m !! d with
  | Some _ => m
  | None => <[d := Dir]> m
  end.

(** Some path above [parts] leads to something that is no directory. *)
Definition blocked (m : gmap (list string) node) (parts : list string) : bool :=
  existsb (fun d => match m !! d with
                    | Some Dir | None => false
                    | Some _ => true
                    end)
          (proper_ancestors parts).

(** [os.makedirs(p)]: the leaf must be new and nothing but directories
    may lie above it; missing parents are created. *)
Definition makedirs (p : string) : M unit :=
  fun w =>
    match fs w !! path_parts p with
    | Some _ => (Raise (mkExn FileExistsError p), w)
    | None =>
        if blocked (fs w) (path_parts p)
        then (Raise (mkExn (Derived "NotADirectoryError" OSError) p), w)
        else
          (Return tt,
           {| fs := fold_left mkdir_if_absent (ancestors_and_self (path_parts p)) (fs w);
              trace := trace w ++ [EMakedirs p];
              ticks := ticks w |})
    end.

(** Directories that are there on every disk: the working directory
    (no component), the root, and what [..] leads to from them. *)
Definition always_there (d : list string) : bool :=
  forallb (fun c => String.eqb c "/" || String.eqb c "..") d.

(** [open(p, "wb")]: [p] must not be a directory, and the directory it
    lies in must be one. *)
Definition open_for_writing (m : gmap (list string) node) (p : string) : outcome unit :=
  match m !! path_parts p with
  | Some Dir => Raise (mkExn (Derived "IsADirectoryError" OSError) p)
  | _ =>
      let d := removelast (path_parts p) in
      if always_there d then Return tt
      else match m !! d with
           | Some Dir => Return tt
           | Some _ => Raise (mkExn (Derived "NotADirectoryError" OSError) p)
           | None => Raise (mkExn FileNotFoundError p)
           end
  end.

(** A glob pattern without wildcard characters names one path component. *)
Definition glob_magic (c : ascii) : bool :=
  Ascii.eqb c "*"%char || Ascii.eqb c "?"%char || Ascii.eqb c "["%char.

Definition plain_name (s : string) : bool :=
  negb (String.eqb s "") &&
  forallb (fun c => negb (glob_magic c) && negb (Ascii.eqb c slash))
          (list_ascii_of_string s).

(** A path strictly below [root] whose last component satisfies [matches]. *)
Definition below_matching (root : list string) (matches : string -> bool) (p : list string) : bool :=
  bool_decide (root `prefix_of` p) &&
  match drop (length root) p with
  | [] => false
  | rel => matches (List.last rel "")
  end.

(** ** Collaborators

    The functions of [src.modis_level1], [src.interpolation],
    [src.modis_level2], [src.cloudsat], [src.tile_extraction] and
    [src.utils] that the module calls, each with the result of a call on
    given arguments, and the library behaviour the embedding leaves open
    (the clock, numpy's dtype promotion and value conversion, wildcard
    matching of glob patterns, and whether numpy can write a value
    without pickling it: [savable] holds for an array of a plain dtype,
    as a batch of tiles of one size is, and fails for a ragged sequence
    or an array of objects).

    [fill_all_channels] works in place: its result carries the buffer it
    leaves behind next to the list of channel indices it returns. *)
Record collaborators : Type := mkCollaborators {
  get_swath : string -> string -> outcome ndarray;
  fill_all_channels : ndarray -> outcome (list elem * list nat);
  get_channels : string -> string -> outcome ndarray;
  get_cloud_mask : string -> string -> outcome ndarray;
  get_cloudsat_mask :
    string -> string -> string -> ndarray -> ndarray -> bool ->
    outcome (span * pixmap * pyobj);
  sample_labelled_and_unlabelled_tiles :
    ndarray -> Z -> outcome (list tile * list tile * list tmeta * list tmeta);
  get_file_time_info : string -> outcome (string * string * string * string);
  clock : nat -> time;
  time_sub : time -> time -> time;
  promote_types : dtype -> dtype -> dtype;
  cast : dtype -> elem -> elem;
  fnmatch : string -> string -> bool;
  savable : payload -> bool
}.

Variable O : collaborators.

(** [np.save(p, arr, allow_pickle=False)]: the suffix [.npy] is added
    when missing and the file is opened; then the value is turned into
    an array and written.  When that fails ([ValueError]) the file is
    there already, without an array in it. *)
Definition np_save (p : string) (x : payload) : M unit :=
  fun w =>
    let file := if endswith ".npy" p then p else p +:+ ".npy" in
    match open_for_writing (fs w) file with
    | Return _ =>
        if savable O x
        then (Return tt,
              {| fs := <[path_parts file := File x]> (fs w);
                 trace := trace w ++ [ESave file];
                 ticks := ticks w |})
        else (Raise (mkExn ValueError "Object arrays cannot be saved when allow_pickle=False"),
              {| fs := <[path_parts file := Broken]> (fs w);
                 trace := trace w ++ [ESave file];
                 ticks := ticks w |})
    | Raise e => (Raise e, w)
    | Exit c => (Exit c, w)
    end.

(** [time.time()] *)
Definition py_time : M time :=
  fun w => (Return (clock O (ticks w)),
            {| fs := fs w; trace := trace w; ticks := S (ticks w) |}).

(** [a.astype(dt)] *)
Definition astype (dt : dtype) (a : ndarray) : ndarray :=
  {| shape := shape a; dtype_of := dt; data := List.map (cast O dt) (data a) |}.

(** [np.concatenate(arrs, axis=0)] *)
Definition concatenate0 (arrs : list ndarray) : outcome ndarray :=
  match arrs with
  | [] => Raise (mkExn ValueError "need at least one array to concatenate")
  | a :: others =>
      match shape a with
      | [] => Raise (mkExn ValueError "zero-dimensional arrays cannot be concatenated")
      | _ :: trailing =>
          if forallb (fun b => match shape b with
                               | [] => false
                               | _ :: tb => bool_decide (tb = trailing)
                               end) others
          then
            let dt := fold_left (promote_types O) (List.map dtype_of others) (dtype_of a) in
            Return {| shape := sum_list (List.map (fun b => hd 0%nat (shape b)) arrs) :: trailing;
                      dtype_of := dt;
                      data := concat (List.map (fun b => List.map (cast O dt) (data b)) arrs) |}
          else Raise (mkExn ValueError
                 "all the input array dimensions except for the concatenation axis must match exactly")
      end
  end.

(** [np.vstack(arrs)] *)
Definition vstack (arrs : list ndarray) : outcome ndarray :=
  concatenate0 (List.map atleast_2d arrs).

(** [list(range(a, b))] *)
Definition py_range (a b : nat) : list nat := seq a (b - a).

(** Truth value of an [int] *)
Definition truthy (v : Z) : bool := negb (v =? 0)%Z.

(** ** [extract_full_swath] *)

(** Lines 44-54: the tag of the swath from the list of filled channels. *)
Definition usability_tag (filled_ch_idx : list nat) : string :=
  if (length filled_ch_idx =? 15)%nat then "daylight"
  else if bool_decide (filled_ch_idx = py_range 2 7 ++ py_range 8 15) then "night"
  else "corrupt".

(** The swath after the in-place fill: same shape and dtype, new buffer. *)
Definition filled_swath (a : ndarray) (buffer : list elem) : ndarray :=
  {| shape := shape a; dtype_of := dtype_of a; data := buffer |}.

(** Lines 71-80.  The three names [cs_range], [mapping], [cloudsat_info]
    are bound together by the assignment or stay unbound ([None] here). *)
Definition align_track (filename myd02_filename cloudsat_lidar_dir cloudsat_dir : string)
    (np_swath : ndarray) : M (option (span * pixmap * pyobj)) :=
  try_except
    (lat ← lift (getitem_neg np_swath 2);
     lon ← lift (getitem_neg np_swath 1);
     r ← call CGetCloudsatMask
           (get_cloudsat_mask O myd02_filename cloudsat_lidar_dir cloudsat_dir lat lon false);
     ret (Some r))
    Exception
    (fun e => print (CouldntExtract filename e);; ret None).

(** Line 91: [cloudsat_info.update({"width-range": cs_range, "mapping": mapping})] *)
Definition update_cloudsat_info (locals : option (span * pixmap * pyobj)) : M pyobj :=
  match locals with
  | None =>
      raise (mkExn UnboundLocalError
               "local variable 'cloudsat_info' referenced before assignment")
  | Some (cs_range, mapping, PyNone) =>
      raise (mkExn AttributeError "'NoneType' object has no attribute 'update'")
  | Some (cs_range, mapping, PyFaulty e) => raise e
  | Some (cs_range, mapping, PyDict d) =>
      ret (PyDict (<["mapping" := VMapping mapping]> (<["width-range" := VRange cs_range]> d)))
  end.

Definition extract_full_swath
    (myd02_filename myd03_dir myd06_dir myd35_dir cloudsat_lidar_dir cloudsat_dir : string)
    (verbose : Z) : M (ndarray * pyobj * string * string) :=
  let filename := basename myd02_filename in
  np_swath ← call CGetSwath (get_swath O myd02_filename myd03_dir);
  when (truthy verbose) (print (SwathLoaded filename));;
  t1 ← py_time;
  '(buffer, filled_ch_idx) ← call CFillAllChannels (fill_all_channels O np_swath);
  let np_swath := filled_swath np_swath buffer in
  t2 ← py_time;
  when (truthy verbose)
    (print (InterpolationTook (time_sub O t2 t1));;
     print (ChannelsFull filled_ch_idx));;
  let tag := usability_tag filled_ch_idx in
  l2_channels ← call CGetChannels (get_channels O myd02_filename myd06_dir);
  when (truthy verbose) (print Level2Loaded);;
  cm ← call CGetCloudMask (get_cloud_mask O myd02_filename myd35_dir);
  when (truthy verbose) (print CloudMaskLoaded);;
  t1 ← py_time;
  locals ← align_track filename myd02_filename cloudsat_lidar_dir cloudsat_dir np_swath;
  t2 ← py_time;
  when (truthy verbose) (print (AlignmentTook (time_sub O t2 t1)));;
  np_swath ← lift (outcome_map (astype Float16)
                     (vstack [np_swath; l2_channels; expand_first cm]));
  cloudsat_info ← try_bare (update_cloudsat_info locals) (ret PyNone);
  ret (np_swath, cloudsat_info, tag, filename).

(** ** [extract_tiles_from_swath]

    The defaults of the source are [tile_size=3] and [verbose=1]. *)

Definition extract_tiles_from_swath (np_swath : ndarray) (swath_name save_dir : string)
    (tile_size verbose : Z) : M unit :=
  '(label_tiles, nonlabel_tiles, label_metadata, nonlabel_metadata) ←
    try_except
      (call CSampleTiles (sample_labelled_and_unlabelled_tiles O np_swath tile_size))
      ValueError
      (fun e => print (TilesFailed (exn_msg e));; py_exit 0);
  when (0 <? verbose)%Z
    (print (TilesExtracted (length label_tiles + length nonlabel_tiles) swath_name));;
  let label_tiles_savepath_str := os_path_join save_dir ["label"; "tiles"] in
  let label_metadata_savepath_str := os_path_join save_dir ["label"; "metadata"] in
  let nonlabel_tiles_savepath_str := os_path_join save_dir ["nonlabel"; "tiles"] in
  let nonlabel_metadata_savepath_str := os_path_join save_dir ["nonlabel"; "metadata"] in
  for_each [label_tiles_savepath_str; label_metadata_savepath_str;
            nonlabel_tiles_savepath_str; nonlabel_metadata_savepath_str]
    (fun dr => present ← path_exists dr; when (negb present) (makedirs dr));;
  let filename_npy := str_replace ".hdf" ".npy" swath_name in
  np_save (os_path_join label_tiles_savepath_str [filename_npy]) (PTiles label_tiles);;
  np_save (os_path_join label_metadata_savepath_str [filename_npy]) (PMeta label_metadata);;
  np_save (os_path_join nonlabel_tiles_savepath_str [filename_npy]) (PTiles nonlabel_tiles);;
  np_save (os_path_join nonlabel_metadata_savepath_str [filename_npy]) (PMeta nonlabel_metadata).

(** ** The command-line hook *)

(** A pattern that is one component without wildcard characters selects
    the entries of that very name; any other pattern is left to the glob
    library. *)
Definition name_matches (pattern name : string) : bool :=
  if plain_name pattern then String.eqb name pattern else fnmatch O pattern name.

(** [Path(root).rglob(pattern)] for a one-component pattern.  The root
    is taken as written: an entry is below it when its components start
    with those of the root.  That [out/../out] and [out] are one
    directory, or where a relative root lies among absolute entries, is
    not known here. *)
Definition rglob (root pattern : string) : M (list (list string)) :=
  fun w =>
    (Return (List.filter (below_matching (path_parts root) (name_matches pattern))
                         (List.map fst (map_to_list (fs w)))),
     w).

(** [a, b = l[-2:]] *)
Definition unpack_last_two (l : list string) : outcome (string * string) :=
  match drop (length l - 2) l with
  | [a; b] => Return (a, b)
  | _ => Raise (mkExn ValueError "not enough values to unpack (expected 2, got 1)")
  end.

(** ["A{}.{}.{}{}.nc".format(year, abs_day, hour, minute)] *)
Definition canonical_name (year abs_day hour minute : string) : string :=
  "A" +:+ year +:+ "." +:+ abs_day +:+ "." +:+ hour +:+ minute +:+ ".nc".

(** Lines 175-207.  The call of line 207 passes the keywords [save_dir]
    and [save], which [extract_full_swath] does not accept: Python raises
    [TypeError] at the call, before the body runs, so lines 209-218 are
    never reached. *)
Definition main (argv : list string) : M unit :=
  save_dir ← lift (list_index argv 1);
  myd02_filename ← lift (list_index argv 2);
  let '(root_dir, filename) := os_path_split myd02_filename in
  '(month, day) ← lift (unpack_last_two (str_split slash root_dir));
  '(year, abs_day, hour, minute) ←
    call CGetFileTimeInfo (get_file_time_info O myd02_filename);
  let save_name := canonical_name year abs_day hour minute in
  found ← rglob save_dir save_name;
  match found with
  | _ :: _ =>
      raise (mkExn FileExistsError (save_name +:+ " already exist. Not extracting it again."))
  | [] =>
      let myd03_dir :=
        os_path_join root_dir ["MODIS"; "data"; "MYD03"; "collection61"; year; month; day] in
      let myd06_dir :=
        os_path_join root_dir ["MODIS"; "data"; "MYD06_L2"; "collection61"; year; month; day] in
      let myd35_dir :=
        os_path_join root_dir ["MODIS"; "data"; "MYD35_L2"; "collection61"; year; month; day] in
      let cloudsat_lidar_dir := os_path_join root_dir ["CloudSatLidar"] in
      let cloudsat_dir := os_path_join root_dir ["CloudSat"] in
      raise (mkExn TypeError
               "extract_full_swath() got an unexpected keyword argument 'save_dir'")
  end.

(** ** Properties of computations *)

(** [m] only adds events satisfying [P] to the trace. *)
Definition appends {A : Type} (P : event -> Prop) (m : M A) : Prop :=
  forall w, exists new, trace (snd (m w)) = trace w ++ new /\ Forall P new.

(** Whenever [m] returns, the value satisfies [Q]. *)
Definition on_return {A : Type} (m : M A) (Q : A -> Prop) : Prop :=
  forall w a w', m w = (Return a, w') -> Q a.

(** [m] returns from every world, with a value satisfying [Q]. *)
Definition always_returns {A : Type} (m : M A) (Q : A -> Prop) : Prop :=
  forall w, exists a w', m w = (Return a, w') /\ Q a.

(** [m] leaves the file system as it found it. *)
Definition keeps_fs {A : Type} (m : M A) : Prop :=
  forall w, fs (snd (m w)) = fs w.

Definition is_print (ev : event) : bool :=
  match ev with
  | EPrint _ => true
  | _ => false
  end.

(** The trace without its console lines. *)
Definition without_console (tr : list event) : list event :=
  List.filter (fun ev => negb (is_print ev)) tr.

(** Two worlds that differ at most in what was printed. *)
Definition same_but_console (w1 w2 : world) : Prop :=
  fs w1 = fs w2 /\ ticks w1 = ticks w2
  /\ without_console (trace w1) = without_console (trace w2).

(** [m1] and [m2] end alike from worlds that differ in console lines only,
    and leave such worlds behind. *)
Definition console_only {A : Type} (m1 m2 : M A) : Prop :=
  forall w1 w2,
    same_but_console w1 w2 ->
    fst (m1 w1) = fst (m2 w2) /\ same_but_console (snd (m1 w1)) (snd (m2 w2)).

(** [m] is a diagnostic: it returns and changes the console at most. *)
Definition diagnostic (m : M unit) : Prop :=
  forall w, fst (m w) = Return tt /\ same_but_console (snd (m w)) w.

(** The same collaborators with another track aligner. *)
Definition with_aligner
    (f : string -> string -> string -> ndarray -> ndarray -> bool ->
         outcome (span * pixmap * pyobj)) : collaborators :=
  {| get_swath := get_swath O;
     fill_all_channels := fill_all_channels O;
     get_channels := get_channels O;
     get_cloud_mask := get_cloud_mask O;
     get_cloudsat_mask := f;
     sample_labelled_and_unlabelled_tiles := sample_labelled_and_unlabelled_tiles O;
     get_file_time_info := get_file_time_info O;
     clock := clock O;
     time_sub := time_sub O;
     promote_types := promote_types O;
     cast := cast O;
     fnmatch := fnmatch O;
     savable := savable O |}.

(** Number of channels of a grid: the length of its first axis. *)
Definition channel_count (a : ndarray) : nat := hd 0%nat (shape a).

(** Modelled from the spec: the Gap Filler ([src.interpolation], not
    part of this module) "reports which channel indices ended up fully
    valid" as an "ordered set of fully-valid channel indices"; for a grid
    [a] that is a strictly increasing list of indices below the number of
    channels of [a]. *)
Definition ordered_channel_set (a : ndarray) (filled_ch_idx : list nat) : Prop :=
  StronglySorted lt filled_ch_idx /\ Forall (fun i => i < channel_count a) filled_ch_idx.

End Model.

(** ** The tagging policy in the specification's words

    The specification classifies the _set_ of filled channel indices:
    all channel indices give ["daylight"], exactly the non-visible bands
    give ["night"], anything else ["corrupt"]. *)

Definition all_channels (count : nat) : gset nat := list_to_set (seq 0 count).

Definition non_visible_channels : gset nat :=
  list_to_set [2; 3; 4; 5; 6; 8; 9; 10; 11; 12; 13; 14].

Definition tag_policy (count : nat) (filled : gset nat) : string :=
  if decide (filled = all_channels count) then "daylight"
  else if decide (filled = non_visible_channels) then "night"
  else "corrupt".

(** ** A reference configuration

    A concrete instance of the collaborators on which the definitions can
    be run: a swath of 15 channels of one pixel each, three derived
    channels, a cloud mask, an aligner that finds a track with no
    variables, and a sampler that returns one labelled and two unlabelled
    tiles. *)

Definition demo_swath : @ndarray Z := mkArr [15; 1; 1] Float32 (List.map Z.of_nat (seq 0 15)).
Definition demo_l2 : @ndarray Z := mkArr [3; 1; 1] Float64 [100; 101; 102]%Z.
Definition demo_cm : @ndarray Z := mkArr [1; 1] UInt8 [1%Z].

Definition demo_zero_aligner
  : string -> string -> string -> @ndarray Z -> @ndarray Z -> bool ->
    outcome ((Z * Z) * list (nat * nat) * @pyobj Z (Z * Z) (list (nat * nat))) :=
  fun _ _ _ _ _ _ => Return ((3, 9)%Z, [(0, 1)], PyDict ∅).

Definition demo_failing_aligner
  : string -> string -> string -> @ndarray Z -> @ndarray Z -> bool ->
    outcome ((Z * Z) * list (nat * nat) * @pyobj Z (Z * Z) (list (nat * nat))) :=
  fun _ _ _ _ _ _ => Raise (mkExn OSError "no CloudSat granule for this swath").

Definition demo : @collaborators Z Z (Z * Z) (list (nat * nat)) (list Z) nat :=
  {| get_swath := fun _ _ => Return demo_swath;
     fill_all_channels := fun a => Return (data a, seq 0 15);
     get_channels := fun _ _ => Return demo_l2;
     get_cloud_mask := fun _ _ => Return demo_cm;
     get_cloudsat_mask := demo_zero_aligner;
     sample_labelled_and_unlabelled_tiles :=
       fun _ tile_size =>
         if (tile_size <=? 1)%Z
         then Return ([[1%Z]], [[2%Z]; [3%Z]], [7], [8; 9])
         else Raise (mkExn ValueError "tile size exceeds the swath");
     get_file_time_info := fun _ => Return ("2008", "002", "13", "55");
     clock := fun n => Z.of_nat n;
     time_sub := Z.sub;
     promote_types := fun a _ => a;
     cast := fun _ x => x;
     fnmatch := fun _ _ => false;
     savable := fun _ => true |}.

(** The same at night: the visible bands 0, 1 and 7 stay unfilled. *)
Definition demo_night : @collaborators Z Z (Z * Z) (list (nat * nat)) (list Z) nat :=
  {| get_swath := get_swath demo;
     fill_all_channels := fun a => Return (data a, [2; 3; 4; 5; 6; 8; 9; 10; 11; 12; 13; 14]);
     get_channels := get_channels demo;
     get_cloud_mask := get_cloud_mask demo;
     get_cloudsat_mask := demo_failing_aligner;
     sample_labelled_and_unlabelled_tiles := sample_labelled_and_unlabelled_tiles demo;
     get_file_time_info := get_file_time_info demo;
     clock := clock demo;
     time_sub := time_sub demo;
     promote_types := promote_types demo;
     cast := cast demo;
     fnmatch := fnmatch demo;
     savable := savable demo |}.

Definition demo_input : string := "/data/01/02/MYD021KM.A2008002.1355.hdf".

Definition empty_world : world (time:=Z) (tile:=list Z) (tmeta:=nat) := mkWorld ∅ [] 0.

(** A world in which the swath of [demo_input] was extracted before. *)
Definition processed_world : world (time:=Z) (tile:=list Z) (tmeta:=nat) :=
  mkWorld {[ ["out"; "daylight"; "A2008.002.1355.nc"] := File (PTiles []) ]} [] 0.

(** ** More about paths and names *)

(** No slash in [s]. *)
Definition slash_free (s : string) : bool :=
  forallb (fun c => negb (Ascii.eqb c slash)) (list_ascii_of_string s).

(** A name that [pathlib] keeps as one component of a path. *)
Definition plain_component (s : string) : bool :=
  negb (String.eqb s "") && negb (String.eqb s ".") && slash_free s.

(** The file [np.save(p, ...)] writes to. *)
Definition npy_file (p : string) : string :=
  if endswith ".npy" p then p else p +:+ ".npy".

(** The component filter of [path_parts]. *)
Definition kept_component (c : string) : bool :=
  negb (String.eqb c "") && negb (String.eqb c ".").

Section TileFiles.
Context {tile tmeta : Type}.

(** What lines 154-156 do to the file system for one directory [dr]:
    nothing when the path exists, else what [os.makedirs(dr)] makes when
    it does not raise. *)
Definition ensure_dir (m : gmap (list string) (@node tile tmeta)) (dr : string)
  : gmap (list string) (@node tile tmeta) :=
  match m !! path_parts dr with
  | Some _ => m
  | None => fold_left mkdir_if_absent (ancestors_and_self (path_parts dr)) m
  end.

(** Nothing but directories on the way to [parts], itself included:
    every non-empty leading sub-path is absent or a directory. *)
Definition clear_way (m : gmap (list string) (@node tile tmeta)) (parts : list string)
  : Prop :=
  forall k, k ∈ ancestors_and_self parts -> m !! k = None \/ m !! k = Some Dir.

(** Every entry is known under the components of a path written
    without [..]: the model takes paths as they are written and does not
    know that [a/../b] and [b] lead to the same place. *)
Definition plainly_keyed (m : gmap (list string) (@node tile tmeta)) : Prop :=
  forall k, is_Some (m !! k) -> (exists p, k = path_parts p) /\ ".." ∉ k.

End TileFiles.

(** The four directories of lines 147-151, in the order of the loop. *)
Definition tile_dirs (save_dir : string) : list string :=
  [os_path_join save_dir ["label"; "tiles"];
   os_path_join save_dir ["label"; "metadata"];
   os_path_join save_dir ["nonlabel"; "tiles"];
   os_path_join save_dir ["nonlabel"; "metadata"]].

(** The file of a swath in the directory [save_dir/kind/what]. *)
Definition tile_file (save_dir kind what swath_name : string) : string :=
  npy_file (os_path_join save_dir [kind; what; str_replace ".hdf" ".npy" swath_name]).

(** The four files of lines 160-163, in the order of the saves. *)
Definition tile_files (save_dir swath_name : string) : list string :=
  [tile_file save_dir "label" "tiles" swath_name;
   tile_file save_dir "label" "metadata" swath_name;
   tile_file save_dir "nonlabel" "tiles" swath_name;
   tile_file save_dir "nonlabel" "metadata" swath_name].

Section SwathEvents.
Context {elem time span pixmap tile tmeta : Type}.
Variable O : @collaborators elem time span pixmap tile tmeta.

(** What [cloudsat_info] holds after lines 90-95. *)
Definition merged_info (locals : option (span * pixmap * @pyobj elem span pixmap))
  : @pyobj elem span pixmap :=
  match locals with
  | Some (cs_range, mapping, PyDict d) =>
      PyDict (<["mapping" := VMapping mapping]> (<["width-range" := VRange cs_range]> d))
  | _ => PyNone
  end.

(** The events of [extract_full_swath] once the loaders have returned:
    [verbose] tells whether diagnostics are printed, [t0] is the number
    of clock reads before the call, [aligned] are the events of the
    guarded alignment call. *)
Definition swath_events (filename : string) (filled_ch_idx : list nat)
    (verbose : bool) (t0 : nat) (aligned : list (@event time)) : list (@event time) :=
  [ECall CGetSwath]
    ++ (if verbose then [EPrint (SwathLoaded filename)] else [])
    ++ [ECall CFillAllChannels]
    ++ (if verbose
        then [EPrint (InterpolationTook (time_sub O (clock O (S t0)) (clock O t0)));
              EPrint (ChannelsFull filled_ch_idx)]
        else [])
    ++ [ECall CGetChannels]
    ++ (if verbose then [EPrint Level2Loaded] else [])
    ++ [ECall CGetCloudMask]
    ++ (if verbose then [EPrint CloudMaskLoaded] else [])
    ++ aligned
    ++ (if verbose
        then [EPrint (AlignmentTook
                        (time_sub O (clock O (S (S (S t0)))) (clock O (S (S t0)))))]
        else []).

(** The events and the bound names of the guarded alignment call when the
    aligner returns or raises. *)
Definition aligned_events (name : string)
    (res : outcome (span * pixmap * @pyobj elem span pixmap)) : list (@event time) :=
  ECall CGetCloudsatMask ::
  match res with
  | Raise e => [EPrint (CouldntExtract name e)]
  | _ => []
  end.

Definition aligned_locals (res : outcome (span * pixmap * @pyobj elem span pixmap))
  : option (span * pixmap * @pyobj elem span pixmap) :=
  match res with
  | Return r => Some r
  | _ => None
  end.

End SwathEvents.


(** * The picture of a swath and the plain save

    [extract_swath_rbg] and [save_as_npy] store a picture and a whole
    swath, not tiles, and print lines of their own.  Their effects are
    threaded through a world of their own, built like the one above: a
    file system keyed by path components and the list of what happened. *)

Module Visual.
Section Visual.

(** [image] is what [Image.fromarray] builds. *)
Context {elem time span pixmap tile tmeta image : Type}.

Inductive node : Type :=
| Dir
| Picture (img : image)
| Array (a : @ndarray elem).

(** Console lines, one constructor per format string of the two
    functions. *)
Inductive line : Type :=
| RgbSaved (save_filename : string)
| RgbFailed (basename : string)
| SwathSaved (swath_savepath_str : string).

Inductive collab : Type :=
| CGetSwathRgb
| CFillAllChannels
| CFromArray.

Inductive event : Type :=
| EPrint (l : line)
| ECall (c : collab)
| EMakedirs (p : string)
| ESave (p : string).

Record world : Type := mkWorld {
  fs : gmap (list string) node;
  trace : list event
}.

Definition M (A : Type) : Type := world -> outcome A * world.

Definition ret {A : Type} (a : A) : M A := fun w => (Return a, w).

Definition bind {A B : Type} (m : M A) (k : A -> M B) : M B :=
  fun w =>
    match m w with
    | (Return a, w') => k a w'
    | (Raise e, w') => (Raise e, w')
    | (Exit c, w') => (Exit c, w')
    end.

#[global] Instance visual_M_ret : MRet M := @ret.
#[global] Instance visual_M_bind : MBind M := fun A B k m => bind m k.

Definition lift {A : Type} (o : outcome A) : M A := fun w => (o, w).

Definition emit (ev : event) : M unit :=
  fun w => (Return tt, {| fs := fs w; trace := trace w ++ [ev] |}).

Definition print (l : line) : M unit := emit (EPrint l).

Definition call {A : Type} (c : collab) (res : outcome A) : M A :=
  emit (ECall c);; lift res.

Definition when (cond : bool) (body : M unit) : M unit :=
  if cond then body else ret tt.

(** [os.path.exists(p)] *)
Definition path_exists (p : string) : M bool :=
  fun w => (Return (bool_decide (is_Some (fs w !! path_parts p))), w).

Definition mkdir_if_absent (m : gmap (list string) node) (d : list string)
  : gmap (list string) node :=
  match m !! d with
  | Some _ => m
  | None => <[d := Dir]> m
  end.

(** Some path above [parts] leads to something that is no directory. *)
Definition blocked (m : gmap (list string) node) (parts : list string) : bool :=
  existsb (fun d => match m !! d with
                    | Some Dir | None => false
                    | Some _ => true
                    end)
          (proper_ancestors parts).

(** [os.makedirs(p)]: the leaf must be new and nothing but directories
    may lie above it; missing parents are created. *)
Definition makedirs (p : string) : M unit :=
  fun w =>
    match fs w !! path_parts p with
    | Some _ => (Raise (mkExn FileExistsError p), w)
    | None =>
        if blocked (fs w) (path_parts p)
        then (Raise (mkExn (Derived "NotADirectoryError" OSError) p), w)
        else
          (Return tt,
           {| fs := fold_left mkdir_if_absent (ancestors_and_self (path_parts p)) (fs w);
              trace := trace w ++ [EMakedirs p] |})
    end.

(** [open(p, "wb")]: [p] must not be a directory, and the directory it
    lies in must be one. *)
Definition open_for_writing (m : gmap (list string) node) (p : string) : outcome unit :=
  match m !! path_parts p with
  | Some Dir => Raise (mkExn (Derived "IsADirectoryError" OSError) p)
  | _ =>
      let d := removelast (path_parts p) in
      if always_there d then Return tt
      else match m !! d with
           | Some Dir => Return tt
           | Some _ => Raise (mkExn (Derived "NotADirectoryError" OSError) p)
           | None => Raise (mkExn FileNotFoundError p)
           end
  end.

(** Open [file], then store [x] in it. *)
Definition write_file (file : string) (x : node) : M unit :=
  fun w =>
    match open_for_writing (fs w) file with
    | Return _ =>
        (Return tt,
         {| fs := <[path_parts file := x]> (fs w); trace := trace w ++ [ESave file] |})
    | Raise e => (Raise e, w)
    | Exit c => (Exit c, w)
    end.

(** [np.save(p, arr, allow_pickle=False)]: the suffix [.npy] is added
    when missing. *)
Definition np_save (p : string) (arr : @ndarray elem) : M unit :=
  write_file (npy_file p) (Array arr).

(** [a.transpose(1, 2, 0)]: the element at [(i, j, k)] of the result is
    the element at [(k, i, j)] of [a]. *)
Definition transpose_1_2_0 (a : @ndarray elem) : outcome (@ndarray elem) :=
  match shape a with
  | [c; h; w] =>
      Return {| shape := [h; w; c];
                dtype_of := dtype_of a;
                data :=
                  i ← seq 0 h; j ← seq 0 w; k ← seq 0 c;
                  option_list (data a !! ((k * h + i) * w + j)) |}
  | _ => Raise (mkExn ValueError "axes don't match array")
  end.

(** The functions of [src.modis_level1] and of [PIL] that
    [extract_swath_rbg] calls, next to those of [collaborators]:
    [image_format] tells whether [Image.save] finds a format it can
    write for the extension of a file name. *)
Record visual_collaborators : Type := mkVisualCollaborators {
  get_swath_rgb : string -> string -> outcome (@ndarray elem);
  fromarray : @ndarray elem -> outcome image;
  image_format : string -> outcome unit
}.

Variable O : @collaborators elem time span pixmap tile tmeta.
Variable P : visual_collaborators.

(** [img.save(p)]: the format is taken from the name, then the file is
    opened and written. *)
Definition image_save (img : image) (p : string) : M unit :=
  lift (image_format P p);;
  write_file p (Picture img).

(** Lines 99-133.  The default of the source is [verbose=1]. *)
Definition extract_swath_rbg (radiance_filepath myd03_dir save_dir : string)
    (verbose : Z) : M unit :=
  let name := basename radiance_filepath in
  let save_dir := os_path_join save_dir ["rgb"] in
  present ← path_exists save_dir;
  when (negb present) (makedirs save_dir);;
  visual_swath ← call CGetSwathRgb (get_swath_rgb P radiance_filepath myd03_dir);
  '(buffer, filled_ch_idx) ← call CFillAllChannels (fill_all_channels O visual_swath);
  let visual_swath := filled_swath visual_swath buffer in
  if (length filled_ch_idx =? 3)%nat
  then
    transposed ← lift (transpose_1_2_0 visual_swath);
    pil_loaded_visual_swath ← call CFromArray (fromarray P (astype O UInt8 transposed));
    let save_filename := os_path_join save_dir [str_replace ".hdf" ".png" name] in
    image_save pil_loaded_visual_swath save_filename;;
    when (0 <? verbose)%Z (print (RgbSaved save_filename))
  else print (RgbFailed name).

(** Lines 165-172.  The default of the source is [verbose=1]. *)
Definition save_as_npy (np_swath : @ndarray elem) (filename save_subdir : string)
    (verbose : Z) : M unit :=
  let swath_savepath_str :=
    os_path_join save_subdir [str_replace ".hdf" ".npy" filename] in
  np_save swath_savepath_str np_swath;;
  when (truthy verbose) (print (SwathSaved swath_savepath_str)).

(** What lines 114-115 do to the file system: nothing when the path
    exists, else what [os.makedirs] makes when it does not raise. *)
Definition ensure_dir (m : gmap (list string) node) (dr : string)
  : gmap (list string) node :=
  match m !! path_parts dr with
  | Some _ => m
  | None => fold_left mkdir_if_absent (ancestors_and_self (path_parts dr)) m
  end.

(** Nothing but directories on the way to [parts], itself included:
    every non-empty leading sub-path is absent or a directory. *)
Definition clear_way (m : gmap (list string) node) (parts : list string) : Prop :=
  forall k, k ∈ ancestors_and_self parts -> m !! k = None \/ m !! k = Some Dir.

(** Every entry is known under the components of a path written
    without [..]: the model takes paths as they are written and does not
    know that [a/../b] and [b] lead to the same place. *)
Definition plainly_keyed (m : gmap (list string) node) : Prop :=
  forall k, is_Some (m !! k) -> (exists p, k = path_parts p) /\ ".." ∉ k.

End Visual.
End Visual.

(** A reference configuration for the picture: a swath of three channels
    of one row and two columns, all filled; the picture is the array it
    is built from. *)

Definition demo_rgb : @ndarray Z := mkArr [3; 1; 2] Float32 [10; 11; 20; 21; 30; 31]%Z.

Definition demo_visual : @Visual.visual_collaborators Z (@ndarray Z) :=
  {| Visual.get_swath_rgb := fun _ _ => Return demo_rgb;
     Visual.fromarray := fun a => Return a;
     Visual.image_format :=
       fun p => if endswith ".png" p then Return tt
                else Raise (mkExn ValueError "unknown file extension") |}.

Definition demo_three : @collaborators Z Z (Z * Z) (list (nat * nat)) (list Z) nat :=
  {| get_swath := get_swath demo;
     fill_all_channels := fun a => Return (data a, [0; 1; 2]);
     get_channels := get_channels demo;
     get_cloud_mask := get_cloud_mask demo;
     get_cloudsat_mask := get_cloudsat_mask demo;
     sample_labelled_and_unlabelled_tiles := sample_labelled_and_unlabelled_tiles demo;
     get_file_time_info := get_file_time_info demo;
     clock := clock demo;
     time_sub := time_sub demo;
     promote_types := promote_types demo;
     cast := cast demo;
     fnmatch := fnmatch demo;
     savable := savable demo |}.

Definition empty_disk : @Visual.world Z (@ndarray Z) := Visual.mkWorld ∅ [].

(** The reference configuration with other results of the loaders and of
    the aligner. *)
Definition demo_with
    (swath l2 cm : outcome (@ndarray Z))
    (aligned : outcome ((Z * Z) * list (nat * nat) * @pyobj Z (Z * Z) (list (nat * nat))))
  : @collaborators Z Z (Z * Z) (list (nat * nat)) (list Z) nat :=
  {| get_swath := fun _ _ => swath;
     fill_all_channels := fill_all_channels demo;
     get_channels := fun _ _ => l2;
     get_cloud_mask := fun _ _ => cm;
     get_cloudsat_mask := fun _ _ _ _ _ _ => aligned;
     sample_labelled_and_unlabelled_tiles := sample_labelled_and_unlabelled_tiles demo;
     get_file_time_info := get_file_time_info demo;
     clock := clock demo;
     time_sub := time_sub demo;
     promote_types := promote_types demo;
     cast := cast demo;
     fnmatch := fnmatch demo;
     savable := savable demo |}.

(** A sampler that fails with something else than a [ValueError]. *)
Definition demo_out_of_memory : @collaborators Z Z (Z * Z) (list (nat * nat)) (list Z) nat :=
  {| get_swath := get_swath demo;
     fill_all_channels := fill_all_channels demo;
     get_channels := get_channels demo;
     get_cloud_mask := get_cloud_mask demo;
     get_cloudsat_mask := get_cloudsat_mask demo;
     sample_labelled_and_unlabelled_tiles :=
       fun _ _ => Raise (mkExn (Derived "MemoryError" Exception) "");
     get_file_time_info := get_file_time_info demo;
     clock := clock demo;
     time_sub := time_sub demo;
     promote_types := promote_types demo;
     cast := cast demo;
     fnmatch := fnmatch demo;
     savable := savable demo |}.

(** A one-channel swath and a cloud mask of another extent. *)
Definition demo_flat_swath : @ndarray Z := mkArr [1; 1; 1] Float32 [5%Z].
Definition demo_wide_cm : @ndarray Z := mkArr [1; 2] UInt8 [1; 0]%Z.

(** A picture loader that fails. *)
Definition demo_no_picture : @Visual.visual_collaborators Z (@ndarray Z) :=
  {| Visual.get_swath_rgb := fun _ _ => Raise (mkExn OSError "no such granule");
     Visual.fromarray := Visual.fromarray demo_visual;
     Visual.image_format := Visual.image_format demo_visual |}.

(** A world in which the directory [out] exists. *)
Definition world_with_out : world (time:=Z) (tile:=list Z) (tmeta:=nat) :=
  mkWorld {[ ["out"] := Dir ]} [] 0.

(** A disk on which the directory [out] exists. *)
Definition disk_with_out : @Visual.world Z (@ndarray Z) :=
  Visual.mkWorld {[ ["out"] := Visual.Dir ]} [].
(** * Verification *)

(** ** Strings and paths on examples *)

Example basename_ex :
  basename "/data/2008/01/02/MYD021KM.A2008002.1355.hdf" = "MYD021KM.A2008002.1355.hdf".
Proof. reflexivity. Qed.

Example os_path_split_ex :
  os_path_split "/data/01/02/f.hdf" = ("/data/01/02", "f.hdf")
  /\ os_path_split "f.hdf" = ("", "f.hdf")
  /\ os_path_split "/f.hdf" = ("/", "f.hdf").
Proof. repeat split; reflexivity. Qed.

Example os_path_join_ex :
  os_path_join "out" ["label"; "tiles"] = "out/label/tiles"
  /\ os_path_join "out/" ["x"] = "out/x"
  /\ os_path_join "out" ["/abs"] = "/abs".
Proof. repeat split; reflexivity. Qed.

Example str_replace_ex :
  str_replace ".hdf" ".npy" "a.hdf" = "a.npy"
  /\ str_replace ".hdf" ".npy" "a.txt" = "a.txt".
Proof. repeat split; reflexivity. Qed.

Example endswith_ex :
  endswith ".npy" "x.npy" = true /\ endswith ".npy" "x.hdf" = false
  /\ endswith "/" "out/" = true /\ endswith "/" "" = false.
Proof. repeat split; reflexivity. Qed.

Example path_parts_ex :
  path_parts "/out//daylight/./x.nc" = ["/"; "out"; "daylight"; "x.nc"]
  /\ path_parts "out/" = ["out"].
Proof. repeat split; reflexivity. Qed.

(** ** Exceptions and strings *)

Lemma isinstance_Exception (e : exn) : isinstance Exception e = true.
Proof.
  unfold isinstance. apply bool_decide_eq_true.
  destruct e as [c msg]; simpl.
  induction c; simpl; try (repeat constructor; fail).
  apply elem_of_cons; by right.
Qed.

Section Effects.
Context {elem time span pixmap tile tmeta : Type}.
Implicit Types w : @world time tile tmeta.
Implicit Types P : @event time -> Prop.

(** *** Events added to the trace *)

Lemma appends_ret {A} P (a : A) : appends (tile:=tile) (tmeta:=tmeta) P (ret a).
Proof. intros w. exists []. by rewrite app_nil_r. Qed.

Lemma appends_lift {A} P (o : outcome A) : appends (tile:=tile) (tmeta:=tmeta) P (lift o).
Proof. intros w. exists []. by rewrite app_nil_r. Qed.

Lemma appends_raise {A} P e : appends (tile:=tile) (tmeta:=tmeta) P (raise (A:=A) e).
Proof. intros w. exists []. by rewrite app_nil_r. Qed.

Lemma appends_exit {A} P c : appends (tile:=tile) (tmeta:=tmeta) P (py_exit (A:=A) c).
Proof. intros w. exists []. by rewrite app_nil_r. Qed.

Lemma appends_emit P ev : P ev -> appends (tile:=tile) (tmeta:=tmeta) P (emit ev).
Proof. intros H w. exists [ev]. split; [done | by constructor]. Qed.

Lemma appends_bind {A B} P (m : M A) (k : A -> M (tile:=tile) (tmeta:=tmeta) B) :
  appends P m -> (forall a, appends P (k a)) -> appends P (m ≫= k).
Proof.
  intros Hm Hk w. unfold mbind, M_bind, bind.
  destruct (Hm w) as (n1 & E1 & F1).
  destruct (m w) as [[a | e | c] w1]; simpl in *.
  - destruct (Hk a w1) as (n2 & E2 & F2).
    exists (n1 ++ n2). rewrite E2, E1, app_assoc. split; [done | by apply Forall_app].
  - by exists n1.
  - by exists n1.
Qed.

Lemma appends_call {A} P c (o : outcome A) :
  P (ECall c) -> appends (tile:=tile) (tmeta:=tmeta) P (call c o).
Proof.
  intros H. unfold call. apply appends_bind; [by apply appends_emit | intros; apply appends_lift].
Qed.

Lemma appends_when P b (m : M (tile:=tile) (tmeta:=tmeta) unit) :
  appends P m -> appends P (when b m).
Proof. destruct b; [done | intros; apply appends_ret]. Qed.

Lemma appends_try_except {A} P (m : M (tile:=tile) (tmeta:=tmeta) A) c h :
  appends P m -> (forall e, appends P (h e)) -> appends P (try_except m c h).
Proof.
  intros Hm Hh w. unfold try_except.
  destruct (Hm w) as (n1 & E1 & F1).
  destruct (m w) as [[a | e | x] w1]; simpl in *; try by exists n1.
  destruct (isinstance c e); [| by exists n1].
  destruct (Hh e w1) as (n2 & E2 & F2).
  exists (n1 ++ n2). rewrite E2, E1, app_assoc. split; [done | by apply Forall_app].
Qed.

Lemma appends_try_bare {A} P (m h : M (tile:=tile) (tmeta:=tmeta) A) :
  appends P m -> appends P h -> appends P (try_bare m h).
Proof.
  intros Hm Hh w. unfold try_bare.
  destruct (Hm w) as (n1 & E1 & F1).
  destruct (m w) as [[a | e | x] w1]; simpl in *; try by exists n1.
  all: destruct (Hh w1) as (n2 & E2 & F2);
    exists (n1 ++ n2); rewrite E2, E1, app_assoc; split; [done | by apply Forall_app].
Qed.

Lemma appends_for_each {A} P (l : list A) (body : A -> M (tile:=tile) (tmeta:=tmeta) unit) :
  (forall x, appends P (body x)) -> appends P (for_each l body).
Proof.
  intros H. induction l as [| x l IH]; simpl.
  - apply appends_ret.
  - apply appends_bind; [apply H | by intros].
Qed.

Lemma appends_path_exists P p : appends (time:=time) (tile:=tile) (tmeta:=tmeta) P (path_exists p).
Proof. intros w. exists []. by rewrite app_nil_r. Qed.

Lemma appends_makedirs P p :
  P (EMakedirs p) -> appends (time:=time) (tile:=tile) (tmeta:=tmeta) P (makedirs p).
Proof.
  intros H w. unfold makedirs.
  destruct (fs w !! path_parts p); [| destruct (blocked _ _)]; simpl.
  - exists []. by rewrite app_nil_r.
  - exists []. by rewrite app_nil_r.
  - exists [EMakedirs p]. split; [done | by constructor].
Qed.

Lemma appends_np_save (O : @collaborators elem time span pixmap tile tmeta) P p x :
  (forall q, P (ESave q)) -> appends P (np_save O p x).
Proof.
  intros H w. unfold np_save.
  destruct (open_for_writing _ _); [destruct (savable O x) | |]; simpl.
  - eexists [_]. split; [done | by constructor].
  - eexists [_]. split; [done | by constructor].
  - exists []. by rewrite app_nil_r.
  - exists []. by rewrite app_nil_r.
Qed.

End Effects.

Section FileSystem.
Context {elem time span pixmap tile tmeta : Type}.
Implicit Types w : @world time tile tmeta.

(** *** Computations that leave the file system alone *)

Lemma keeps_fs_ret {A} (a : A) : keeps_fs (time:=time) (tile:=tile) (tmeta:=tmeta) (ret a).
Proof. by intros w. Qed.

Lemma keeps_fs_lift {A} (o : outcome A) :
  keeps_fs (time:=time) (tile:=tile) (tmeta:=tmeta) (lift o).
Proof. by intros w. Qed.

Lemma keeps_fs_raise {A} e :
  keeps_fs (time:=time) (tile:=tile) (tmeta:=tmeta) (raise (A:=A) e).
Proof. by intros w. Qed.

Lemma keeps_fs_emit ev : keeps_fs (time:=time) (tile:=tile) (tmeta:=tmeta) (emit ev).
Proof. by intros w. Qed.

Lemma keeps_fs_bind {A B} (m : M A) (k : A -> M (time:=time) (tile:=tile) (tmeta:=tmeta) B) :
  keeps_fs m -> (forall a, keeps_fs (k a)) -> keeps_fs (m ≫= k).
Proof.
  intros Hm Hk w. unfold mbind, M_bind, bind.
  specialize (Hm w). destruct (m w) as [[a | e | c] w1]; simpl in *; try done.
  by rewrite Hk.
Qed.

Lemma keeps_fs_call {A} c (o : outcome A) :
  keeps_fs (time:=time) (tile:=tile) (tmeta:=tmeta) (call c o).
Proof. apply keeps_fs_bind; [apply keeps_fs_emit | intros; apply keeps_fs_lift]. Qed.

Lemma keeps_fs_when b (m : M (time:=time) (tile:=tile) (tmeta:=tmeta) unit) :
  keeps_fs m -> keeps_fs (when b m).
Proof. destruct b; [done | intros; apply keeps_fs_ret]. Qed.

Lemma keeps_fs_try_except {A} (m : M (time:=time) (tile:=tile) (tmeta:=tmeta) A) c h :
  keeps_fs m -> (forall e, keeps_fs (h e)) -> keeps_fs (try_except m c h).
Proof.
  intros Hm Hh w. unfold try_except.
  specialize (Hm w). destruct (m w) as [[a | e | x] w1]; simpl in *; try done.
  destruct (isinstance c e); [by rewrite Hh | done].
Qed.

Lemma keeps_fs_try_bare {A} (m h : M (time:=time) (tile:=tile) (tmeta:=tmeta) A) :
  keeps_fs m -> keeps_fs h -> keeps_fs (try_bare m h).
Proof.
  intros Hm Hh w. unfold try_bare.
  specialize (Hm w). destruct (m w) as [[a | e | x] w1]; simpl in *; try done.
  all: by rewrite Hh.
Qed.

Lemma keeps_fs_py_time (O : @collaborators elem time span pixmap tile tmeta) :
  keeps_fs (py_time O).
Proof. by intros w. Qed.

Lemma appends_py_time (O : @collaborators elem time span pixmap tile tmeta) P :
  appends P (py_time O).
Proof. intros w. exists []. by rewrite app_nil_r. Qed.

End FileSystem.

Section Console.
Context {elem time span pixmap tile tmeta : Type}.
Implicit Types w : @world time tile tmeta.

(** *** Computations whose result does not depend on the console *)

Lemma same_but_console_refl w : same_but_console w w.
Proof. by repeat split. Qed.

Lemma same_but_console_emit w1 w2 ev :
  same_but_console w1 w2 ->
  same_but_console (snd (emit ev w1)) (snd (emit ev w2)).
Proof.
  intros (Hf & Ht & Hc). repeat split; simpl; try done.
  unfold without_console in *. rewrite !List.filter_app. by rewrite Hc.
Qed.

Lemma same_but_console_print_l w1 w2 l :
  same_but_console w1 w2 -> same_but_console (snd (print l w1)) w2.
Proof.
  intros (Hf & Ht & Hc). repeat split; simpl; try done.
  unfold without_console in *. rewrite List.filter_app. simpl. by rewrite app_nil_r.
Qed.

Lemma same_but_console_sym w1 w2 : same_but_console w1 w2 -> same_but_console w2 w1.
Proof. intros (Hf & Ht & Hc). by repeat split. Qed.

Lemma console_only_ret {A} (a : A) :
  console_only (time:=time) (tile:=tile) (tmeta:=tmeta) (ret a) (ret a).
Proof. by intros w1 w2 H. Qed.

Lemma console_only_lift {A} (o : outcome A) :
  console_only (time:=time) (tile:=tile) (tmeta:=tmeta) (lift o) (lift o).
Proof. by intros w1 w2 H. Qed.

Lemma console_only_emit ev :
  console_only (time:=time) (tile:=tile) (tmeta:=tmeta) (emit ev) (emit ev).
Proof. intros w1 w2 H. split; [done | by apply same_but_console_emit]. Qed.

Lemma console_only_bind {A B} (m1 m2 : M A)
    (k1 k2 : A -> M (time:=time) (tile:=tile) (tmeta:=tmeta) B) :
  console_only m1 m2 -> (forall a, console_only (k1 a) (k2 a)) ->
  console_only (m1 ≫= k1) (m2 ≫= k2).
Proof.
  intros Hm Hk w1 w2 H. unfold mbind, M_bind, bind.
  destruct (Hm w1 w2 H) as [Ho Hw].
  destruct (m1 w1) as [o1 u1], (m2 w2) as [o2 u2]; simpl in *; subst o2.
  destruct o1; [by apply Hk | done | done].
Qed.

Lemma console_only_call {A} c (o : outcome A) :
  console_only (time:=time) (tile:=tile) (tmeta:=tmeta) (call c o) (call c o).
Proof.
  apply console_only_bind; [apply console_only_emit | intros; apply console_only_lift].
Qed.

Lemma console_only_py_time (O : @collaborators elem time span pixmap tile tmeta) :
  console_only (py_time O) (py_time O).
Proof.
  intros w1 w2 (Hf & Ht & Hc). unfold py_time; simpl. rewrite Ht. by repeat split.
Qed.

Lemma console_only_try_except {A} (m1 m2 : M (time:=time) (tile:=tile) (tmeta:=tmeta) A)
    c h1 h2 :
  console_only m1 m2 -> (forall e, console_only (h1 e) (h2 e)) ->
  console_only (try_except m1 c h1) (try_except m2 c h2).
Proof.
  intros Hm Hh w1 w2 H. unfold try_except.
  destruct (Hm w1 w2 H) as [Ho Hw].
  destruct (m1 w1) as [o1 u1], (m2 w2) as [o2 u2]; simpl in *; subst o2.
  destruct o1 as [a | e | x]; try done.
  destruct (isinstance c e); [by apply Hh | done].
Qed.

Lemma console_only_try_bare {A} (m1 m2 h1 h2 : M (time:=time) (tile:=tile) (tmeta:=tmeta) A) :
  console_only m1 m2 -> console_only h1 h2 ->
  console_only (try_bare m1 h1) (try_bare m2 h2).
Proof.
  intros Hm Hh w1 w2 H. unfold try_bare.
  destruct (Hm w1 w2 H) as [Ho Hw].
  destruct (m1 w1) as [o1 u1], (m2 w2) as [o2 u2]; simpl in *; subst o2.
  destruct o1 as [a | e | x]; try done; by apply Hh.
Qed.

Lemma diagnostic_print (l : @line time) : diagnostic (tile:=tile) (tmeta:=tmeta) (print l).
Proof.
  intros w. split; [done |]. apply same_but_console_print_l, same_but_console_refl.
Qed.

Lemma diagnostic_seq (m1 m2 : M (time:=time) (tile:=tile) (tmeta:=tmeta) unit) :
  diagnostic m1 -> diagnostic m2 -> diagnostic (m1;; m2).
Proof.
  intros H1 H2 w. unfold mbind, M_bind, bind.
  destruct (H1 w) as [E1 (Hf1 & Ht1 & Hc1)].
  destruct (m1 w) as [o u]; simpl in *; subst o.
  destruct (H2 u) as [E2 (Hf2 & Ht2 & Hc2)].
  split; [done |]. repeat split; congruence.
Qed.

(** Guarded diagnostics: printing or not printing makes no difference. *)
Lemma console_only_when b1 b2 (m1 m2 : M (time:=time) (tile:=tile) (tmeta:=tmeta) unit) :
  diagnostic m1 -> diagnostic m2 -> console_only (when b1 m1) (when b2 m2).
Proof.
  intros H1 H2 w1 w2 (Hf & Ht & Hc).
  assert (Hw : forall b (m : M (time:=time) (tile:=tile) (tmeta:=tmeta) unit),
            diagnostic m -> diagnostic (when b m)).
  { intros [] m Hm; [done |]. intros w; split; [done | apply same_but_console_refl]. }
  destruct (Hw b1 m1 H1 w1) as [E1 (Hf1 & Ht1 & Hc1)].
  destruct (Hw b2 m2 H2 w2) as [E2 (Hf2 & Ht2 & Hc2)].
  split; [congruence |]. repeat split; congruence.
Qed.

End Console.

Section Results.
Context {elem time span pixmap tile tmeta : Type}.
Implicit Types w : @world time tile tmeta.

(** *** What a computation returns *)

Lemma bind_returns {A B} (m : M A) (k : A -> M (time:=time) (tile:=tile) (tmeta:=tmeta) B)
    w a w1 :
  m w = (Return a, w1) -> (m ≫= k) w = k a w1.
Proof. intros H. unfold mbind, M_bind, bind. by rewrite H. Qed.

Lemma on_return_bind {A B} (m : M A) (k : A -> M (time:=time) (tile:=tile) (tmeta:=tmeta) B)
    (P : A -> Prop) (Q : B -> Prop) :
  on_return m P -> (forall a, P a -> on_return (k a) Q) -> on_return (m ≫= k) Q.
Proof.
  intros Hm Hk w b w' H. unfold mbind, M_bind, bind in H.
  destruct (m w) as [[a | e | c] w1] eqn:Em; try discriminate.
  eapply Hk; [by eapply Hm | done].
Qed.

Lemma on_return_any {A} (m : M (time:=time) (tile:=tile) (tmeta:=tmeta) A) :
  on_return m (fun _ => True).
Proof. by intros w a w' H. Qed.

Lemma on_return_ret {A} (a : A) :
  on_return (time:=time) (tile:=tile) (tmeta:=tmeta) (ret a) (fun x => x = a).
Proof. intros w x w' H. by injection H as <- _. Qed.

Lemma on_return_lift {A} (o : outcome A) :
  on_return (time:=time) (tile:=tile) (tmeta:=tmeta) (lift o) (fun x => o = Return x).
Proof. intros w x w' H. by injection H as -> _. Qed.

Lemma on_return_call {A} c (o : outcome A) :
  on_return (time:=time) (tile:=tile) (tmeta:=tmeta) (call c o) (fun x => o = Return x).
Proof.
  unfold call. eapply on_return_bind; [apply on_return_any |].
  intros _ _. apply on_return_lift.
Qed.

Lemma always_returns_bind {A B} (m : M A)
    (k : A -> M (time:=time) (tile:=tile) (tmeta:=tmeta) B) (P : A -> Prop) (Q : B -> Prop) :
  always_returns m P -> (forall a, P a -> always_returns (k a) Q) ->
  always_returns (m ≫= k) Q.
Proof.
  intros Hm Hk w. unfold mbind, M_bind, bind.
  destruct (Hm w) as (a & w1 & -> & Ha). by apply Hk.
Qed.

Lemma always_returns_ret {A} (a : A) :
  always_returns (time:=time) (tile:=tile) (tmeta:=tmeta) (ret a) (fun x => x = a).
Proof. intros w. by exists a, w. Qed.

Lemma always_returns_lift {A} (o : outcome A) a :
  o = Return a ->
  always_returns (time:=time) (tile:=tile) (tmeta:=tmeta) (lift o) (fun x => x = a).
Proof. intros -> w. by exists a, w. Qed.

Lemma always_returns_emit ev :
  always_returns (time:=time) (tile:=tile) (tmeta:=tmeta) (emit ev) (fun _ => True).
Proof. intros w. by eexists tt, _. Qed.

Lemma always_returns_call {A} c (o : outcome A) a :
  o = Return a ->
  always_returns (time:=time) (tile:=tile) (tmeta:=tmeta) (call c o) (fun x => x = a).
Proof.
  intros H. unfold call. eapply always_returns_bind; [apply always_returns_emit |].
  intros _ _. by apply always_returns_lift.
Qed.

Lemma always_returns_diagnostic (m : M (time:=time) (tile:=tile) (tmeta:=tmeta) unit) :
  diagnostic m -> always_returns m (fun _ => True).
Proof.
  intros H w. destruct (H w) as [E _]. destruct (m w) as [o w1]; simpl in *; subst.
  by exists tt, w1.
Qed.

Lemma always_returns_when b (m : M (time:=time) (tile:=tile) (tmeta:=tmeta) unit) :
  diagnostic m -> always_returns (when b m) (fun _ => True).
Proof.
  intros H. destruct b; simpl; [by apply always_returns_diagnostic |].
  intros w. by exists tt, w.
Qed.

Lemma always_returns_py_time (O : @collaborators elem time span pixmap tile tmeta) :
  always_returns (py_time O) (fun _ => True).
Proof. intros w. by eexists _, _. Qed.

Lemma always_returns_weaken {A} (m : M (time:=time) (tile:=tile) (tmeta:=tmeta) A)
    (P Q : A -> Prop) :
  always_returns m P -> (forall a, P a -> Q a) -> always_returns m Q.
Proof. intros H HPQ w. destruct (H w) as (a & w1 & E & Ha). exists a, w1. auto. Qed.

End Results.

(** ** [extract_full_swath] *)

Section Swath.
Context {elem time span pixmap tile tmeta : Type}.
Variable O : @collaborators elem time span pixmap tile tmeta.
Implicit Types w : @world time tile tmeta.

Lemma keeps_fs_update_cloudsat_info (locals : option (span * pixmap * @pyobj elem span pixmap)) :
  keeps_fs (time:=time) (tile:=tile) (tmeta:=tmeta) (update_cloudsat_info locals).
Proof. by destruct locals as [[[? ?] []] |]. Qed.

Lemma appends_update_cloudsat_info P
    (locals : option (span * pixmap * @pyobj elem span pixmap)) :
  appends (time:=time) (tile:=tile) (tmeta:=tmeta) P (update_cloudsat_info locals).
Proof.
  destruct locals as [[[? ?] []] |]; intros w; exists []; by rewrite app_nil_r.
Qed.

Lemma console_only_update_cloudsat_info
    (locals : option (span * pixmap * @pyobj elem span pixmap)) :
  console_only (time:=time) (tile:=tile) (tmeta:=tmeta)
    (update_cloudsat_info locals) (update_cloudsat_info locals).
Proof. by destruct locals as [[[? ?] []] |]; intros w1 w2 H. Qed.

Ltac fs_steps :=
  repeat first
    [ apply keeps_fs_bind | apply keeps_fs_call | apply keeps_fs_when
    | apply keeps_fs_try_except | apply keeps_fs_try_bare | apply keeps_fs_py_time
    | apply keeps_fs_emit | apply keeps_fs_ret | apply keeps_fs_lift
    | apply keeps_fs_update_cloudsat_info
    | intros [? ?] | intro ].

Lemma extract_full_swath_keeps_fs f d3 d6 d35 dl dc v :
  keeps_fs (extract_full_swath O f d3 d6 d35 dl dc v).
Proof. unfold extract_full_swath, align_track, print. fs_steps. Qed.

Ltac trace_steps :=
  repeat first
    [ apply appends_bind | apply appends_call; [done] | apply appends_when
    | apply appends_try_except | apply appends_try_bare | apply appends_py_time
    | apply appends_emit; [done] | apply appends_ret | apply appends_lift
    | apply appends_update_cloudsat_info
    | intros [? ?] | intro ].

Lemma extract_full_swath_no_write f d3 d6 d35 dl dc v :
  appends (fun ev => is_write ev = false) (extract_full_swath O f d3 d6 d35 dl dc v).
Proof. unfold extract_full_swath, align_track, print. trace_steps. Qed.

Ltac console_steps :=
  repeat first
    [ apply console_only_bind | apply console_only_call
    | apply console_only_when; [repeat first [apply diagnostic_seq | apply diagnostic_print] ..]
    | apply console_only_try_except | apply console_only_try_bare
    | apply console_only_py_time
    | apply console_only_emit | apply console_only_ret | apply console_only_lift
    | apply console_only_update_cloudsat_info
    | intros [? ?] | intro ].

Lemma extract_full_swath_console_only f d3 d6 d35 dl dc v1 v2 :
  console_only (extract_full_swath O f d3 d6 d35 dl dc v1)
               (extract_full_swath O f d3 d6 d35 dl dc v2).
Proof. unfold extract_full_swath, align_track. console_steps. Qed.


(** A run that returns went through every loader and the stacking. *)
Lemma extract_full_swath_inv f d3 d6 d35 dl dc v :
  on_return (extract_full_swath O f d3 d6 d35 dl dc v)
    (fun '(T, meta, tag, name) =>
       exists swath buffer filled l2 cm stacked,
         get_swath O f d3 = Return swath
         /\ fill_all_channels O swath = Return (buffer, filled)
         /\ get_channels O f d6 = Return l2
         /\ get_cloud_mask O f d35 = Return cm
         /\ vstack O [filled_swath swath buffer; l2; expand_first cm] = Return stacked
         /\ T = astype O Float16 stacked
         /\ tag = usability_tag filled
         /\ name = basename f).
Proof.
  unfold extract_full_swath.
  eapply on_return_bind; [apply on_return_call | intros swath Hswath].
  eapply on_return_bind; [apply on_return_any | intros ? _].
  eapply on_return_bind; [apply on_return_any | intros ? _].
  eapply on_return_bind; [apply on_return_call | intros [buffer filled] Hfill].
  eapply on_return_bind; [apply on_return_any | intros ? _].
  eapply on_return_bind; [apply on_return_any | intros ? _].
  eapply on_return_bind; [apply on_return_call | intros l2 Hl2].
  eapply on_return_bind; [apply on_return_any | intros ? _].
  eapply on_return_bind; [apply on_return_call | intros cm Hcm].
  eapply on_return_bind; [apply on_return_any | intros ? _].
  eapply on_return_bind; [apply on_return_any | intros ? _].
  eapply on_return_bind; [apply on_return_any | intros locals _].
  eapply on_return_bind; [apply on_return_any | intros ? _].
  eapply on_return_bind; [apply on_return_any | intros ? _].
  eapply on_return_bind; [apply on_return_lift | intros T HT].
  eapply on_return_bind; [apply on_return_any | intros meta _].
  intros w [[[T' meta'] tag] name] w' H. unfold ret in H. simplify_eq.
  destruct (vstack O _) as [stacked | |] eqn:Est; simpl in HT; try discriminate.
  simplify_eq.
  by exists swath, buffer, filled, l2, cm, stacked.
Qed.

Ltac unfold_M :=
  unfold mbind, mret, M_bind, M_ret, bind, ret, call, print, emit, lift, when, raise,
    py_exit, py_time, try_except, try_bare in *.

(** The guarded alignment call (lines 71-80), case by case. *)
Lemma align_track_bound name f dl dc np lat lon r :
  getitem_neg np 2 = Return lat -> getitem_neg np 1 = Return lon ->
  get_cloudsat_mask O f dl dc lat lon false = Return r ->
  always_returns (time:=time) (tile:=tile) (tmeta:=tmeta)
    (align_track O name f dl dc np) (fun locals => locals = Some r).
Proof.
  intros H2 H1 Hr w. unfold align_track. unfold_M. rewrite H2, H1, Hr. simpl.
  by eexists _, _.
Qed.

Lemma align_track_raised name f dl dc np lat lon e :
  getitem_neg np 2 = Return lat -> getitem_neg np 1 = Return lon ->
  get_cloudsat_mask O f dl dc lat lon false = Raise e ->
  forall w : @world time tile tmeta,
    align_track O name f dl dc np w
    = (Return None,
       {| fs := fs w;
          trace := trace w ++ [ECall CGetCloudsatMask; EPrint (CouldntExtract name e)];
          ticks := ticks w |}).
Proof.
  intros H2 H1 Hr w. unfold align_track. unfold_M. rewrite H2, H1, Hr. simpl.
  rewrite isinstance_Exception. by rewrite <- app_assoc.
Qed.

Lemma align_track_too_few_channels name f dl dc np :
  (exists e, getitem_neg np 2 = Raise e) \/ (exists e, getitem_neg np 1 = Raise e) ->
  always_returns (time:=time) (tile:=tile) (tmeta:=tmeta)
    (align_track O name f dl dc np) (fun locals => locals = None).
Proof.
  intros H w. unfold align_track. unfold_M.
  destruct H as [[e He] | [e He]].
  - rewrite He. simpl. rewrite isinstance_Exception. by eexists _, _.
  - destruct (getitem_neg np 2) as [lat | e2 | c] eqn:E2; simpl.
    + rewrite He. simpl. rewrite isinstance_Exception. by eexists _, _.
    + rewrite isinstance_Exception. by eexists _, _.
    + unfold getitem_neg in E2. destruct (shape np); [done |].
      by destruct (2 <=? n)%nat.
Qed.

Lemma getitem_neg_no_exit (a : @ndarray elem) k c : getitem_neg a k <> Exit c.
Proof. unfold getitem_neg. destruct (shape a); [done |]. by destruct (k <=? n)%nat. Qed.

Lemma align_track_returns name f dl dc np :
  (forall lat lon c, get_cloudsat_mask O f dl dc lat lon false <> Exit c) ->
  always_returns (time:=time) (tile:=tile) (tmeta:=tmeta)
    (align_track O name f dl dc np) (fun _ => True).
Proof.
  intros Hno.
  destruct (getitem_neg np 2) as [lat | e2 | c] eqn:E2;
    [| eapply always_returns_weaken;
       [apply align_track_too_few_channels; left; by exists e2 | done]
     | by apply getitem_neg_no_exit in E2].
  destruct (getitem_neg np 1) as [lon | e1 | c] eqn:E1;
    [| eapply always_returns_weaken;
       [apply align_track_too_few_channels; right; by exists e1 | done]
     | by apply getitem_neg_no_exit in E1].
  destruct (get_cloudsat_mask O f dl dc lat lon false) as [r | e | c] eqn:Er.
  - eapply always_returns_weaken; [by eapply align_track_bound | done].
  - intros w. erewrite align_track_raised by done. by eexists _, _.
  - by apply Hno in Er.
Qed.

(** The guarded merge (lines 90-95) returns from every world: the updated
    dictionary when there is one, [None] in every other case. *)
Lemma guarded_merge_returns (locals : option (span * pixmap * @pyobj elem span pixmap)) :
  always_returns (time:=time) (tile:=tile) (tmeta:=tmeta)
    (try_bare (update_cloudsat_info locals) (ret PyNone))
    (fun meta =>
       match locals with
       | Some (cs_range, mapping, PyDict d) =>
           meta = PyDict (<["mapping" := VMapping mapping]>
                            (<["width-range" := VRange cs_range]> d))
       | _ => meta = PyNone
       end).
Proof.
  intros w. destruct locals as [[[cs_range mapping] [| d | e]] |]; by eexists _, _.
Qed.

(** A failure of the channel loader is fatal: it reaches the caller. *)
Lemma get_swath_failure_propagates f d3 d6 d35 dl dc v e w :
  get_swath O f d3 = Raise e ->
  fst (extract_full_swath O f d3 d6 d35 dl dc v w) = Raise e.
Proof.
  intros H. unfold extract_full_swath. unfold_M. by rewrite H.
Qed.

(** Whatever the merge step raises, the handler turns it into [None]. *)
Lemma guarded_merge_swallows (locals : option (span * pixmap * @pyobj elem span pixmap))
    (e : exn) w w' :
  update_cloudsat_info locals w = (Raise e, w') ->
  try_bare (update_cloudsat_info locals) (ret PyNone) w = (Return PyNone, w').
Proof. intros H. unfold try_bare. by rewrite H. Qed.

(** With the loaders' results and stackable grids, the function returns
    as soon as the guarded alignment call does. *)
Lemma extract_full_swath_returns f d3 d6 d35 dl dc v swath buffer filled l2 cm stacked
    (P : option (span * pixmap * @pyobj elem span pixmap) -> Prop) :
  get_swath O f d3 = Return swath ->
  fill_all_channels O swath = Return (buffer, filled) ->
  get_channels O f d6 = Return l2 ->
  get_cloud_mask O f d35 = Return cm ->
  vstack O [filled_swath swath buffer; l2; expand_first cm] = Return stacked ->
  always_returns (time:=time) (tile:=tile) (tmeta:=tmeta)
    (align_track O (basename f) f dl dc (filled_swath swath buffer)) P ->
  always_returns (extract_full_swath O f d3 d6 d35 dl dc v)
    (fun '(T, meta, tag, name) =>
       T = astype O Float16 stacked
       /\ tag = usability_tag filled
       /\ name = basename f
       /\ exists locals,
            P locals
            /\ match locals with
               | Some (cs_range, mapping, PyDict d) =>
                   meta = PyDict (<["mapping" := VMapping mapping]>
                                    (<["width-range" := VRange cs_range]> d))
               | _ => meta = PyNone
               end).
Proof.
  intros Hswath Hfill Hl2 Hcm Hst Halign. unfold extract_full_swath.
  assert (Hd : forall (b : bool) (l : @line time),
             always_returns (tile:=tile) (tmeta:=tmeta) (when b (print l)) (fun _ => True)).
  { intros. apply always_returns_when, diagnostic_print. }
  eapply always_returns_bind; [by apply always_returns_call | intros ? ->].
  eapply always_returns_bind; [apply Hd | intros ? _].
  eapply always_returns_bind; [apply always_returns_py_time | intros t1 _].
  eapply always_returns_bind; [by apply always_returns_call | intros ? ->].
  eapply always_returns_bind; [apply always_returns_py_time | intros t2 _].
  eapply always_returns_bind;
    [apply always_returns_when, diagnostic_seq; apply diagnostic_print | intros ? _].
  eapply always_returns_bind; [by apply always_returns_call | intros ? ->].
  eapply always_returns_bind; [apply Hd | intros ? _].
  eapply always_returns_bind; [by apply always_returns_call | intros ? ->].
  eapply always_returns_bind; [apply Hd | intros ? _].
  eapply always_returns_bind; [apply always_returns_py_time | intros t1' _].
  eapply always_returns_bind; [apply Halign | intros locals Hlocals].
  eapply always_returns_bind; [apply always_returns_py_time | intros t2' _].
  eapply always_returns_bind; [apply Hd | intros ? _].
  eapply always_returns_bind;
    [apply always_returns_lift; by rewrite Hst | intros ? ->].
  eapply always_returns_bind; [apply guarded_merge_returns | intros meta Hmeta].
  intros w. eexists _, w. split; [done |]. simpl.
  repeat split; try done. by exists locals.
Qed.

End Swath.

(** ** The usability tag *)

Lemma usability_tag_closed (filled : list nat) :
  usability_tag filled = "daylight" \/ usability_tag filled = "night"
  \/ usability_tag filled = "corrupt".
Proof.
  unfold usability_tag. destruct (length filled =? 15)%nat; [by left |].
  case_bool_decide; [right; by left | right; by right].
Qed.

Lemma StronglySorted_lt_NoDup (l : list nat) : StronglySorted lt l -> NoDup l.
Proof.
  induction 1 as [| x l Hs IH Hx]; constructor; [| done].
  intros Hin. rewrite Forall_forall in Hx. specialize (Hx x Hin). lia.
Qed.

(** An ordered set is determined by its elements. *)
Lemma ordered_set_unique (l1 l2 : list nat) :
  StronglySorted lt l1 -> StronglySorted lt l2 ->
  list_to_set (C:=gset nat) l1 = list_to_set l2 -> l1 = l2.
Proof.
  intros H1 H2 Hset.
  assert (Hel : forall x, x ∈ l1 <-> x ∈ l2).
  { intros x. rewrite <- !(elem_of_list_to_set (C:=gset nat)). by rewrite Hset. }
  assert (Hp : l1 ≡ₚ l2).
  { apply NoDup_Permutation; [by apply StronglySorted_lt_NoDup .. | done]. }
  eapply (StronglySorted_unique_strong lt); [| done | done | done].
  intros x y _ _ Hxy Hyx. lia.
Qed.

Lemma seq_StronglySorted (a n : nat) : StronglySorted lt (seq a n).
Proof.
  revert a. induction n as [| n IH]; intros a; simpl; constructor; [done |].
  apply Forall_forall. intros x Hx. apply elem_of_seq in Hx. lia.
Qed.

(** An ordered set of [n] indices below [n] is the whole range. *)
Lemma ordered_set_full (n : nat) (l : list nat) :
  StronglySorted lt l -> Forall (fun i => i < n) l -> length l = n -> l = seq 0 n.
Proof.
  intros Hs Hb Hlen.
  assert (Hnd : NoDup l) by by apply StronglySorted_lt_NoDup.
  assert (Hsub : l ⊆+ seq 0 n).
  { apply NoDup_submseteq; [done |]. intros x Hx. apply elem_of_seq.
    rewrite Forall_forall in Hb. specialize (Hb x Hx). lia. }
  assert (Hp : l ≡ₚ seq 0 n).
  { apply submseteq_length_Permutation; [done |]. rewrite length_seq. lia. }
  eapply (StronglySorted_unique_strong lt); [| done | apply seq_StronglySorted | done].
  intros x y _ _ Hxy Hyx. lia.
Qed.

(** On an ordered set of indices of a 15-channel grid, the test of the
    code and the policy of the specification agree. *)
Lemma usability_tag_is_policy (filled : list nat) :
  StronglySorted lt filled -> Forall (fun i => i < 15) filled ->
  usability_tag filled = tag_policy 15 (list_to_set filled).
Proof.
  intros Hs Hb. unfold usability_tag, tag_policy, all_channels, non_visible_channels.
  destruct (length filled =? 15)%nat eqn:Hlen.
  - apply Nat.eqb_eq in Hlen. rewrite (ordered_set_full 15 filled) by done.
    by rewrite decide_True.
  - apply Nat.eqb_neq in Hlen. rewrite decide_False; last first.
    { intros Heq. apply ordered_set_unique in Heq; [| done | apply seq_StronglySorted].
      subst. by rewrite length_seq in Hlen. }
    case_bool_decide as Hn.
    + subst. by rewrite decide_True.
    + rewrite decide_False; [done |]. intros Heq. apply Hn.
      apply ordered_set_unique; [done | | done].
      change (py_range 2 7 ++ py_range 8 15) with [2; 3; 4; 5; 6; 8; 9; 10; 11; 12; 13; 14].
      repeat (constructor; [| repeat (constructor; [lia |]); by constructor]).
      constructor.
Qed.

Example usability_tag_scenarios :
  usability_tag (seq 0 15) = "daylight"
  /\ usability_tag [2; 3; 4; 5; 6; 8; 9; 10; 11; 12; 13; 14] = "night"
  /\ usability_tag [0; 1; 2] = "corrupt".
Proof. repeat split; reflexivity. Qed.

(** The first test looks at the length of the list only. *)
Example usability_tag_length_only :
  usability_tag (replicate 15 0) = "daylight"
  /\ usability_tag (seq 1 15) = "daylight".
Proof. split; reflexivity. Qed.

(** ** Claims about [extract_full_swath] *)

Section SwathClaims.
Context {elem time span pixmap tile tmeta : Type}.
Implicit Types w : @world time tile tmeta.
Implicit Types O : @collaborators elem time span pixmap tile tmeta.

(** C1. In the reference configuration (a grid of 15 channels) and for a
    list returned by the Gap Filler as its interface describes it (an
    ordered set of channel indices of the grid), the tag that
    [extract_full_swath] returns is the one of the stated policy:
    "daylight" when the filled set is the set of all 15 channel indices,
    else "night" when it is exactly {2,3,4,5,6,8,9,10,11,12,13,14}, else
    "corrupt". *)
Theorem usability_tag_follows_policy O f d3 d6 d35 dl dc v w
    swath buffer filled T meta tag name w' :
  get_swath O f d3 = Return swath ->
  fill_all_channels O swath = Return (buffer, filled) ->
  channel_count swath = 15 ->
  ordered_channel_set swath filled ->
  extract_full_swath O f d3 d6 d35 dl dc v w = (Return (T, meta, tag, name), w') ->
  tag = tag_policy (channel_count swath) (list_to_set filled).
Proof.
  intros Hswath Hfill Hcount [Hs Hb] Hrun.
  apply extract_full_swath_inv in Hrun.
  destruct Hrun as (swath' & buffer' & filled' & l2 & cm & stacked & E1 & E2 & _ & _ & _ & _ & -> & _).
  rewrite Hswath in E1. simplify_eq. rewrite Hfill in E2. simplify_eq.
  rewrite Hcount in *. by apply usability_tag_is_policy.
Qed.

(** C5. The tag of a run that returns is one of "daylight", "night",
    "corrupt", and depends on nothing but what the Gap Filler reported:
    two runs (whatever their collaborators, paths, verbosity and worlds)
    whose Gap Filler returned the same list get the same tag, and so do
    two runs whose Gap Filler returned ordered sets with the same
    elements. *)
Theorem usability_tag_pure O1 O2 f1 f2 a1 a2 b1 b2 c1 c2 l1 l2 k1 k2 v1 v2 w1 w2
    swath1 swath2 buffer1 buffer2 filled1 filled2 T1 T2 meta1 meta2 tag1 tag2 name1 name2
    w1' w2' :
  get_swath O1 f1 a1 = Return swath1 ->
  fill_all_channels O1 swath1 = Return (buffer1, filled1) ->
  get_swath O2 f2 a2 = Return swath2 ->
  fill_all_channels O2 swath2 = Return (buffer2, filled2) ->
  extract_full_swath O1 f1 a1 b1 c1 l1 k1 v1 w1 = (Return (T1, meta1, tag1, name1), w1') ->
  extract_full_swath O2 f2 a2 b2 c2 l2 k2 v2 w2 = (Return (T2, meta2, tag2, name2), w2') ->
  (tag1 = "daylight" \/ tag1 = "night" \/ tag1 = "corrupt")
  /\ (filled1 = filled2 -> tag1 = tag2)
  /\ (StronglySorted lt filled1 -> StronglySorted lt filled2 ->
      list_to_set (C:=gset nat) filled1 = list_to_set filled2 -> tag1 = tag2).
Proof.
  intros Hs1 Hf1 Hs2 Hf2 Hrun1 Hrun2.
  apply extract_full_swath_inv in Hrun1, Hrun2.
  destruct Hrun1 as (? & ? & ? & ? & ? & ? & E1 & E2 & _ & _ & _ & _ & -> & _).
  destruct Hrun2 as (? & ? & ? & ? & ? & ? & E3 & E4 & _ & _ & _ & _ & -> & _).
  rewrite Hs1 in E1. simplify_eq. rewrite Hf1 in E2. simplify_eq.
  rewrite Hs2 in E3. simplify_eq. rewrite Hf2 in E4. simplify_eq.
  split; [apply usability_tag_closed |]. split; [by intros -> |].
  intros S1 S2 Hset. by rewrite (ordered_set_unique _ _ S1 S2 Hset).
Qed.



(** Grids whose trailing axes differ do not stack: the error is a
    [ValueError], which [extract_full_swath] lets through. *)
Lemma vstack_mismatch O (a b cm : @ndarray elem) n k r c r' c' :
  shape a = [n; r; c] -> shape b = [k; r'; c'] -> (r', c') <> (r, c) ->
  exists e, vstack O [a; b; expand_first cm] = Raise e /\ exn_class e = ValueError.
Proof.
  intros Ha Hb Hne. unfold vstack, concatenate0, atleast_2d, expand_first. simpl.
  rewrite Ha, Hb. simpl. rewrite Ha, Hb. simpl.
  rewrite bool_decide_eq_false_2 by (intros [= -> ->]; by apply Hne). simpl.
  by eexists.
Qed.

(** Well-formed grids stack into a well-formed tensor. *)
Lemma vstack_grids_well_formed O (a b cm stacked : @ndarray elem) n k r c :
  shape a = [n; r; c] -> shape b = [k; r; c] -> shape cm = [r; c] ->
  well_formed a -> well_formed b -> well_formed cm ->
  vstack O [a; b; expand_first cm] = Return stacked ->
  well_formed (astype O Float16 stacked).
Proof.
  intros Ha Hb Hcm Wa Wb Wcm. unfold vstack, concatenate0, atleast_2d, expand_first. simpl.
  rewrite Ha, Hb, Hcm. simpl. rewrite Ha, Hb. simpl.
  rewrite !bool_decide_eq_true_2 by done. simpl. intros [= <-].
  unfold well_formed, numel in *. rewrite Ha in Wa. rewrite Hb in Wb. rewrite Hcm in Wcm.
  simpl in *. rewrite length_map, app_nil_r, !length_app, !length_map. lia.
Qed.


(** C2. Let the four loaders return and their grids stack.  If the
    Track Aligner raises, whatever the exception, the run does not
    abort: it returns the fused tensor (the stacked grids as float16),
    the usability tag of the filled channels (one of the three tags)
    and the basename of the input, with [None] - not the empty
    mapping - as metadata, and the file system is as before.  The run
    in which alignment succeeds with zero variables returns the very
    same tensor, tag and name. *)
Theorem alignment_failure_not_fatal O fail zero f d3 d6 d35 dl dc v w
    swath buffer filled l2 cm stacked :
  get_swath O f d3 = Return swath ->
  fill_all_channels O swath = Return (buffer, filled) ->
  get_channels O f d6 = Return l2 ->
  get_cloud_mask O f d35 = Return cm ->
  vstack O [filled_swath swath buffer; l2; expand_first cm] = Return stacked ->
  (forall a b c lat lon ml, exists e, fail a b c lat lon ml = Raise e) ->
  (forall a b c lat lon ml, exists cs_range mapping,
      zero a b c lat lon ml = Return (cs_range, mapping, PyDict ∅)) ->
  exists w1 meta0 w0,
    extract_full_swath (with_aligner O fail) f d3 d6 d35 dl dc v w
      = (Return (astype O Float16 stacked, PyNone, usability_tag filled, basename f), w1)
    /\ (usability_tag filled = "daylight" \/ usability_tag filled = "night"
        \/ usability_tag filled = "corrupt")
    /\ PyNone <> PyDict (elem:=elem) (span:=span) (pixmap:=pixmap) ∅
    /\ fs w1 = fs w
    /\ extract_full_swath (with_aligner O zero) f d3 d6 d35 dl dc v w
       = (Return (astype O Float16 stacked, meta0, usability_tag filled, basename f), w0).
Proof.
  intros Hswath Hfill Hl2 Hcm Hst Hfail Hzero.
  assert (Halign : always_returns (time:=time) (tile:=tile) (tmeta:=tmeta)
            (align_track (with_aligner O fail) (basename f) f dl dc
               (filled_swath swath buffer)) (fun locals => locals = None)).
  { destruct (getitem_neg (filled_swath swath buffer) 2) as [lat | e2 | c2] eqn:E2;
      [| apply align_track_too_few_channels; left; by exists e2
       | by apply getitem_neg_no_exit in E2].
    destruct (getitem_neg (filled_swath swath buffer) 1) as [lon | e1 | c1] eqn:E1;
      [| apply align_track_too_few_channels; right; by exists e1
       | by apply getitem_neg_no_exit in E1].
    destruct (Hfail f dl dc lat lon false) as [e He].
    intros u. erewrite align_track_raised; [by eexists _, _ | done | done | done]. }
  destruct (extract_full_swath_returns (with_aligner O fail) f d3 d6 d35 dl dc v
              swath buffer filled l2 cm stacked _ Hswath Hfill Hl2 Hcm Hst Halign w)
    as ([[[T' meta'] tag'] name'] & w1 & Hrun & -> & -> & -> & locals & -> & ->).
  assert (Hzero' : forall lat lon c,
            get_cloudsat_mask (with_aligner O zero) f dl dc lat lon false <> Exit c).
  { intros lat lon c. destruct (Hzero f dl dc lat lon false) as (r & m & Hr).
    simpl. by rewrite Hr. }
  destruct (extract_full_swath_returns (with_aligner O zero) f d3 d6 d35 dl dc v
              swath buffer filled l2 cm stacked _ Hswath Hfill Hl2 Hcm Hst
              (align_track_returns (with_aligner O zero) (basename f) f dl dc _ Hzero') w)
    as ([[[T0 meta0] tag0] name0] & w0 & Hrun0 & -> & -> & -> & _).
  exists w1, meta0, w0. split; [exact Hrun |].
  split; [apply usability_tag_closed |]. split; [done |]. split; [| exact Hrun0].
  pose proof (extract_full_swath_keeps_fs (with_aligner O fail) f d3 d6 d35 dl dc v w) as Hfs.
  by rewrite Hrun in Hfs.
Qed.

(** C6. With the loaders' results stackable and the swath's two trailing
    channels at hand, [extract_full_swath] returns whatever the aligner
    does short of leaving the interpreter.  If the aligner returns a
    mapping [d], the metadata is [d] with "width-range" bound to the span
    and "mapping" to the pixel mapping, every other key as in [d].  In
    every other case the merge step raises (UnboundLocalError after a
    failed alignment, AttributeError on [None], any exception [e] on
    another object) and the metadata is [None]; nothing propagates. *)
Theorem metadata_merge_policy O f d3 d6 d35 dl dc v swath buffer filled l2 cm stacked
    lat lon res :
  get_swath O f d3 = Return swath ->
  fill_all_channels O swath = Return (buffer, filled) ->
  get_channels O f d6 = Return l2 ->
  get_cloud_mask O f d35 = Return cm ->
  vstack O [filled_swath swath buffer; l2; expand_first cm] = Return stacked ->
  getitem_neg (filled_swath swath buffer) 2 = Return lat ->
  getitem_neg (filled_swath swath buffer) 1 = Return lon ->
  get_cloudsat_mask O f dl dc lat lon false = res ->
  (forall code, res <> Exit code) ->
  forall w, exists T meta tag name w',
    extract_full_swath O f d3 d6 d35 dl dc v w = (Return (T, meta, tag, name), w')
    /\ match res with
       | Return (cs_range, mapping, PyDict d) =>
           exists d',
             meta = PyDict d'
             /\ d' !! "width-range" = Some (VRange cs_range)
             /\ d' !! "mapping" = Some (VMapping mapping)
             /\ (forall key, key <> "width-range" -> key <> "mapping" -> d' !! key = d !! key)
             /\ dom d' = dom d ∪ {["width-range"; "mapping"]}
       | Return (_, _, PyNone) | Return (_, _, PyFaulty _) | Raise _ | Exit _ =>
           meta = PyNone
       end.
Proof.
  intros Hswath Hfill Hl2 Hcm Hst H2 H1 Hres Hno w.
  assert (Halign : always_returns (time:=time) (tile:=tile) (tmeta:=tmeta)
            (align_track O (basename f) f dl dc (filled_swath swath buffer))
            (fun locals => locals = match res with Return r => Some r | _ => None end)).
  { destruct res as [r | e | c] eqn:Er.
    - by eapply align_track_bound.
    - intros u. erewrite align_track_raised; [by eexists _, _ | done | done | done].
    - by destruct (Hno c). }
  destruct (extract_full_swath_returns O f d3 d6 d35 dl dc v
              swath buffer filled l2 cm stacked _ Hswath Hfill Hl2 Hcm Hst Halign w)
    as ([[[T meta] tag] name] & w' & Hrun & _ & _ & _ & locals & -> & Hmeta).
  exists T, meta, tag, name, w'. split; [done |].
  destruct res as [[[cs_range mapping] [| d | e]] | e | c]; try done.
  eexists. split; [done |].
  split; [by rewrite lookup_insert_ne, lookup_insert_eq |].
  split; [by rewrite lookup_insert_eq |].
  split; [intros key K1 K2; by rewrite !lookup_insert_ne |].
  rewrite !dom_insert_L. apply set_eq. intros key. rewrite !elem_of_union. tauto.
Qed.

(** C9. Verbosity 0 and verbosity 1 end alike (same returned tuple, or
    same exception, or same exit request) after the same collaborator
    calls; and whatever the verbosity, [extract_full_swath] leaves the
    file system untouched and performs no write. *)
Theorem verbosity_no_behavioral_effect O f d3 d6 d35 dl dc w :
  fst (extract_full_swath O f d3 d6 d35 dl dc 0 w)
    = fst (extract_full_swath O f d3 d6 d35 dl dc 1 w)
  /\ without_console (trace (snd (extract_full_swath O f d3 d6 d35 dl dc 0 w)))
     = without_console (trace (snd (extract_full_swath O f d3 d6 d35 dl dc 1 w)))
  /\ forall v,
       fs (snd (extract_full_swath O f d3 d6 d35 dl dc v w)) = fs w
       /\ exists new,
            trace (snd (extract_full_swath O f d3 d6 d35 dl dc v w)) = trace w ++ new
            /\ Forall (fun ev => is_write ev = false) new.
Proof.
  destruct (extract_full_swath_console_only O f d3 d6 d35 dl dc 0 1 w w
              (same_but_console_refl w)) as [Hout (_ & _ & Hcalls)].
  split; [done |]. split; [done |]. intros v. split.
  - apply extract_full_swath_keeps_fs.
  - apply extract_full_swath_no_write.
Qed.

End SwathClaims.

(** ** [extract_tiles_from_swath] *)

Section Tiles.
Context {elem time span pixmap tile tmeta : Type}.
Variable O : @collaborators elem time span pixmap tile tmeta.
Implicit Types w : @world time tile tmeta.


(** Lines 137-142 when the sampler raises a [ValueError]. *)
Lemma extract_tiles_value_error np swath_name save_dir tile_size v w e :
  sample_labelled_and_unlabelled_tiles O np tile_size = Raise e ->
  isinstance ValueError e = true ->
  extract_tiles_from_swath O np swath_name save_dir tile_size v w
  = (Exit 0,
     {| fs := fs w;
        trace := trace w ++ [ECall CSampleTiles; EPrint (TilesFailed (exn_msg e))];
        ticks := ticks w |}).
Proof.
  intros Hs He. unfold extract_tiles_from_swath.
  unfold mbind, M_bind, bind, try_except, call, emit, lift, print, py_exit. simpl.
  rewrite Hs, He. simpl. by rewrite <- app_assoc.
Qed.

Lemma when_print_run (b : bool) (l : @line time) w :
  when b (print l) w
  = (Return tt,
     {| fs := fs w; trace := trace w ++ (if b then [EPrint l] else []); ticks := ticks w |}).
Proof.
  destruct b; simpl; [done |]. unfold ret. destruct w; simpl. by rewrite app_nil_r.
Qed.

(** Any other error of the sampler reaches the caller. *)
Lemma sampler_other_error_propagates np swath_name save_dir tile_size v w e :
  sample_labelled_and_unlabelled_tiles O np tile_size = Raise e ->
  isinstance ValueError e = false ->
  fst (extract_tiles_from_swath O np swath_name save_dir tile_size v w) = Raise e.
Proof.
  intros Hs He. unfold extract_tiles_from_swath.
  unfold mbind, M_bind, bind, try_except, call, emit, lift. simpl.
  by rewrite Hs, He.
Qed.

(** Lines 147-163 add directory creations and saves to the trace, nothing else. *)
Lemma save_tiles_appends_writes save_dir filename_npy
    (label_tiles nonlabel_tiles : list tile) (label_metadata nonlabel_metadata : list tmeta) :
  appends (time:=time) (fun ev => is_write ev = true)
    (for_each [os_path_join save_dir ["label"; "tiles"];
               os_path_join save_dir ["label"; "metadata"];
               os_path_join save_dir ["nonlabel"; "tiles"];
               os_path_join save_dir ["nonlabel"; "metadata"]]
       (fun dr => present ← path_exists dr; when (negb present) (makedirs dr));;
     np_save O (os_path_join (os_path_join save_dir ["label"; "tiles"]) [filename_npy])
       (PTiles label_tiles);;
     np_save O (os_path_join (os_path_join save_dir ["label"; "metadata"]) [filename_npy])
       (PMeta label_metadata);;
     np_save O (os_path_join (os_path_join save_dir ["nonlabel"; "tiles"]) [filename_npy])
       (PTiles nonlabel_tiles);;
     np_save O (os_path_join (os_path_join save_dir ["nonlabel"; "metadata"]) [filename_npy])
       (PMeta nonlabel_metadata)).
Proof.
  repeat first
    [ apply appends_for_each | apply appends_bind | apply appends_path_exists
    | apply appends_when | apply appends_makedirs; [done]
    | apply appends_np_save; [by intros] | intros ? ].
Qed.

(** C7. If the Tile Sampler raises a [ValueError], the driver prints
    the error and ends the invocation (with [exit(0)], so it does not
    return): what it adds to the trace is the call of the sampler and that
    one console line, no directory is created, no file is saved and the
    file system is as before. *)
Theorem sampling_failure_writes_nothing np swath_name save_dir tile_size v w e :
  sample_labelled_and_unlabelled_tiles O np tile_size = Raise e ->
  isinstance ValueError e = true ->
  exists code w',
    extract_tiles_from_swath O np swath_name save_dir tile_size v w = (Exit code, w')
    /\ fs w' = fs w
    /\ trace w' = trace w ++ [ECall CSampleTiles; EPrint (TilesFailed (exn_msg e))]
    /\ forall ev, ev ∈ drop (length (trace w)) (trace w') -> is_write ev = false.
Proof.
  intros Hs He. eexists _, _. split; [by apply extract_tiles_value_error |]. simpl.
  split; [done |]. split; [done |].
  rewrite drop_app_length. intros ev Hev.
  apply elem_of_cons in Hev as [-> | Hev]; [done |].
  apply elem_of_cons in Hev as [-> | Hev]; [done |].
  by apply elem_of_nil in Hev.
Qed.

(** C10. If the Tile Sampler raises a [ValueError], the driver ends
    with the exit request [exit(0)]: it neither returns a value nor raises
    an exception to its caller, an [except C] clause around the call (for
    any class [C] under [Exception]) sees nothing, and the exit status is
    0, the status of success. *)
Theorem sampling_failure_exits_zero np swath_name save_dir tile_size v w e :
  sample_labelled_and_unlabelled_tiles O np tile_size = Raise e ->
  isinstance ValueError e = true ->
  fst (extract_tiles_from_swath O np swath_name save_dir tile_size v w) = Exit 0
  /\ exit_status (fst (extract_tiles_from_swath O np swath_name save_dir tile_size v w))
     = 0%Z
  /\ (forall x,
        fst (extract_tiles_from_swath O np swath_name save_dir tile_size v w) <> Return x)
  /\ (forall e',
        fst (extract_tiles_from_swath O np swath_name save_dir tile_size v w) <> Raise e')
  /\ (forall c handler,
        try_except (extract_tiles_from_swath O np swath_name save_dir tile_size v) c handler w
        = extract_tiles_from_swath O np swath_name save_dir tile_size v w).
Proof.
  intros Hs He.
  unfold try_except. rewrite (extract_tiles_value_error _ _ _ _ _ _ _ Hs He). simpl.
  by repeat split.
Qed.

(** C8. When the sampler returns its four collections, the only
    console line of the driver is the count report, printed when
    [verbose > 0], and the count in it is the number of labelled tiles
    plus the number of unlabelled tiles; everything after it in the trace
    is a directory creation or a save. *)
Theorem reported_tile_count np swath_name save_dir tile_size v w
    label_tiles nonlabel_tiles label_metadata nonlabel_metadata :
  sample_labelled_and_unlabelled_tiles O np tile_size
    = Return (label_tiles, nonlabel_tiles, label_metadata, nonlabel_metadata) ->
  exists writes,
    trace (snd (extract_tiles_from_swath O np swath_name save_dir tile_size v w))
    = trace w ++ [ECall CSampleTiles]
        ++ (if (0 <? v)%Z
            then [EPrint (TilesExtracted (length label_tiles + length nonlabel_tiles)
                            swath_name)]
            else [])
        ++ writes
    /\ Forall (fun ev => is_write ev = true) writes.
Proof.
  intros Hs. unfold extract_tiles_from_swath.
  erewrite bind_returns; last first.
  { unfold try_except, call, emit, lift, mbind, M_bind, bind. simpl. by rewrite Hs. }
  cbv beta iota.
  set (w1 := {| fs := fs w; trace := trace w ++ [ECall CSampleTiles]; ticks := ticks w |}).
  rewrite (bind_returns _ _ _ _ _ (when_print_run _ _ w1)).
  match goal with |- context [snd (?m ?u)] =>
    destruct (save_tiles_appends_writes save_dir (str_replace ".hdf" ".npy" swath_name)
                label_tiles nonlabel_tiles label_metadata nonlabel_metadata u)
      as (writes & Htr & Hw)
  end.
  exists writes. split; [| done].
  etransitivity; [exact Htr |]. simpl. by rewrite <- !app_assoc.
Qed.

End Tiles.

(** ** The command-line hook *)

Section Main.
Context {elem time span pixmap tile tmeta : Type}.
Variable O : @collaborators elem time span pixmap tile tmeta.
Implicit Types w : @world time tile tmeta.

Lemma name_matches_plain (name : string) :
  plain_name name = true -> name_matches O name name = true.
Proof. intros H. unfold name_matches. rewrite H. apply String.eqb_refl. Qed.

Lemma below_matching_hit (root dirs : list string) (name : string) (matches : string -> bool) :
  matches name = true -> below_matching root matches (root ++ dirs ++ [name]) = true.
Proof.
  intros H. unfold below_matching. rewrite drop_app_length.
  rewrite bool_decide_eq_true_2 by by eexists.
  destruct (dirs ++ [name]) as [| x rel] eqn:E; [by destruct dirs |].
  rewrite <- E, last_last. by rewrite H.
Qed.

(** An entry of that name anywhere below the root is found. *)
Lemma rglob_finds (root name : string) (dirs : list string) w (nd : @node tile tmeta) :
  plain_name name = true ->
  fs w !! (path_parts root ++ dirs ++ [name]) = Some nd ->
  exists p found, rglob O root name w = (Return (p :: found), w).
Proof.
  intros Hplain Hfs. unfold rglob.
  set (l := List.filter _ _).
  assert (Hin : In (path_parts root ++ dirs ++ [name]) l).
  { apply filter_In. split.
    - apply list_elem_of_In, list_elem_of_fmap. eexists (_, nd). split; [done |].
      by apply elem_of_map_to_list.
    - by apply below_matching_hit, name_matches_plain. }
  destruct l as [| p found]; [done |]. by exists p, found.
Qed.

(** C4. When an entry with the canonical name of the input (built from
    year, day of year, hour and minute) exists somewhere below the output
    root, the hook ends with an exception ([FileExistsError], or the
    [ValueError] of line 190 when the input path has fewer than two
    directory components) before any loader is called: the only
    collaborator entered, if any, is the file-name parser; nothing is
    written and the file system, the existing output included, is as it
    was. *)
Theorem existing_output_fails_first prog save_dir myd02_filename rest w
    year abs_day hour minute dirs nd :
  get_file_time_info O myd02_filename = Return (year, abs_day, hour, minute) ->
  plain_name (canonical_name year abs_day hour minute) = true ->
  fs w !! (path_parts save_dir ++ dirs ++ [canonical_name year abs_day hour minute])
    = Some nd ->
  exists e w' new,
    main O (prog :: save_dir :: myd02_filename :: rest) w = (Raise e, w')
    /\ fs w' = fs w
    /\ trace w' = trace w ++ new
    /\ (new = [] \/ new = [ECall CGetFileTimeInfo])
    /\ Forall (fun ev => is_loader_call ev = false /\ is_write ev = false) new
    /\ (forall month day,
          unpack_last_two (str_split slash (fst (os_path_split myd02_filename)))
            = Return (month, day) ->
          e = mkExn FileExistsError
                (canonical_name year abs_day hour minute
                 +:+ " already exist. Not extracting it again.")).
Proof.
  intros Hinfo Hplain Hfs. unfold main.
  do 2 (erewrite bind_returns by reflexivity).
  destruct (os_path_split myd02_filename) as [root_dir filename]. simpl fst.
  destruct (unpack_last_two (str_split slash root_dir)) as [[month day] | e | c] eqn:Eu.
  - erewrite bind_returns by reflexivity. cbv beta iota.
    erewrite bind_returns; last first.
    { unfold call, emit, lift, mbind, M_bind, bind. by rewrite Hinfo. }
    cbv beta iota zeta.
    set (w1 := {| fs := fs w; trace := trace w ++ [ECall CGetFileTimeInfo];
                  ticks := ticks w |}).
    destruct (rglob_finds save_dir _ dirs w1 nd Hplain Hfs) as (p & found & Hglob).
    rewrite (bind_returns _ _ _ _ _ Hglob).
    eexists _, w1, [ECall CGetFileTimeInfo].
    split; [reflexivity |]. split; [done |]. split; [done |]. split; [by right |].
    split; [by repeat constructor | done].
  - exists e, w, []. rewrite app_nil_r.
    split; [done |]. split; [done |]. split; [done |]. split; [by left |]. by split.
  - unfold unpack_last_two in Eu.
    by destruct (drop _ _) as [| ? [| ? [| ? ?]]].
Qed.

End Main.

(** ** The claims on the reference configuration *)

Lemma usability_tag_follows_policy_witness :
  "daylight" = tag_policy (channel_count demo_swath) (list_to_set (seq 0 15)).
Proof.
  eapply (usability_tag_follows_policy demo demo_input "g" "l2" "cm" "lidar" "cs" 1
            empty_world demo_swath).
  - reflexivity.
  - reflexivity.
  - reflexivity.
  - split; [apply seq_StronglySorted |].
    apply Forall_forall. intros i Hi. apply elem_of_seq in Hi.
    change (i < 15). lia.
  - vm_compute. reflexivity.
Defined.

Lemma usability_tag_pure_witness :
  ("night" = "daylight" \/ "night" = "night" \/ "night" = "corrupt")
  /\ ([2; 3; 4; 5; 6; 8; 9; 10; 11; 12; 13; 14] = [2; 3; 4; 5; 6; 8; 9; 10; 11; 12; 13; 14]
      -> "night" = "night")
  /\ (StronglySorted lt [2; 3; 4; 5; 6; 8; 9; 10; 11; 12; 13; 14] ->
      StronglySorted lt [2; 3; 4; 5; 6; 8; 9; 10; 11; 12; 13; 14] ->
      list_to_set (C:=gset nat) [2; 3; 4; 5; 6; 8; 9; 10; 11; 12; 13; 14]
        = list_to_set [2; 3; 4; 5; 6; 8; 9; 10; 11; 12; 13; 14] ->
      "night" = "night").
Proof.
  eapply (usability_tag_pure demo_night demo_night demo_input "other.hdf"
            "g" "g'" "l2" "l2'" "cm" "cm'" "lidar" "lidar'" "cs" "cs'" 0 1
            empty_world processed_world demo_swath demo_swath).
  - reflexivity.
  - reflexivity.
  - reflexivity.
  - reflexivity.
  - vm_compute. reflexivity.
  - vm_compute. reflexivity.
Defined.


Lemma alignment_failure_not_fatal_witness :
  exists w1 meta0 w0,
    extract_full_swath (with_aligner demo demo_failing_aligner)
      demo_input "g" "l2" "cm" "lidar" "cs" 1 empty_world
      = (Return (astype demo Float16
                   (mkArr [15 + (3 + (1 + 0)); 1; 1] Float32
                      (List.map Z.of_nat (seq 0 15) ++ [100; 101; 102; 1]%Z)),
                 PyNone, usability_tag (seq 0 15), basename demo_input), w1)
    /\ (usability_tag (seq 0 15) = "daylight" \/ usability_tag (seq 0 15) = "night"
        \/ usability_tag (seq 0 15) = "corrupt")
    /\ PyNone <> PyDict (elem:=Z) (span:=Z * Z) (pixmap:=list (nat * nat)) ∅
    /\ fs w1 = fs empty_world
    /\ extract_full_swath (with_aligner demo demo_zero_aligner)
         demo_input "g" "l2" "cm" "lidar" "cs" 1 empty_world
       = (Return (astype demo Float16
                    (mkArr [15 + (3 + (1 + 0)); 1; 1] Float32
                       (List.map Z.of_nat (seq 0 15) ++ [100; 101; 102; 1]%Z)),
                  meta0, usability_tag (seq 0 15), basename demo_input), w0).
Proof.
  apply (alignment_failure_not_fatal demo demo_failing_aligner demo_zero_aligner
           demo_input "g" "l2" "cm" "lidar" "cs" 1 empty_world
           demo_swath (data demo_swath) (seq 0 15) demo_l2 demo_cm).
  - reflexivity.
  - reflexivity.
  - reflexivity.
  - reflexivity.
  - reflexivity.
  - intros. eexists. reflexivity.
  - intros. eexists _, _. reflexivity.
Defined.

Lemma metadata_merge_policy_witness :
  exists T meta tag name w',
    extract_full_swath demo demo_input "g" "l2" "cm" "lidar" "cs" 1 empty_world
      = (Return (T, meta, tag, name), w')
    /\ exists d',
         meta = PyDict d'
         /\ d' !! "width-range" = Some (VRange (3, 9)%Z)
         /\ d' !! "mapping" = Some (VMapping [(0, 1)])
         /\ (forall key, key <> "width-range" -> key <> "mapping" ->
             d' !! key = (∅ : gmap string _) !! key)
         /\ dom d' = dom (∅ : gmap string (@meta_val Z (Z * Z) (list (nat * nat))))
                       ∪ {["width-range"; "mapping"]}.
Proof.
  refine (metadata_merge_policy demo demo_input "g" "l2" "cm" "lidar" "cs" 1
            demo_swath _ _ demo_l2 demo_cm _ _ _
            (Return ((3, 9)%Z, [(0, 1)], PyDict ∅)) _ _ _ _ _ _ _ _ _ empty_world).
  - reflexivity.
  - reflexivity.
  - reflexivity.
  - reflexivity.
  - vm_compute. reflexivity.
  - vm_compute. reflexivity.
  - vm_compute. reflexivity.
  - reflexivity.
  - intros code. discriminate.
Defined.

Lemma sampling_failure_writes_nothing_witness :
  exists code w',
    extract_tiles_from_swath demo demo_swath "x.hdf" "out" 3 1 empty_world = (Exit code, w')
    /\ fs w' = fs empty_world
    /\ trace w' = trace empty_world
                  ++ [ECall CSampleTiles; EPrint (TilesFailed "tile size exceeds the swath")]
    /\ forall ev, ev ∈ drop (length (trace empty_world)) (trace w') -> is_write ev = false.
Proof.
  apply (sampling_failure_writes_nothing demo demo_swath "x.hdf" "out" 3 1 empty_world
           (mkExn ValueError "tile size exceeds the swath")).
  - reflexivity.
  - reflexivity.
Defined.

Lemma sampling_failure_exits_zero_witness :
  fst (extract_tiles_from_swath demo demo_swath "x.hdf" "out" 3 1 empty_world) = Exit 0
  /\ exit_status (fst (extract_tiles_from_swath demo demo_swath "x.hdf" "out" 3 1
                         empty_world)) = 0%Z
  /\ (forall x,
        fst (extract_tiles_from_swath demo demo_swath "x.hdf" "out" 3 1 empty_world)
        <> Return x)
  /\ (forall e',
        fst (extract_tiles_from_swath demo demo_swath "x.hdf" "out" 3 1 empty_world)
        <> Raise e')
  /\ (forall c handler,
        try_except (extract_tiles_from_swath demo demo_swath "x.hdf" "out" 3 1) c handler
          empty_world
        = extract_tiles_from_swath demo demo_swath "x.hdf" "out" 3 1 empty_world).
Proof.
  apply (sampling_failure_exits_zero demo demo_swath "x.hdf" "out" 3 1 empty_world
           (mkExn ValueError "tile size exceeds the swath")).
  - reflexivity.
  - reflexivity.
Defined.

Lemma reported_tile_count_witness :
  exists writes,
    trace (snd (extract_tiles_from_swath demo demo_swath "x.hdf" "out" 1 1 empty_world))
    = trace empty_world ++ [ECall CSampleTiles]
        ++ [EPrint (TilesExtracted (1 + 2) "x.hdf")]
        ++ writes
    /\ Forall (fun ev => is_write ev = true) writes.
Proof.
  apply (reported_tile_count demo demo_swath "x.hdf" "out" 1 1 empty_world
           [[1%Z]] [[2%Z]; [3%Z]] [7] [8; 9]).
  reflexivity.
Defined.

Lemma existing_output_fails_first_witness :
  exists e w' new,
    main demo ["pipeline.py"; "out"; demo_input] processed_world = (Raise e, w')
    /\ fs w' = fs processed_world
    /\ trace w' = trace processed_world ++ new
    /\ (new = [] \/ new = [ECall CGetFileTimeInfo])
    /\ Forall (fun ev => is_loader_call ev = false /\ is_write ev = false) new
    /\ (forall month day,
          unpack_last_two (str_split slash (fst (os_path_split demo_input)))
            = Return (month, day) ->
          e = mkExn FileExistsError
                (canonical_name "2008" "002" "13" "55"
                 +:+ " already exist. Not extracting it again.")).
Proof.
  apply (existing_output_fails_first demo "pipeline.py" "out" demo_input [] processed_world
           "2008" "002" "13" "55" ["daylight"] (File (PTiles []))).
  - reflexivity.
  - reflexivity.
  - vm_compute. reflexivity.
Defined.

Example main_on_fresh_output :
  fst (main demo ["pipeline.py"; "out"; demo_input] empty_world)
  = Raise (mkExn TypeError
             "extract_full_swath() got an unexpected keyword argument 'save_dir'").
Proof. vm_compute. reflexivity. Qed.

(** * Further properties *)

(** ** Splitting and joining paths *)

Lemma str_split_nonempty (sep : ascii) (s : string) : str_split sep s <> [].
Proof.
  induction s as [| c s IH]; simpl; [done |].
  destruct (Ascii.eqb c sep); [done |]. by destruct (str_split sep s).
Qed.

Lemma str_split_app_sep (sep : ascii) (a b : string) :
  str_split sep (a +:+ String sep b) = str_split sep a ++ str_split sep b.
Proof.
  induction a as [| c a IH]; simpl.
  - by rewrite Ascii.eqb_refl.
  - destruct (Ascii.eqb c sep); [by rewrite IH |].
    rewrite IH. pose proof (str_split_nonempty sep a) as Hne.
    by destruct (str_split sep a).
Qed.

Lemma str_split_slash_free (s : string) :
  slash_free s = true -> str_split slash s = [s].
Proof.
  unfold slash_free. induction s as [| c s IH]; simpl; [done |].
  intros [Hc Hs]%andb_true_iff. apply negb_true_iff in Hc. rewrite Hc.
  by rewrite IH.
Qed.

(** Appending a slash-free suffix extends the last component. *)
Lemma str_split_app_slash_free (a b : string) :
  slash_free b = true ->
  str_split slash (a +:+ b)
  = removelast (str_split slash a) ++ [List.last (str_split slash a) "" +:+ b].
Proof.
  intros Hb. induction a as [| c a IH]; simpl.
  - by rewrite str_split_slash_free.
  - pose proof (str_split_nonempty slash a) as Hne.
    destruct (Ascii.eqb c slash).
    + rewrite IH. destruct (str_split slash a) as [| x l] eqn:E; [done |]. done.
    + rewrite IH. destruct (str_split slash a) as [| x l] eqn:E; [done |].
      destruct l as [| y l]; [done |]. simpl. done.
Qed.

(** The components of a split contain no separator. *)
Lemma str_split_components_slash_free (s : string) :
  Forall (fun c => slash_free c = true) (str_split slash s).
Proof.
  induction s as [| c s IH]; simpl; [by repeat constructor |].
  destruct (Ascii.eqb c slash) eqn:Ec; [by constructor |].
  destruct (str_split slash s) as [| x l].
  - constructor; [| constructor]. unfold slash_free. simpl. by rewrite Ec.
  - apply Forall_cons in IH as [Hx Hl]. constructor; [| done].
    unfold slash_free in *. simpl. by rewrite Ec.
Qed.

Lemma basename_slash_free (p : string) : slash_free (basename p) = true.
Proof.
  unfold basename. pose proof (str_split_components_slash_free p) as H.
  pose proof (str_split_nonempty slash p) as Hne.
  induction (str_split slash p) as [| x l IH]; [done |].
  apply Forall_cons in H as [Hx Hl]. destruct l as [| y l]; [done |]. by apply IH.
Qed.

Lemma append_cons (c : ascii) (s t : string) : String c s +:+ t = String c (s +:+ t).
Proof. reflexivity. Qed.

Lemma list_ascii_rev_app (s t : string) :
  list_ascii_of_string (String.rev_app s t)
  = List.rev (list_ascii_of_string s) ++ list_ascii_of_string t.
Proof.
  revert t. induction s as [| c s IH]; intros t; simpl; [done |].
  rewrite IH. simpl. by rewrite <- app_assoc.
Qed.

Lemma string_of_list_ascii_app (l1 l2 : list ascii) :
  string_of_list_ascii (l1 ++ l2) = string_of_list_ascii l1 +:+ string_of_list_ascii l2.
Proof.
  induction l1 as [| c l1 IH]; [done |].
  cbn [app string_of_list_ascii]. by rewrite IH.
Qed.

Lemma prefix_slash (s : string) :
  String.prefix "/" s = true <-> exists r, s = String "/" r.
Proof.
  destruct s as [| c r].
  - split; [discriminate | by intros [? ?]].
  - cbn [String.prefix]. destruct (ascii_dec "/" c) as [<- | Hne].
    + split; [by exists r | intros _; by destruct r].
    + split; [discriminate |]. intros [r' E]. injection E as E _. by destruct Hne.
Qed.

Lemma rev_app_slash (s : string) : String.rev (s +:+ "/") = String "/" (String.rev s).
Proof.
  rewrite <- (string_of_list_ascii_of_string (String.rev (s +:+ "/"))).
  rewrite <- (string_of_list_ascii_of_string (String "/" (String.rev s))).
  f_equal. unfold String.rev. cbn [list_ascii_of_string].
  rewrite !list_ascii_rev_app, !app_nil_r.
  assert (E : list_ascii_of_string (s +:+ "/") = list_ascii_of_string s ++ ["/"%char]).
  { induction s as [| c s IH]; [done |].
    rewrite append_cons. cbn [list_ascii_of_string]. by rewrite IH. }
  rewrite E. by rewrite List.rev_app_distr.
Qed.

(** [s.endswith("/")] holds exactly for the strings that end with a slash. *)
Lemma endswith_slash (s : string) :
  endswith "/" s = true <-> exists s', s = s' +:+ "/".
Proof.
  unfold endswith. change (String.rev "/") with "/". rewrite prefix_slash. split.
  - intros [r E].
    assert (Hl : list_ascii_of_string s
                 = List.rev (list_ascii_of_string r) ++ ["/"%char]).
    { apply (f_equal list_ascii_of_string) in E. unfold String.rev in E.
      rewrite list_ascii_rev_app, app_nil_r in E. cbn [list_ascii_of_string] in E.
      apply (f_equal (@List.rev ascii)) in E. rewrite List.rev_involutive in E.
      by rewrite E. }
    exists (string_of_list_ascii (List.rev (list_ascii_of_string r))).
    rewrite <- (string_of_list_ascii_of_string s), Hl.
    by rewrite string_of_list_ascii_app.
  - intros [s' ->]. rewrite rev_app_slash. by eexists.
Qed.

Lemma app_empty_r (s : string) : s +:+ "" = s.
Proof. induction s as [| c s IH]; [done |]. by rewrite append_cons, IH. Qed.

Lemma app_assoc_string (a b c : string) : (a +:+ b) +:+ c = a +:+ (b +:+ c).
Proof. induction a as [| x a IH]; [done |]. by rewrite !append_cons, IH. Qed.

Lemma last_str_split_ends_with_slash (s : string) :
  endswith "/" s = true -> List.last (str_split slash s) "" = "".
Proof.
  intros [s' ->]%endswith_slash. change "/" with (String slash "").
  rewrite str_split_app_sep. simpl. by rewrite last_last.
Qed.

Lemma startswith_slash_app (a b : string) :
  a <> "" -> startswith "/" (a +:+ b) = startswith "/" a.
Proof.
  intros Ha. destruct a as [| c a]; [done |]. unfold startswith.
  rewrite append_cons. cbn [String.prefix].
  destruct (ascii_dec "/" c); [| done].
  generalize (a +:+ b). intros x. by destruct a, x.
Qed.

Lemma plain_component_slash_free (n : string) :
  plain_component n = true -> slash_free n = true.
Proof. unfold plain_component. by intros [_ ?]%andb_true_iff. Qed.

Lemma plain_component_not_anchored (n : string) :
  plain_component n = true -> startswith "/" n = false.
Proof.
  intros H. pose proof (plain_component_slash_free n H) as Hs.
  destruct n as [| c n]; [done |].
  unfold slash_free in Hs. cbn [list_ascii_of_string forallb] in Hs.
  apply andb_true_iff in Hs as [Hc _].
  apply negb_true_iff, Ascii.eqb_neq in Hc. unfold startswith.
  cbn [String.prefix].
  destruct (ascii_dec "/" c) as [<- |]; [| done]. by destruct Hc.
Qed.

Lemma slash_free_app (a b : string) :
  slash_free a = true -> slash_free b = true -> slash_free (a +:+ b) = true.
Proof.
  unfold slash_free. intros Ha Hb. induction a as [| c a IH]; [done |].
  rewrite append_cons. cbn [list_ascii_of_string forallb] in *.
  apply andb_true_iff in Ha as [Hc Ha]. by rewrite Hc, IH.
Qed.

Lemma path_parts_unfold (p : string) :
  path_parts p
  = (if startswith "/" p then ["/"] else []) ++ List.filter kept_component (str_split slash p).
Proof. reflexivity. Qed.

(** Joining a plain name (and then appending a suffix to it) adds exactly
    one component. *)
Lemma path_parts_join_suffix (d n s : string) :
  plain_component n = true -> slash_free s = true -> kept_component (n +:+ s) = true ->
  path_parts (path_join2 d n +:+ s) = path_parts d ++ [n +:+ s].
Proof.
  intros Hn Hs Hk.
  pose proof (plain_component_slash_free n Hn) as Hnf.
  assert (Hne : n <> "") by (by destruct n).
  unfold path_join2. rewrite (plain_component_not_anchored n Hn).
  destruct (String.eqb d "") eqn:Ed; [| destruct (endswith "/" d) eqn:Ee]; cbn [orb].
  - apply String.eqb_eq in Ed as ->. change ("" +:+ n) with n.
    rewrite !path_parts_unfold, startswith_slash_app by done.
    rewrite (plain_component_not_anchored n Hn).
    rewrite str_split_slash_free by by apply slash_free_app.
    cbn [List.filter str_split]. by rewrite Hk.
  - apply String.eqb_neq in Ed.
    rewrite app_assoc_string, !path_parts_unfold, startswith_slash_app by done.
    rewrite <- app_assoc. f_equal.
    rewrite str_split_app_slash_free by by apply slash_free_app.
    rewrite (last_str_split_ends_with_slash d Ee). change ("" +:+ (n +:+ s)) with (n +:+ s).
    rewrite List.filter_app. cbn [List.filter]. rewrite Hk.
    rewrite (app_removelast_last "" (str_split_nonempty slash d)) at 2.
    rewrite (last_str_split_ends_with_slash d Ee), List.filter_app.
    cbn [List.filter kept_component String.eqb negb andb]. by rewrite app_nil_r.
  - apply String.eqb_neq in Ed.
    rewrite !app_assoc_string. change ("/" +:+ n +:+ s) with (String slash (n +:+ s)).
    rewrite !path_parts_unfold, startswith_slash_app by done.
    rewrite <- app_assoc. f_equal.
    rewrite str_split_app_sep.
    rewrite (str_split_slash_free (n +:+ s)) by by apply slash_free_app.
    rewrite List.filter_app. cbn [List.filter]. by rewrite Hk.
Qed.

(** [os.path.join] with a plain name adds exactly one component. *)
Lemma path_parts_join (d n : string) :
  plain_component n = true -> path_parts (path_join2 d n) = path_parts d ++ [n].
Proof.
  intros Hn. pose proof (path_parts_join_suffix d n "" Hn eq_refl) as H.
  rewrite !app_empty_r in H. apply H.
  unfold plain_component in Hn. by apply andb_true_iff in Hn as [? _].
Qed.

(** [os.path.basename(os.path.join(d, n))] is [n]. *)
Lemma basename_join (d n : string) :
  plain_component n = true -> basename (path_join2 d n) = n.
Proof.
  intros Hn. pose proof (plain_component_slash_free n Hn) as Hnf.
  unfold basename, path_join2. rewrite (plain_component_not_anchored n Hn).
  destruct (String.eqb d "") eqn:Ed; [| destruct (endswith "/" d) eqn:Ee]; cbn [orb].
  - apply String.eqb_eq in Ed as ->. change ("" +:+ n) with n.
    by rewrite str_split_slash_free.
  - rewrite str_split_app_slash_free, last_last by done.
    by rewrite (last_str_split_ends_with_slash d Ee).
  - change ("/" +:+ n) with (String slash n).
    by rewrite str_split_app_sep, (str_split_slash_free n), last_last.
Qed.

(** ** Renaming [.hdf] to [.npy] *)

Lemma prefix_length (s1 s2 : string) :
  String.prefix s1 s2 = true -> String.length s1 <= String.length s2.
Proof.
  revert s1. induction s2 as [| b s2 IH]; intros [| a s1]; cbn [String.prefix String.length].
  - lia.
  - by destruct (string_dec (String a s1) "").
  - lia.
  - destruct (ascii_dec a b); [| done]. intros H%IH. lia.
Qed.

Lemma string_length_app (a b : string) :
  String.length (a +:+ b) = String.length a + String.length b.
Proof.
  induction a as [| c a IH]; [done |].
  rewrite append_cons. cbn [String.length]. by rewrite IH.
Qed.

(** [replace] keeps the length when [old] and [new] are as long as each
    other, as [".hdf"] and [".npy"] are. *)
Lemma str_replace_from_length (old new : string) (skip : nat) (s : string) :
  String.length old = String.length new -> old <> "" ->
  skip <= String.length s ->
  String.length (str_replace_from old new skip s) = String.length s - skip.
Proof.
  intros Hlen Hold. revert skip. induction s as [| c s IH]; intros skip Hskip.
  - simpl in *. lia.
  - cbn [str_replace_from]. destruct skip as [| k].
    + destruct (String.prefix old (String c s)) eqn:Ep.
      * apply prefix_length in Ep. cbn [String.length] in *.
        assert (String.length old <> 0) by (by destruct old).
        rewrite string_length_app, IH, <- Hlen by lia. lia.
      * cbn [String.length]. rewrite IH by lia. lia.
    + cbn [String.length] in *. rewrite IH by lia. lia.
Qed.

Lemma str_replace_length (old new s : string) :
  String.length old = String.length new -> old <> "" ->
  String.length (str_replace old new s) = String.length s.
Proof.
  intros H1 H2. unfold str_replace. rewrite str_replace_from_length by (done || lia). lia.
Qed.

Lemma str_replace_from_slash_free (old new : string) (skip : nat) (s : string) :
  slash_free new = true -> slash_free s = true ->
  slash_free (str_replace_from old new skip s) = true.
Proof.
  intros Hnew. revert skip. induction s as [| c s IH]; intros skip Hs; [done |].
  assert (Hc : negb (Ascii.eqb c slash) = true /\ slash_free s = true).
  { unfold slash_free in Hs. cbn [list_ascii_of_string forallb] in Hs.
    by apply andb_true_iff in Hs. }
  destruct Hc as [Hc Hs']. cbn [str_replace_from]. destruct skip as [| k]; [| by apply IH].
  destruct (String.prefix old (String c s)).
  - apply slash_free_app; [done | by apply IH].
  - unfold slash_free. cbn [list_ascii_of_string forallb]. rewrite Hc.
    by apply IH.
Qed.

(** A plain file name stays one after [.replace(".hdf", new)] for a
    suffix [new] of four characters without a slash. *)
Lemma str_replace_hdf_plain_component (new s : string) :
  String.length new = 4 -> slash_free new = true ->
  plain_component s = true -> plain_component (str_replace ".hdf" new s) = true.
Proof.
  intros Hnew Hfree H. pose proof (plain_component_slash_free s H) as Hs.
  pose proof (str_replace_length ".hdf" new s (eq_sym Hnew)) as Hlen.
  unfold plain_component. apply andb_true_iff. split; [apply andb_true_iff; split |].
  - apply negb_true_iff, String.eqb_neq. intros E. rewrite E in Hlen.
    destruct s; [done |]. by specialize (Hlen ltac:(done)).
  - apply negb_true_iff, String.eqb_neq. intros E. rewrite E in Hlen.
    specialize (Hlen ltac:(done)).
    destruct s as [| c [| c' s]]; [done | | done].
    unfold str_replace in E. cbn [str_replace_from String.prefix] in E.
    destruct (ascii_dec "." c) as [<- | Hne]; [by vm_compute in H |].
    cbn in E. injection E as E. by destruct Hne.
  - by apply str_replace_from_slash_free.
Qed.

(** A plain file name stays one after [.replace(".hdf", ".npy")]. *)
Lemma str_replace_plain_component (s : string) :
  plain_component s = true -> plain_component (str_replace ".hdf" ".npy" s) = true.
Proof. by apply str_replace_hdf_plain_component. Qed.
(** ** Directories and files of the tile driver *)

Ltac different_keys :=
  let E := fresh in
  intros E; rewrite <- ?app_assoc in E; apply app_inv_head in E; simplify_eq.

Lemma self_in_ancestors (parts : list string) :
  parts <> [] -> parts ∈ ancestors_and_self parts.
Proof.
  intros Hne. unfold ancestors_and_self. apply list_elem_of_In, in_map_iff.
  exists (length parts). split; [by rewrite firstn_all |].
  apply in_seq. destruct parts; [done |]. simpl. lia.
Qed.

Lemma proper_ancestor_is_ancestor (parts k : list string) :
  k ∈ proper_ancestors parts -> k ∈ ancestors_and_self parts.
Proof.
  unfold proper_ancestors, ancestors_and_self.
  intros (n & <- & Hn)%list_elem_of_In%in_map_iff.
  apply list_elem_of_In, in_map_iff. exists n. split; [done |].
  apply in_seq in Hn. apply in_seq. lia.
Qed.

Lemma ancestors_not_longer (parts k : list string) :
  k ∈ ancestors_and_self parts -> length k <= length parts.
Proof.
  unfold ancestors_and_self. intros (n & <- & _)%list_elem_of_In%in_map_iff.
  rewrite length_take. lia.
Qed.

(** What lies above [parts/c] is [parts] and what lies above it. *)
Lemma proper_ancestors_snoc (parts : list string) (c : string) :
  proper_ancestors (parts ++ [c]) = ancestors_and_self parts.
Proof.
  unfold proper_ancestors, ancestors_and_self. rewrite length_app. simpl.
  replace (length parts + 1 - 1) with (length parts) by lia.
  apply map_ext_in. intros n Hn%in_seq. apply take_app_le. lia.
Qed.

Section TileFiles.
Context {elem time span pixmap tile tmeta : Type}.
Variable O : @collaborators elem time span pixmap tile tmeta.
Implicit Types w : @world time tile tmeta.
Implicit Types m : gmap (list string) (@node tile tmeta).

Lemma mkdir_if_absent_lookup m (d k : list string) :
  mkdir_if_absent m d !! k
  = match m !! k with
    | Some v => Some v
    | None => if decide (k = d) then Some Dir else None
    end.
Proof.
  unfold mkdir_if_absent. destruct (m !! d) as [v |] eqn:Ed.
  - destruct (m !! k) eqn:Ek; [done |]. case_decide; [congruence | done].
  - rewrite lookup_insert. case_decide as E.
    + subst. rewrite Ed. by rewrite decide_True.
    + rewrite decide_False by congruence. by destruct (m !! k).
Qed.

Lemma fold_mkdir_lookup (l : list (list string)) m (k : list string) :
  fold_left mkdir_if_absent l m !! k
  = match m !! k with
    | Some v => Some v
    | None => if decide (k ∈ l) then Some Dir else None
    end.
Proof.
  revert m. induction l as [| d l IH]; intros m; simpl.
  - destruct (m !! k); [done |]. by destruct (decide (k ∈ [])) as [H%elem_of_nil |].
  - rewrite IH, mkdir_if_absent_lookup. destruct (m !! k); [done |].
    destruct (decide (k = d)) as [-> | Hne].
    + rewrite decide_True; [done | by left].
    + destruct (decide (k ∈ l)).
      * rewrite decide_True; [done | by right].
      * rewrite decide_False; [done |]. by intros [? | ?]%elem_of_cons.
Qed.

(** An existing entry survives; a missing directory is there afterwards. *)
Lemma ensure_dir_keeps m (dr : string) (k : list string) v :
  m !! k = Some v -> ensure_dir m dr !! k = Some v.
Proof.
  intros H. unfold ensure_dir. destruct (m !! path_parts dr); [done |].
  by rewrite fold_mkdir_lookup, H.
Qed.

Lemma ensure_dir_new m (dr : string) (k : list string) v :
  ensure_dir m dr !! k = Some v -> m !! k = Some v \/ (m !! k = None /\ v = Dir).
Proof.
  unfold ensure_dir. destruct (m !! path_parts dr); [by left |].
  rewrite fold_mkdir_lookup. destruct (m !! k); [by left |].
  case_decide; [| done]. intros [= <-]. by right.
Qed.

Lemma ensure_dir_below m (dr : string) (k : list string) :
  length (path_parts dr) < length k -> ensure_dir m dr !! k = m !! k.
Proof.
  intros Hlen. unfold ensure_dir. destruct (m !! path_parts dr); [done |].
  rewrite fold_mkdir_lookup. destruct (m !! k); [done |].
  case_decide as Hin; [| done]. apply ancestors_not_longer in Hin. lia.
Qed.

Lemma ensure_dir_made m (dr : string) :
  path_parts dr <> [] ->
  m !! path_parts dr = None \/ m !! path_parts dr = Some Dir ->
  ensure_dir m dr !! path_parts dr = Some Dir.
Proof.
  intros Hne [H | H]; unfold ensure_dir; rewrite H; [| done].
  rewrite fold_mkdir_lookup, H. by rewrite decide_True by by apply self_in_ancestors.
Qed.

Lemma ensure_dir_present m (dr : string) :
  is_Some (m !! path_parts dr) -> ensure_dir m dr = m.
Proof. intros [v H]. unfold ensure_dir. by rewrite H. Qed.

(** With nothing but directories on the way, [os.makedirs] is not
    stopped by a file. *)
Lemma clear_way_not_blocked m (parts : list string) :
  clear_way m parts -> blocked m parts = false.
Proof.
  intros Hclear. unfold blocked.
  destruct (existsb _ _) eqn:E; [| done].
  apply existsb_exists in E as (d & Hin & Hd).
  apply list_elem_of_In, proper_ancestor_is_ancestor in Hin.
  by destruct (Hclear d Hin) as [H | H]; rewrite H in Hd.
Qed.

Lemma clear_way_leaf m (parts : list string) :
  parts <> [] -> clear_way m parts -> m !! parts = None \/ m !! parts = Some Dir.
Proof. intros Hne Hclear. by apply Hclear, self_in_ancestors. Qed.

Lemma clear_way_ensure_dir m (dr : string) (parts : list string) :
  clear_way m parts -> clear_way (ensure_dir m dr) parts.
Proof.
  intros Hclear k Hk. destruct (ensure_dir m dr !! k) as [v |] eqn:E; [| by left].
  apply ensure_dir_new in E as [E | [_ ->]]; [| by right].
  destruct (Hclear k Hk) as [H | H]; rewrite H in E; [done | by right].
Qed.

(** One round of the loop of lines 154-156, with nothing but
    directories on the way. *)
Lemma ensure_dir_run (dr : string) w :
  clear_way (fs w) (path_parts dr) ->
  (present ← path_exists dr; when (negb present) (makedirs dr)) w
  = (Return tt,
     {| fs := ensure_dir (fs w) dr;
        trace := trace w ++ (if decide (is_Some (fs w !! path_parts dr)) then []
                             else [EMakedirs dr]);
        ticks := ticks w |}).
Proof.
  intros Hclear%clear_way_not_blocked.
  unfold mbind, M_bind, bind, path_exists, makedirs, ensure_dir, when, ret.
  destruct (fs w !! path_parts dr) as [v |] eqn:E.
  - rewrite bool_decide_eq_true_2 by by eexists. cbn [negb].
    destruct (decide (is_Some (Some v))) as [_ | Hn]; [| destruct Hn; by eexists].
    rewrite app_nil_r. by destruct w.
  - rewrite bool_decide_eq_false_2 by (intros [? ?]; done). cbn [negb].
    rewrite E, Hclear.
    by destruct (decide (is_Some (@None (@node tile tmeta)))) as [[? ?] | _].
Qed.

(** A file can be opened in a directory that exists, unless a directory
    has its name. *)
Lemma open_in_existing_directory m (p : string) (d : list string) (c : string) :
  path_parts p = d ++ [c] ->
  m !! d = Some Dir ->
  m !! (d ++ [c]) <> Some Dir ->
  open_for_writing m p = Return tt.
Proof.
  intros Hp Hd Hc. unfold open_for_writing. rewrite Hp, removelast_last, Hd.
  destruct (m !! (d ++ [c])) as [[| x |] |]; try done; by destruct (always_there d).
Qed.

(** [np.save] of a value numpy can write, into an existing directory. *)
Lemma np_save_run (p : string) (x : @payload tile tmeta) w :
  open_for_writing (fs w) (npy_file p) = Return tt ->
  savable O x = true ->
  np_save O p x w
  = (Return tt,
     {| fs := <[path_parts (npy_file p) := File x]> (fs w);
        trace := trace w ++ [ESave (npy_file p)];
        ticks := ticks w |}).
Proof. intros Ho Hs. unfold np_save. fold (npy_file p). by rewrite Ho, Hs. Qed.

End TileFiles.

Section TileRuns.
Context {elem time span pixmap tile tmeta : Type}.
Variable O : @collaborators elem time span pixmap tile tmeta.
Implicit Types w : @world time tile tmeta.
Implicit Types m : gmap (list string) (@node tile tmeta).

Lemma ensure_dir_none_or_dir m (dr : string) (k : list string) :
  m !! k = None \/ m !! k = Some Dir ->
  ensure_dir m dr !! k = None \/ ensure_dir m dr !! k = Some Dir.
Proof.
  intros H. destruct (ensure_dir m dr !! k) as [v |] eqn:E; [| by left].
  apply ensure_dir_new in E as [E | [_ ->]]; [| by right].
  destruct H as [H | H]; rewrite H in E; [done | by right].
Qed.

Lemma ensure_dirs_keep (dirs : list string) m (k : list string) v :
  m !! k = Some v -> fold_left ensure_dir dirs m !! k = Some v.
Proof.
  revert m. induction dirs as [| d dirs IH]; intros m H; [done |].
  simpl. by apply IH, ensure_dir_keeps.
Qed.

(** After the loop every directory of the list is there. *)
Lemma ensure_dirs_made (dirs : list string) m :
  (forall d, d ∈ dirs ->
     path_parts d <> [] /\ (m !! path_parts d = None \/ m !! path_parts d = Some Dir)) ->
  forall d, d ∈ dirs -> fold_left ensure_dir dirs m !! path_parts d = Some Dir.
Proof.
  revert m. induction dirs as [| d0 dirs IH]; intros m H d Hd.
  - by apply elem_of_nil in Hd.
  - simpl. apply elem_of_cons in Hd as [-> | Hd].
    + apply ensure_dirs_keep. destruct (H d0) as [Hne Hm]; [by left |].
      by apply ensure_dir_made.
    + apply IH; [| done]. intros d' Hd'. destruct (H d') as [Hne Hm]; [by right |].
      split; [done |]. by apply ensure_dir_none_or_dir.
Qed.

Lemma ensure_dirs_present (dirs : list string) m :
  (forall d, d ∈ dirs -> is_Some (m !! path_parts d)) ->
  fold_left ensure_dir dirs m = m.
Proof.
  induction dirs as [| d dirs IH]; intros H; [done |].
  simpl. rewrite ensure_dir_present by (apply H; by left).
  apply IH. intros d' Hd'. apply H. by right.
Qed.

Lemma ensure_dirs_below (dirs : list string) m (k : list string) :
  (forall d, d ∈ dirs -> length (path_parts d) < length k) ->
  fold_left ensure_dir dirs m !! k = m !! k.
Proof.
  revert m. induction dirs as [| d dirs IH]; intros m H; [done |].
  simpl. rewrite IH by (intros d' Hd'; apply H; by right).
  apply ensure_dir_below, H. by left.
Qed.

(** The loop of lines 154-156 on a list of directories, with nothing
    but directories on the way to each of them. *)
Lemma ensure_dirs_run (dirs : list string) w :
  (forall d, d ∈ dirs -> clear_way (fs w) (path_parts d)) ->
  exists made,
    for_each dirs (fun dr => present ← path_exists dr; when (negb present) (makedirs dr)) w
    = (Return tt,
       {| fs := fold_left ensure_dir dirs (fs w);
          trace := trace w ++ made;
          ticks := ticks w |})
    /\ Forall (fun ev => exists dr, ev = EMakedirs dr /\ dr ∈ dirs
                                   /\ fs w !! path_parts dr = None) made.
Proof.
  revert w. induction dirs as [| d dirs IH]; intros w Hclear.
  - exists []. split; [| done]. simpl. unfold ret. rewrite app_nil_r. by destruct w.
  - cbn [for_each].
    rewrite (bind_returns _ _ _ _ _ (ensure_dir_run d w (Hclear d ltac:(by left)))).
    destruct (IH {| fs := ensure_dir (fs w) d;
                    trace := trace w ++
                      (if decide (is_Some (fs w !! path_parts d)) then []
                       else [EMakedirs d]);
                    ticks := ticks w |}) as (made & -> & Hmade).
    { intros d' Hd'. cbn [fs]. apply clear_way_ensure_dir, Hclear. by right. }
    eexists (_ ++ made). cbn [fs trace ticks]. rewrite app_assoc. split; [done |].
    apply Forall_app. split.
    + case_decide as Hd; [done |]. constructor; [| done].
      exists d. split; [done |]. split; [by left |].
      destruct (fs w !! path_parts d) eqn:E; [destruct Hd; by eexists | done].
    + eapply Forall_impl; [exact Hmade |]. cbn [fs]. intros ev (dr & -> & Hin & Hnone).
      exists dr. split; [done |]. split; [by right |].
      destruct (fs w !! path_parts dr) as [v |] eqn:E; [| done].
      by rewrite (ensure_dir_keeps _ _ _ _ E) in Hnone.
Qed.

Lemma kept_component_npy (n : string) : kept_component (n +:+ ".npy") = true.
Proof.
  unfold kept_component. apply andb_true_iff. split; apply negb_true_iff, String.eqb_neq.
  - intros E%(f_equal String.length). rewrite string_length_app in E. simpl in E. lia.
  - intros E%(f_equal String.length). rewrite string_length_app in E. simpl in E. lia.
Qed.

Lemma tile_dir_parts (save_dir x y : string) :
  plain_component x = true -> plain_component y = true ->
  path_parts (os_path_join save_dir [x; y]) = path_parts save_dir ++ [x; y].
Proof.
  intros Hx Hy. cbn [os_path_join fold_left].
  rewrite !path_parts_join by done. by rewrite <- app_assoc.
Qed.

(** The file of [np.save] lies directly in its directory. *)
Lemma tile_file_parts (save_dir x y n : string) :
  plain_component x = true -> plain_component y = true -> plain_component n = true ->
  exists c,
    path_parts (npy_file (os_path_join save_dir [x; y; n]))
    = path_parts save_dir ++ [x; y; c].
Proof.
  intros Hx Hy Hn. cbn [os_path_join fold_left]. unfold npy_file.
  destruct (endswith ".npy" _).
  - exists n. rewrite !path_parts_join by done. by rewrite <- !app_assoc.
  - exists (n +:+ ".npy").
    rewrite path_parts_join_suffix by (done || apply kept_component_npy).
    rewrite !path_parts_join by done. by rewrite <- !app_assoc.
Qed.


(** Lines 135-163 when the sampler returns collections numpy can
    write, the swath name is a plain file name, nothing but directories
    lies on the way to the four directories and none of the four files
    is a directory. *)
Lemma extract_tiles_run np swath_name save_dir tile_size v w
    label_tiles nonlabel_tiles label_metadata nonlabel_metadata :
  sample_labelled_and_unlabelled_tiles O np tile_size
    = Return (label_tiles, nonlabel_tiles, label_metadata, nonlabel_metadata) ->
  savable O (PTiles label_tiles) = true ->
  savable O (PMeta label_metadata) = true ->
  savable O (PTiles nonlabel_tiles) = true ->
  savable O (PMeta nonlabel_metadata) = true ->
  plain_component swath_name = true ->
  (forall d, d ∈ tile_dirs save_dir -> clear_way (fs w) (path_parts d)) ->
  (forall file, file ∈ tile_files save_dir swath_name ->
     fs w !! path_parts file <> Some Dir) ->
  exists made,
    extract_tiles_from_swath O np swath_name save_dir tile_size v w
    = (Return tt,
       {| fs :=
            <[path_parts (tile_file save_dir "nonlabel" "metadata" swath_name)
                := File (PMeta nonlabel_metadata)]>
              (<[path_parts (tile_file save_dir "nonlabel" "tiles" swath_name)
                   := File (PTiles nonlabel_tiles)]>
                 (<[path_parts (tile_file save_dir "label" "metadata" swath_name)
                      := File (PMeta label_metadata)]>
                    (<[path_parts (tile_file save_dir "label" "tiles" swath_name)
                         := File (PTiles label_tiles)]>
                       (fold_left ensure_dir (tile_dirs save_dir) (fs w)))));
          trace :=
            trace w ++ [ECall CSampleTiles]
              ++ (if (0 <? v)%Z
                  then [EPrint (TilesExtracted (length label_tiles + length nonlabel_tiles)
                                  swath_name)]
                  else [])
              ++ made
              ++ [ESave (tile_file save_dir "label" "tiles" swath_name);
                  ESave (tile_file save_dir "label" "metadata" swath_name);
                  ESave (tile_file save_dir "nonlabel" "tiles" swath_name);
                  ESave (tile_file save_dir "nonlabel" "metadata" swath_name)];
          ticks := ticks w |})
    /\ Forall (fun ev => exists dr, ev = EMakedirs dr /\ dr ∈ tile_dirs save_dir
                                   /\ fs w !! path_parts dr = None) made.
Proof.
  intros Hs Hs1 Hs2 Hs3 Hs4 Hname Hdirs Hfiles.
  assert (F1 : fs w !! path_parts (tile_file save_dir "label" "tiles" swath_name)
               <> Some Dir) by (apply Hfiles; unfold tile_files; by left).
  assert (F2 : fs w !! path_parts (tile_file save_dir "label" "metadata" swath_name)
               <> Some Dir) by (apply Hfiles; unfold tile_files; right; by left).
  assert (F3 : fs w !! path_parts (tile_file save_dir "nonlabel" "tiles" swath_name)
               <> Some Dir) by (apply Hfiles; unfold tile_files; do 2 right; by left).
  assert (F4 : fs w !! path_parts (tile_file save_dir "nonlabel" "metadata" swath_name)
               <> Some Dir) by (apply Hfiles; unfold tile_files; do 3 right; by left).
  unfold tile_file in F1, F2, F3, F4.
  pose proof (str_replace_plain_component swath_name Hname) as Hn.
  set (n := str_replace ".hdf" ".npy" swath_name) in *.
  set (S := path_parts save_dir).
  destruct (tile_file_parts save_dir "label" "tiles" n eq_refl eq_refl Hn) as [c1 E1].
  destruct (tile_file_parts save_dir "label" "metadata" n eq_refl eq_refl Hn) as [c2 E2].
  destruct (tile_file_parts save_dir "nonlabel" "tiles" n eq_refl eq_refl Hn) as [c3 E3].
  destruct (tile_file_parts save_dir "nonlabel" "metadata" n eq_refl eq_refl Hn) as [c4 E4].
  fold S in E1, E2, E3, E4. rewrite E1 in F1. rewrite E2 in F2.
  rewrite E3 in F3. rewrite E4 in F4.
  set (m4 := fold_left ensure_dir (tile_dirs save_dir) (fs w)).
  assert (Hbelow : forall x y c, m4 !! (S ++ [x; y; c]) = fs w !! (S ++ [x; y; c])).
  { intros x y c. apply ensure_dirs_below. intros d Hd. unfold tile_dirs in Hd.
    repeat (apply elem_of_cons in Hd as [-> | Hd];
            [rewrite tile_dir_parts by done; fold S; rewrite !length_app; simpl; lia |]).
    by apply elem_of_nil in Hd. }
  assert (Hmade : forall x y, os_path_join save_dir [x; y] ∈ tile_dirs save_dir ->
            plain_component x = true -> plain_component y = true ->
            m4 !! (S ++ [x; y]) = Some Dir).
  { intros x y Hin Hx Hy. unfold S. rewrite <- (tile_dir_parts save_dir x y Hx Hy).
    apply ensure_dirs_made; [| done]. intros d Hd.
    assert (Hne : path_parts d <> []).
    { unfold tile_dirs in Hd.
      repeat (apply elem_of_cons in Hd as [-> | Hd];
              [rewrite tile_dir_parts by done; by destruct (path_parts save_dir) |]).
      by apply elem_of_nil in Hd. }
    split; [done |]. by apply clear_way_leaf, Hdirs. }
  assert (D1 : m4 !! (S ++ ["label"; "tiles"]) = Some Dir).
  { apply Hmade; [| done | done]. unfold tile_dirs. by left. }
  assert (D2 : m4 !! (S ++ ["label"; "metadata"]) = Some Dir).
  { apply Hmade; [| done | done]. unfold tile_dirs. right. by left. }
  assert (D3 : m4 !! (S ++ ["nonlabel"; "tiles"]) = Some Dir).
  { apply Hmade; [| done | done]. unfold tile_dirs. do 2 right. by left. }
  assert (D4 : m4 !! (S ++ ["nonlabel"; "metadata"]) = Some Dir).
  { apply Hmade; [| done | done]. unfold tile_dirs. do 3 right. by left. }
  unfold extract_tiles_from_swath.
  erewrite bind_returns; last first.
  { unfold try_except, call, emit, lift, mbind, M_bind, bind. simpl. by rewrite Hs. }
  cbv beta iota.
  set (w1 := {| fs := fs w; trace := trace w ++ [ECall CSampleTiles]; ticks := ticks w |}).
  rewrite (bind_returns _ _ _ _ _ (when_print_run _ _ w1)).
  match goal with |- context [ (for_each ?l ?body ≫= ?k) ?u ] =>
    destruct (ensure_dirs_run (tile_dirs save_dir) u Hdirs) as (made & Hloop & Hmadeby);
    unfold tile_dirs in Hloop; rewrite (bind_returns _ _ _ _ _ Hloop)
  end.
  exists made. split; [| exact Hmadeby].
  fold (tile_dirs save_dir). cbn [fs trace ticks w1]. fold m4.
  unfold tile_file. fold n.
  change (os_path_join (os_path_join save_dir ["label"; "tiles"]) [n])
    with (os_path_join save_dir ["label"; "tiles"; n]).
  change (os_path_join (os_path_join save_dir ["label"; "metadata"]) [n])
    with (os_path_join save_dir ["label"; "metadata"; n]).
  change (os_path_join (os_path_join save_dir ["nonlabel"; "tiles"]) [n])
    with (os_path_join save_dir ["nonlabel"; "tiles"; n]).
  change (os_path_join (os_path_join save_dir ["nonlabel"; "metadata"]) [n])
    with (os_path_join save_dir ["nonlabel"; "metadata"; n]).
  erewrite bind_returns; last first.
  { apply np_save_run; [| done]. cbn [fs].
    apply (open_in_existing_directory _ _ (S ++ ["label"; "tiles"]) c1).
    - by rewrite E1, <- app_assoc.
    - done.
    - rewrite <- app_assoc. cbn [app]. by rewrite Hbelow. }
  erewrite bind_returns; last first.
  { apply np_save_run; [| done]. cbn [fs]. rewrite E1.
    apply (open_in_existing_directory _ _ (S ++ ["label"; "metadata"]) c2).
    - by rewrite E2, <- app_assoc.
    - by rewrite lookup_insert_ne by different_keys.
    - rewrite <- app_assoc, lookup_insert_ne by different_keys.
      cbn [app]. by rewrite Hbelow. }
  erewrite bind_returns; last first.
  { apply np_save_run; [| done]. cbn [fs]. rewrite E1, E2.
    apply (open_in_existing_directory _ _ (S ++ ["nonlabel"; "tiles"]) c3).
    - by rewrite E3, <- app_assoc.
    - by rewrite !lookup_insert_ne by different_keys.
    - rewrite <- app_assoc, !lookup_insert_ne by different_keys.
      cbn [app]. by rewrite Hbelow. }
  rewrite np_save_run; [| | done]; last first.
  { cbn [fs]. rewrite E1, E2, E3.
    apply (open_in_existing_directory _ _ (S ++ ["nonlabel"; "metadata"]) c4).
    - by rewrite E4, <- app_assoc.
    - by rewrite !lookup_insert_ne by different_keys.
    - rewrite <- app_assoc, !lookup_insert_ne by different_keys.
      cbn [app]. by rewrite Hbelow. }
  cbn [fs trace ticks]. f_equal. f_equal. by rewrite <- !app_assoc.
Qed.

End TileRuns.

Section TileResults.
Context {elem time span pixmap tile tmeta : Type}.
Variable O : @collaborators elem time span pixmap tile tmeta.
Implicit Types w : @world time tile tmeta.
Implicit Types m : gmap (list string) (@node tile tmeta).

Lemma tile_file_key (save_dir kind what swath_name : string) :
  plain_component kind = true -> plain_component what = true ->
  plain_component swath_name = true ->
  exists c,
    path_parts (tile_file save_dir kind what swath_name)
    = path_parts save_dir ++ [kind; what; c].
Proof.
  intros Hk Hw Hn. unfold tile_file.
  by apply tile_file_parts, str_replace_plain_component.
Qed.

Lemma tile_dirs_parts (save_dir d : string) :
  d ∈ tile_dirs save_dir ->
  exists kind what, path_parts d = path_parts save_dir ++ [kind; what].
Proof.
  unfold tile_dirs. intros Hd.
  repeat (apply elem_of_cons in Hd as [-> | Hd];
          [eexists _, _; by apply tile_dir_parts |]).
  by apply elem_of_nil in Hd.
Qed.

(** The file system after the four saves. *)
Lemma saved_tiles_lookups m (save_dir swath_name : string)
    (x1 x2 x3 x4 : @node tile tmeta) :
  plain_component swath_name = true ->
  let k1 := path_parts (tile_file save_dir "label" "tiles" swath_name) in
  let k2 := path_parts (tile_file save_dir "label" "metadata" swath_name) in
  let k3 := path_parts (tile_file save_dir "nonlabel" "tiles" swath_name) in
  let k4 := path_parts (tile_file save_dir "nonlabel" "metadata" swath_name) in
  let m' := <[k4 := x4]> (<[k3 := x3]> (<[k2 := x2]> (<[k1 := x1]> m))) in
  m' !! k1 = Some x1 /\ m' !! k2 = Some x2 /\ m' !! k3 = Some x3 /\ m' !! k4 = Some x4
  /\ (forall d, d ∈ tile_dirs save_dir -> m' !! path_parts d = m !! path_parts d)
  /\ (forall k, k <> k1 -> k <> k2 -> k <> k3 -> k <> k4 -> m' !! k = m !! k).
Proof.
  intros Hn k1 k2 k3 k4 m'.
  destruct (tile_file_key save_dir "label" "tiles" swath_name eq_refl eq_refl Hn) as [c1 E1].
  destruct (tile_file_key save_dir "label" "metadata" swath_name eq_refl eq_refl Hn)
    as [c2 E2].
  destruct (tile_file_key save_dir "nonlabel" "tiles" swath_name eq_refl eq_refl Hn)
    as [c3 E3].
  destruct (tile_file_key save_dir "nonlabel" "metadata" swath_name eq_refl eq_refl Hn)
    as [c4 E4].
  subst k1 k2 k3 k4 m'. rewrite E1, E2, E3, E4.
  repeat split.
  - rewrite !lookup_insert_ne by different_keys. by rewrite lookup_insert_eq.
  - rewrite !lookup_insert_ne by different_keys. by rewrite lookup_insert_eq.
  - rewrite !lookup_insert_ne by different_keys. by rewrite lookup_insert_eq.
  - by rewrite lookup_insert_eq.
  - intros d (kind & what & ->)%tile_dirs_parts.
    by rewrite !lookup_insert_ne by different_keys.
  - intros k N1 N2 N3 N4. by rewrite !lookup_insert_ne.
Qed.

Lemma clear_way_ensure_dirs (dirs : list string) m (parts : list string) :
  clear_way m parts -> clear_way (fold_left ensure_dir dirs m) parts.
Proof.
  revert m. induction dirs as [| d dirs IH]; intros m H; [done |].
  simpl. by apply IH, clear_way_ensure_dir.
Qed.

(** After the loop the four directories are there. *)
Lemma tile_dirs_made m (save_dir : string) :
  (forall d, d ∈ tile_dirs save_dir -> clear_way m (path_parts d)) ->
  forall d, d ∈ tile_dirs save_dir ->
    fold_left ensure_dir (tile_dirs save_dir) m !! path_parts d = Some Dir.
Proof.
  intros Hdirs. apply ensure_dirs_made. intros d Hd.
  assert (Hne : path_parts d <> []).
  { destruct (tile_dirs_parts save_dir d Hd) as (kind & what & ->).
    by destruct (path_parts save_dir). }
  split; [done |]. by apply clear_way_leaf, Hdirs.
Qed.

(** X1. When the sampler returns four collections numpy can write (tiles
    of one size), the swath name is a plain file name, nothing but
    directories lies on the way to the four directories and none of the
    four files is a directory, the driver returns, the four directories
    exist, and each of the four [.npy] files holds the collection it
    was saved from; every other entry of the file system is as before.
    Paths are taken as written: [save_dir] and the entries of the file
    system are without [..]. *)
Theorem tiles_are_saved np swath_name save_dir tile_size v w
    label_tiles nonlabel_tiles label_metadata nonlabel_metadata :
  sample_labelled_and_unlabelled_tiles O np tile_size
    = Return (label_tiles, nonlabel_tiles, label_metadata, nonlabel_metadata) ->
  savable O (PTiles label_tiles) = true ->
  savable O (PMeta label_metadata) = true ->
  savable O (PTiles nonlabel_tiles) = true ->
  savable O (PMeta nonlabel_metadata) = true ->
  plain_component swath_name = true ->
  ".." ∉ path_parts save_dir ->
  plainly_keyed (fs w) ->
  (forall d, d ∈ tile_dirs save_dir -> clear_way (fs w) (path_parts d)) ->
  (forall file, file ∈ tile_files save_dir swath_name ->
     fs w !! path_parts file <> Some Dir) ->
  exists w',
    extract_tiles_from_swath O np swath_name save_dir tile_size v w = (Return tt, w')
    /\ fs w' !! path_parts (tile_file save_dir "label" "tiles" swath_name)
       = Some (File (PTiles label_tiles))
    /\ fs w' !! path_parts (tile_file save_dir "label" "metadata" swath_name)
       = Some (File (PMeta label_metadata))
    /\ fs w' !! path_parts (tile_file save_dir "nonlabel" "tiles" swath_name)
       = Some (File (PTiles nonlabel_tiles))
    /\ fs w' !! path_parts (tile_file save_dir "nonlabel" "metadata" swath_name)
       = Some (File (PMeta nonlabel_metadata))
    /\ (forall d, d ∈ tile_dirs save_dir -> fs w' !! path_parts d = Some Dir)
    /\ (forall k x,
          fs w !! k = Some x ->
          (forall kind what, k <> path_parts (tile_file save_dir kind what swath_name)) ->
          fs w' !! k = Some x).
Proof.
  intros Hs Hs1 Hs2 Hs3 Hs4 Hname _ _ Hdirs Hfiles.
  destruct (extract_tiles_run O np swath_name save_dir tile_size v w _ _ _ _
              Hs Hs1 Hs2 Hs3 Hs4 Hname Hdirs Hfiles) as (made & Hrun & _).
  eexists. split; [exact Hrun |]. cbn [fs].
  destruct (saved_tiles_lookups (fold_left ensure_dir (tile_dirs save_dir) (fs w))
              save_dir swath_name (File (PTiles label_tiles)) (File (PMeta label_metadata))
              (File (PTiles nonlabel_tiles)) (File (PMeta nonlabel_metadata)) Hname)
    as (L1 & L2 & L3 & L4 & Ld & Lo).
  split; [exact L1 |]. split; [exact L2 |]. split; [exact L3 |]. split; [exact L4 |].
  split.
  - intros d Hd. rewrite Ld by done. by apply tile_dirs_made.
  - intros k x Hk Hne. rewrite Lo by apply Hne. by apply ensure_dirs_keep.
Qed.

(** X2. Under the conditions of the theorem before, running the driver a
    second time on its own output returns again, creates no directory
    and leaves the file system as the first run left it: existing
    directories are not an error and the files are overwritten with the
    same content. *)
Theorem tiles_rerun_changes_nothing np swath_name save_dir tile_size v w
    label_tiles nonlabel_tiles label_metadata nonlabel_metadata :
  sample_labelled_and_unlabelled_tiles O np tile_size
    = Return (label_tiles, nonlabel_tiles, label_metadata, nonlabel_metadata) ->
  savable O (PTiles label_tiles) = true ->
  savable O (PMeta label_metadata) = true ->
  savable O (PTiles nonlabel_tiles) = true ->
  savable O (PMeta nonlabel_metadata) = true ->
  plain_component swath_name = true ->
  ".." ∉ path_parts save_dir ->
  plainly_keyed (fs w) ->
  (forall d, d ∈ tile_dirs save_dir -> clear_way (fs w) (path_parts d)) ->
  (forall file, file ∈ tile_files save_dir swath_name ->
     fs w !! path_parts file <> Some Dir) ->
  exists w1 w2,
    extract_tiles_from_swath O np swath_name save_dir tile_size v w = (Return tt, w1)
    /\ extract_tiles_from_swath O np swath_name save_dir tile_size v w1 = (Return tt, w2)
    /\ fs w2 = fs w1
    /\ forall dr, EMakedirs dr ∉ drop (length (trace w1)) (trace w2).
Proof.
  intros Hs Hs1 Hs2 Hs3 Hs4 Hname _ _ Hdirs Hfiles.
  destruct (extract_tiles_run O np swath_name save_dir tile_size v w _ _ _ _
              Hs Hs1 Hs2 Hs3 Hs4 Hname Hdirs Hfiles) as (made & Hrun & _).
  set (w1 := {| fs := _; trace := _; ticks := _ |}) in Hrun.
  destruct (saved_tiles_lookups (fold_left ensure_dir (tile_dirs save_dir) (fs w))
              save_dir swath_name (File (PTiles label_tiles)) (File (PMeta label_metadata))
              (File (PTiles nonlabel_tiles)) (File (PMeta nonlabel_metadata)) Hname)
    as (L1 & L2 & L3 & L4 & Ld & Lo).
  assert (Hdirs1 : forall d, d ∈ tile_dirs save_dir -> fs w1 !! path_parts d = Some Dir).
  { intros d Hd. subst w1. cbn [fs]. rewrite Ld by done. by apply tile_dirs_made. }
  assert (Hclear1 : forall d, d ∈ tile_dirs save_dir -> clear_way (fs w1) (path_parts d)).
  { intros d Hd k Hk. subst w1. cbn [fs]. rewrite Lo.
    - exact (clear_way_ensure_dirs _ _ _ (Hdirs d Hd) k Hk).
    - intros E; apply ancestors_not_longer in Hk; revert Hk; rewrite E;
        destruct (tile_dirs_parts save_dir d Hd) as (kind & what & ->);
        destruct (tile_file_key save_dir "label" "tiles" swath_name eq_refl eq_refl Hname)
          as [c ->]; rewrite !length_app; simpl; lia.
    - intros E; apply ancestors_not_longer in Hk; revert Hk; rewrite E;
        destruct (tile_dirs_parts save_dir d Hd) as (kind & what & ->);
        destruct (tile_file_key save_dir "label" "metadata" swath_name eq_refl eq_refl Hname)
          as [c ->]; rewrite !length_app; simpl; lia.
    - intros E; apply ancestors_not_longer in Hk; revert Hk; rewrite E;
        destruct (tile_dirs_parts save_dir d Hd) as (kind & what & ->);
        destruct (tile_file_key save_dir "nonlabel" "tiles" swath_name eq_refl eq_refl Hname)
          as [c ->]; rewrite !length_app; simpl; lia.
    - intros E; apply ancestors_not_longer in Hk; revert Hk; rewrite E;
        destruct (tile_dirs_parts save_dir d Hd) as (kind & what & ->);
        destruct (tile_file_key save_dir "nonlabel" "metadata" swath_name eq_refl eq_refl
                    Hname) as [c ->]; rewrite !length_app; simpl; lia. }
  assert (Hfiles1 : forall file, file ∈ tile_files save_dir swath_name ->
            fs w1 !! path_parts file <> Some Dir).
  { intros file Hfile. subst w1. cbn [fs]. unfold tile_files in Hfile.
    repeat (apply elem_of_cons in Hfile as [-> | Hfile];
            [first [by rewrite L1 | by rewrite L2 | by rewrite L3 | by rewrite L4] |]).
    by apply elem_of_nil in Hfile. }
  destruct (extract_tiles_run O np swath_name save_dir tile_size v w1 _ _ _ _
              Hs Hs1 Hs2 Hs3 Hs4 Hname Hclear1 Hfiles1) as (made1 & Hrun1 & Hmade1).
  assert (made1 = []) as ->.
  { destruct made1 as [| ev made1]; [done |].
    apply Forall_cons in Hmade1 as [(dr & _ & Hin & Hnone) _].
    by rewrite (Hdirs1 dr Hin) in Hnone. }
  eexists w1, _. split; [exact Hrun |]. split; [exact Hrun1 |]. cbn [fs trace].
  split.
  - rewrite ensure_dirs_present by (intros d Hd; rewrite (Hdirs1 d Hd); by eexists).
    subst w1. cbn [fs].
    by rewrite (insert_id _ _ _ L1), (insert_id _ _ _ L2), (insert_id _ _ _ L3),
      (insert_id _ _ _ L4).
  - intros dr. rewrite drop_app_length.
    destruct (0 <? v)%Z; simpl; intros Hin;
      repeat (apply elem_of_cons in Hin as [Hin | Hin]; [done |]);
      by apply elem_of_nil in Hin.
Qed.

End TileResults.

(** ** The events of [extract_full_swath] *)

Section SwathRuns.
Context {elem time span pixmap tile tmeta : Type}.
Variable O : @collaborators elem time span pixmap tile tmeta.
Implicit Types w : @world time tile tmeta.

Lemma call_run {A} (c : collab) (a : A) w :
  call c (Return a) w
  = (Return a, {| fs := fs w; trace := trace w ++ [ECall c]; ticks := ticks w |}).
Proof. reflexivity. Qed.

Lemma when_print2_run (b : bool) (l1 l2 : @line time) w :
  when b (print l1;; print l2) w
  = (Return tt,
     {| fs := fs w; trace := trace w ++ (if b then [EPrint l1; EPrint l2] else []);
        ticks := ticks w |}).
Proof.
  destruct b; simpl.
  - unfold mbind, M_bind, bind, print, emit. simpl. by rewrite <- app_assoc.
  - unfold ret. destruct w; simpl. by rewrite app_nil_r.
Qed.

Lemma guarded_merge_run (locals : option (span * pixmap * @pyobj elem span pixmap)) w :
  try_bare (update_cloudsat_info locals) (ret PyNone) w = (Return (merged_info locals), w).
Proof. by destruct locals as [[[cs_range mapping] [| d | e]] |]. Qed.

(** Lines 13-97 once the four loaders have returned and the guarded
    alignment call has left [locals] behind. *)
Lemma extract_full_swath_run f d3 d6 d35 dl dc v w swath buffer filled l2 cm locals aligned :
  get_swath O f d3 = Return swath ->
  fill_all_channels O swath = Return (buffer, filled) ->
  get_channels O f d6 = Return l2 ->
  get_cloud_mask O f d35 = Return cm ->
  (forall u,
     align_track O (basename f) f dl dc (filled_swath swath buffer) u
     = (Return locals,
        {| fs := fs u; trace := trace u ++ aligned; ticks := ticks u |})) ->
  extract_full_swath O f d3 d6 d35 dl dc v w
  = (outcome_map
       (fun T => (T, merged_info locals, usability_tag filled, basename f))
       (outcome_map (astype O Float16)
          (vstack O [filled_swath swath buffer; l2; expand_first cm])),
     {| fs := fs w;
        trace := trace w ++ swath_events O (basename f) filled (truthy v) (ticks w) aligned;
        ticks := S (S (S (S (ticks w)))) |}).
Proof.
  intros Hswath Hfill Hl2 Hcm Halign. unfold extract_full_swath.
  rewrite Hswath.
  rewrite (bind_returns _ _ _ _ _ (call_run _ _ _)). cbn [fs trace ticks].
  rewrite (bind_returns _ _ _ _ _ (when_print_run _ _ _)). cbn [fs trace ticks].
  erewrite bind_returns by reflexivity. cbn [fs trace ticks].
  rewrite Hfill.
  rewrite (bind_returns _ _ _ _ _ (call_run _ _ _)). cbv beta iota. cbn [fs trace ticks].
  erewrite bind_returns by reflexivity. cbn [fs trace ticks].
  rewrite (bind_returns _ _ _ _ _ (when_print2_run _ _ _ _)). cbn [fs trace ticks].
  rewrite Hl2.
  rewrite (bind_returns _ _ _ _ _ (call_run _ _ _)). cbn [fs trace ticks].
  rewrite (bind_returns _ _ _ _ _ (when_print_run _ _ _)). cbn [fs trace ticks].
  rewrite Hcm.
  rewrite (bind_returns _ _ _ _ _ (call_run _ _ _)). cbn [fs trace ticks].
  rewrite (bind_returns _ _ _ _ _ (when_print_run _ _ _)). cbn [fs trace ticks].
  erewrite bind_returns by reflexivity. cbn [fs trace ticks].
  rewrite (bind_returns _ _ _ _ _ (Halign _)). cbn [fs trace ticks].
  erewrite bind_returns by reflexivity. cbn [fs trace ticks].
  rewrite (bind_returns _ _ _ _ _ (when_print_run _ _ _)). cbn [fs trace ticks].
  cbn [fs trace ticks].
  destruct (vstack O [filled_swath swath buffer; l2; expand_first cm]) as [st | e | c];
    cbn [outcome_map].
  - erewrite bind_returns by reflexivity.
    rewrite (bind_returns _ _ _ _ _ (guarded_merge_run _ _)). cbn [fs trace ticks].
    unfold mret, M_ret, ret. f_equal. f_equal.
    unfold swath_events. by rewrite <- !app_assoc.
  - unfold mbind, M_bind, bind, lift. f_equal. f_equal.
    unfold swath_events. by rewrite <- !app_assoc.
  - unfold mbind, M_bind, bind, lift. f_equal. f_equal.
    unfold swath_events. by rewrite <- !app_assoc.
Qed.


(** The guarded alignment call, with the world it leaves. *)
Lemma align_track_bound_run name f dl dc np lat lon r w :
  getitem_neg np 2 = Return lat -> getitem_neg np 1 = Return lon ->
  get_cloudsat_mask O f dl dc lat lon false = Return r ->
  align_track O name f dl dc np w
  = (Return (Some r),
     {| fs := fs w; trace := trace w ++ [ECall CGetCloudsatMask]; ticks := ticks w |}).
Proof.
  intros H2 H1 Hr. unfold align_track.
  unfold mbind, mret, M_bind, M_ret, bind, ret, call, emit, lift, try_except.
  by rewrite H2, H1, Hr.
Qed.

Lemma align_track_exit_run name f dl dc np lat lon c w :
  getitem_neg np 2 = Return lat -> getitem_neg np 1 = Return lon ->
  get_cloudsat_mask O f dl dc lat lon false = Exit c ->
  align_track O name f dl dc np w
  = (Exit c,
     {| fs := fs w; trace := trace w ++ [ECall CGetCloudsatMask]; ticks := ticks w |}).
Proof.
  intros H2 H1 Hr. unfold align_track.
  unfold mbind, mret, M_bind, M_ret, bind, ret, call, emit, lift, try_except.
  by rewrite H2, H1, Hr.
Qed.

Lemma align_track_index_error_run name f dl dc np e w :
  getitem_neg np 2 = Raise e ->
  align_track O name f dl dc np w
  = (Return None,
     {| fs := fs w; trace := trace w ++ [EPrint (CouldntExtract name e)];
        ticks := ticks w |}).
Proof.
  intros H2. unfold align_track.
  unfold mbind, mret, M_bind, M_ret, bind, ret, call, print, emit, lift, try_except.
  rewrite H2. by rewrite isinstance_Exception.
Qed.

Lemma align_track_run name f dl dc np lat lon res :
  getitem_neg np 2 = Return lat -> getitem_neg np 1 = Return lon ->
  get_cloudsat_mask O f dl dc lat lon false = res ->
  (forall c, res <> Exit c) ->
  forall w,
    align_track O name f dl dc np w
    = (Return (aligned_locals res),
       {| fs := fs w; trace := trace w ++ aligned_events name res; ticks := ticks w |}).
Proof.
  intros H2 H1 Hres Hno w. destruct res as [r | e | c].
  - by apply align_track_bound_run with lat lon.
  - by apply align_track_raised with lat lon.
  - by destruct (Hno c).
Qed.

End SwathRuns.

(** ** More about [extract_full_swath] *)

Section SwathExtras.
Context {elem time span pixmap tile tmeta : Type}.
Variable O : @collaborators elem time span pixmap tile tmeta.
Implicit Types w : @world time tile tmeta.

Lemma bind_raises {A B} (m : M A) (k : A -> M (time:=time) (tile:=tile) (tmeta:=tmeta) B)
    w e w1 :
  m w = (Raise e, w1) -> (m ≫= k) w = (Raise e, w1).
Proof. intros H. unfold mbind, M_bind, bind. by rewrite H. Qed.

Lemma bind_exits {A B} (m : M A) (k : A -> M (time:=time) (tile:=tile) (tmeta:=tmeta) B)
    w c w1 :
  m w = (Exit c, w1) -> (m ≫= k) w = (Exit c, w1).
Proof. intros H. unfold mbind, M_bind, bind. by rewrite H. Qed.

(** X3. Whatever the verbosity and the tag, and whether or not the grids
    stack afterwards, a run whose loaders returned enters the
    collaborators in this order: channel loader, gap filler, derived
    channels, cloud mask, track aligner; and it reads the clock four
    times. *)
Theorem swath_call_order f d3 d6 d35 dl dc v w swath buffer filled l2 cm lat lon res :
  get_swath O f d3 = Return swath ->
  fill_all_channels O swath = Return (buffer, filled) ->
  get_channels O f d6 = Return l2 ->
  get_cloud_mask O f d35 = Return cm ->
  getitem_neg (filled_swath swath buffer) 2 = Return lat ->
  getitem_neg (filled_swath swath buffer) 1 = Return lon ->
  get_cloudsat_mask O f dl dc lat lon false = res ->
  (forall c, res <> Exit c) ->
  without_console
    (drop (length (trace w)) (trace (snd (extract_full_swath O f d3 d6 d35 dl dc v w))))
  = [ECall CGetSwath; ECall CFillAllChannels; ECall CGetChannels; ECall CGetCloudMask;
     ECall CGetCloudsatMask]
  /\ ticks (snd (extract_full_swath O f d3 d6 d35 dl dc v w)) = ticks w + 4.
Proof.
  intros Hswath Hfill Hl2 Hcm H2 H1 Hres Hno.
  rewrite (extract_full_swath_run O f d3 d6 d35 dl dc v w _ _ _ _ _ _ _
             Hswath Hfill Hl2 Hcm
             (align_track_run O (basename f) f dl dc _ lat lon res H2 H1 Hres Hno)).
  cbn [snd trace ticks]. rewrite drop_app_length. split; [| lia].
  unfold swath_events, aligned_events. by destruct (truthy v), res.
Qed.

(** X4. With [verbose=0] the function prints nothing, except for the
    warning about a failed alignment, which is printed whatever the
    verbosity. *)
Theorem silent_run_prints_only_the_warning f d3 d6 d35 dl dc w
    swath buffer filled l2 cm lat lon res :
  get_swath O f d3 = Return swath ->
  fill_all_channels O swath = Return (buffer, filled) ->
  get_channels O f d6 = Return l2 ->
  get_cloud_mask O f d35 = Return cm ->
  getitem_neg (filled_swath swath buffer) 2 = Return lat ->
  getitem_neg (filled_swath swath buffer) 1 = Return lon ->
  get_cloudsat_mask O f dl dc lat lon false = res ->
  (forall c, res <> Exit c) ->
  List.filter is_print
    (drop (length (trace w)) (trace (snd (extract_full_swath O f d3 d6 d35 dl dc 0 w))))
  = match res with
    | Raise e => [EPrint (CouldntExtract (basename f) e)]
    | _ => []
    end.
Proof.
  intros Hswath Hfill Hl2 Hcm H2 H1 Hres Hno.
  rewrite (extract_full_swath_run O f d3 d6 d35 dl dc 0 w _ _ _ _ _ _ _
             Hswath Hfill Hl2 Hcm
             (align_track_run O (basename f) f dl dc _ lat lon res H2 H1 Hres Hno)).
  cbn [snd trace ticks]. rewrite drop_app_length.
  unfold swath_events, aligned_events. by destruct res.
Qed.

(** X5. With a verbosity other than 0 the console shows, in this order:
    the swath loaded, the interpolation time (the difference of the clock
    reads right after and right before the gap filler), the filled
    channels, the two loader messages, the warning if the alignment
    failed, and the alignment time. *)
Theorem verbose_run_console f d3 d6 d35 dl dc v w swath buffer filled l2 cm lat lon res :
  get_swath O f d3 = Return swath ->
  fill_all_channels O swath = Return (buffer, filled) ->
  get_channels O f d6 = Return l2 ->
  get_cloud_mask O f d35 = Return cm ->
  getitem_neg (filled_swath swath buffer) 2 = Return lat ->
  getitem_neg (filled_swath swath buffer) 1 = Return lon ->
  get_cloudsat_mask O f dl dc lat lon false = res ->
  (forall c, res <> Exit c) ->
  v <> 0%Z ->
  List.filter is_print
    (drop (length (trace w)) (trace (snd (extract_full_swath O f d3 d6 d35 dl dc v w))))
  = [EPrint (SwathLoaded (basename f));
     EPrint (InterpolationTook
               (time_sub O (clock O (ticks w + 1)) (clock O (ticks w))));
     EPrint (ChannelsFull filled);
     EPrint Level2Loaded;
     EPrint CloudMaskLoaded]
    ++ match res with
       | Raise e => [EPrint (CouldntExtract (basename f) e)]
       | _ => []
       end
    ++ [EPrint (AlignmentTook
                  (time_sub O (clock O (ticks w + 3)) (clock O (ticks w + 2))))].
Proof.
  intros Hswath Hfill Hl2 Hcm H2 H1 Hres Hno Hv.
  rewrite (extract_full_swath_run O f d3 d6 d35 dl dc v w _ _ _ _ _ _ _
             Hswath Hfill Hl2 Hcm
             (align_track_run O (basename f) f dl dc _ lat lon res H2 H1 Hres Hno)).
  cbn [snd trace ticks]. rewrite drop_app_length.
  assert (truthy v = true) as ->.
  { unfold truthy. apply negb_true_iff. by apply Z.eqb_neq. }
  replace (ticks w + 1) with (S (ticks w)) by lia.
  replace (ticks w + 2) with (S (S (ticks w))) by lia.
  replace (ticks w + 3) with (S (S (S (ticks w)))) by lia.
  unfold swath_events, aligned_events. by destruct res.
Qed.


Lemma getitem_neg_in_range (a : @ndarray elem) (n k : nat) (rest : list nat) :
  shape a = n :: rest -> k <= n -> exists x, getitem_neg a k = Return x.
Proof.
  intros Hs Hk. unfold getitem_neg. rewrite Hs.
  rewrite (proj2 (Nat.leb_le k n) Hk). by eexists.
Qed.

Lemma getitem_neg_out_of_range (a : @ndarray elem) (k : nat) :
  (forall n rest, shape a = n :: rest -> n < k) ->
  exists e, getitem_neg a k = Raise e /\ exn_class e = IndexError.
Proof.
  intros H. unfold getitem_neg. destruct (shape a) as [| n rest] eqn:E; [by eexists |].
  specialize (H n rest eq_refl).
  rewrite (proj2 (Nat.leb_gt k n) H). by eexists.
Qed.

(** Grids whose row and column extents are not all the same do not stack. *)
Lemma vstack_extents_differ (a b cm : @ndarray elem) n k r c r2 c2 r3 c3 :
  shape a = [n; r; c] -> shape b = [k; r2; c2] -> shape cm = [r3; c3] ->
  ~ ((r2, c2) = (r, c) /\ (r3, c3) = (r, c)) ->
  exists e, vstack O [a; b; expand_first cm] = Raise e /\ exn_class e = ValueError.
Proof.
  intros Ha Hb Hcm Hne. unfold vstack, concatenate0, atleast_2d, expand_first. simpl.
  rewrite Ha, Hb, Hcm. simpl. rewrite Ha, Hb. simpl.
  destruct (bool_decide ([r2; c2] = [r; c])) eqn:E2;
    [destruct (bool_decide ([r3; c3] = [r; c])) eqn:E3 |]; simpl; try by eexists.
  apply bool_decide_eq_true in E2, E3. destruct Hne. split; congruence.
Qed.

(** X6. If the derived channels or the cloud mask do not have the row and
    column extents of the swath, [extract_full_swath] raises a
    [ValueError]; the mismatch is only met at the stacking of line 88,
    after the track aligner has been called. *)
Theorem shape_mismatch_is_fatal f d3 d6 d35 dl dc v w swath buffer filled l2 cm
    n k r c r2 c2 r3 c3 :
  get_swath O f d3 = Return swath ->
  fill_all_channels O swath = Return (buffer, filled) ->
  get_channels O f d6 = Return l2 ->
  get_cloud_mask O f d35 = Return cm ->
  shape swath = [n; r; c] -> 2 <= n ->
  shape l2 = [k; r2; c2] -> shape cm = [r3; c3] ->
  ~ ((r2, c2) = (r, c) /\ (r3, c3) = (r, c)) ->
  (forall lat lon code, get_cloudsat_mask O f dl dc lat lon false <> Exit code) ->
  exists e,
    fst (extract_full_swath O f d3 d6 d35 dl dc v w) = Raise e
    /\ exn_class e = ValueError
    /\ ECall CGetCloudsatMask
         ∈ drop (length (trace w)) (trace (snd (extract_full_swath O f d3 d6 d35 dl dc v w))).
Proof.
  intros Hswath Hfill Hl2 Hcm Sa Hn Sb Sc Hne Hno.
  destruct (getitem_neg_in_range (filled_swath swath buffer) n 2 [r; c] Sa Hn) as [lat H2].
  destruct (getitem_neg_in_range (filled_swath swath buffer) n 1 [r; c] Sa) as [lon H1];
    [lia |].
  destruct (vstack_extents_differ (filled_swath swath buffer) l2 cm n k r c r2 c2 r3 c3
              Sa Sb Sc Hne) as (e & Hst & He).
  exists e.
  rewrite (extract_full_swath_run O f d3 d6 d35 dl dc v w _ _ _ _ _ _ _
             Hswath Hfill Hl2 Hcm
             (align_track_run O (basename f) f dl dc _ lat lon _ H2 H1 eq_refl
                (Hno lat lon))).
  rewrite Hst. cbn [fst snd trace outcome_map]. split; [done |]. split; [done |].
  rewrite drop_app_length. unfold swath_events, aligned_events.
  rewrite !elem_of_app. do 8 right. left. by left.
Qed.

(** X7. A swath with fewer than two channels has no coordinate channels
    to hand to the aligner: the [IndexError] of [np_swath[-2]] is caught
    like a failure of the aligner, the aligner is never called, the
    warning is printed and the metadata is [None]. *)
Theorem too_few_channels_skip_alignment f d3 d6 d35 dl dc v w swath buffer filled l2 cm
    stacked :
  get_swath O f d3 = Return swath ->
  fill_all_channels O swath = Return (buffer, filled) ->
  get_channels O f d6 = Return l2 ->
  get_cloud_mask O f d35 = Return cm ->
  (forall n rest, shape swath = n :: rest -> n < 2) ->
  vstack O [filled_swath swath buffer; l2; expand_first cm] = Return stacked ->
  exists e w',
    extract_full_swath O f d3 d6 d35 dl dc v w
      = (Return (astype O Float16 stacked, PyNone, usability_tag filled, basename f), w')
    /\ exn_class e = IndexError
    /\ EPrint (CouldntExtract (basename f) e) ∈ drop (length (trace w)) (trace w')
    /\ ECall CGetCloudsatMask ∉ drop (length (trace w)) (trace w').
Proof.
  intros Hswath Hfill Hl2 Hcm Hfew Hst.
  destruct (getitem_neg_out_of_range (filled_swath swath buffer) 2 Hfew) as (e & H2 & He).
  exists e. eexists.
  rewrite (extract_full_swath_run O f d3 d6 d35 dl dc v w _ _ _ _ _ _ _
             Hswath Hfill Hl2 Hcm
             (fun u => align_track_index_error_run O (basename f) f dl dc _ e u H2)).
  rewrite Hst. cbn [outcome_map merged_info]. split; [reflexivity |]. split; [done |].
  cbn [trace]. rewrite drop_app_length. unfold swath_events. split.
  - rewrite !elem_of_app. do 8 right. left. by left.
  - destruct (truthy v); cbn; intros Hin;
      repeat (apply elem_of_cons in Hin as [Hin | Hin]; [done |]);
      by apply elem_of_nil in Hin.
Qed.


Lemma call_raises {A} (c : collab) (e : exn) w :
  call (A:=A) c (Raise e) w
  = (Raise e, {| fs := fs w; trace := trace w ++ [ECall c]; ticks := ticks w |}).
Proof. reflexivity. Qed.

(** X8. A failure of the channel loader, of the gap filler, of the
    derived-channel loader or of the cloud-mask loader is fatal: the
    exception reaches the caller, and the track aligner is not called any
    more. *)
Theorem loader_failure_is_fatal f d3 d6 d35 dl dc v w e :
  get_swath O f d3 = Raise e
  \/ (exists swath,
        get_swath O f d3 = Return swath
        /\ (fill_all_channels O swath = Raise e
            \/ exists buffer filled,
                 fill_all_channels O swath = Return (buffer, filled)
                 /\ (get_channels O f d6 = Raise e
                     \/ exists l2,
                          get_channels O f d6 = Return l2
                          /\ get_cloud_mask O f d35 = Raise e))) ->
  fst (extract_full_swath O f d3 d6 d35 dl dc v w) = Raise e
  /\ ECall CGetCloudsatMask
       ∉ drop (length (trace w)) (trace (snd (extract_full_swath O f d3 d6 d35 dl dc v w))).
Proof.
  assert (Hnot : forall l : list (@event time),
            Forall (fun ev => ev <> ECall CGetCloudsatMask) l ->
            ECall CGetCloudsatMask ∉ l).
  { intros l Hl Hin. rewrite Forall_forall in Hl. by apply (Hl _ Hin). }
  intros H. unfold extract_full_swath.
  destruct H as [H | (swath & Hswath & H)].
  { rewrite H, (bind_raises _ _ _ _ _ (call_raises _ _ _)). cbn [fst snd trace].
    split; [done |]. rewrite drop_app_length. apply Hnot. by repeat constructor. }
  rewrite Hswath.
  rewrite (bind_returns _ _ _ _ _ (call_run _ _ _)). cbn [fs trace ticks].
  rewrite (bind_returns _ _ _ _ _ (when_print_run _ _ _)). cbn [fs trace ticks].
  erewrite bind_returns by reflexivity. cbn [fs trace ticks].
  destruct H as [H | (buffer & filled & Hfill & H)].
  { rewrite H, (bind_raises _ _ _ _ _ (call_raises _ _ _)). cbn [fst snd trace].
    split; [done |]. rewrite <- !app_assoc, drop_app_length. apply Hnot.
    destruct (truthy v); by repeat constructor. }
  rewrite Hfill.
  rewrite (bind_returns _ _ _ _ _ (call_run _ _ _)). cbv beta iota. cbn [fs trace ticks].
  erewrite bind_returns by reflexivity. cbn [fs trace ticks].
  rewrite (bind_returns _ _ _ _ _ (when_print2_run _ _ _ _)). cbn [fs trace ticks].
  destruct H as [H | (l2 & Hl2 & H)].
  { rewrite H, (bind_raises _ _ _ _ _ (call_raises _ _ _)). cbn [fst snd trace].
    split; [done |]. rewrite <- !app_assoc, drop_app_length. apply Hnot.
    destruct (truthy v); by repeat constructor. }
  rewrite Hl2.
  rewrite (bind_returns _ _ _ _ _ (call_run _ _ _)). cbn [fs trace ticks].
  rewrite (bind_returns _ _ _ _ _ (when_print_run _ _ _)). cbn [fs trace ticks].
  rewrite H, (bind_raises _ _ _ _ _ (call_raises _ _ _)). cbn [fst snd trace].
  split; [done |]. rewrite <- !app_assoc, drop_app_length. apply Hnot.
  destruct (truthy v); by repeat constructor.
Qed.

(** Lines 13-80 when the aligner asks the interpreter to exit. *)
Lemma extract_full_swath_exit_run f d3 d6 d35 dl dc v w swath buffer filled l2 cm
    lat lon code :
  get_swath O f d3 = Return swath ->
  fill_all_channels O swath = Return (buffer, filled) ->
  get_channels O f d6 = Return l2 ->
  get_cloud_mask O f d35 = Return cm ->
  getitem_neg (filled_swath swath buffer) 2 = Return lat ->
  getitem_neg (filled_swath swath buffer) 1 = Return lon ->
  get_cloudsat_mask O f dl dc lat lon false = Exit code ->
  extract_full_swath O f d3 d6 d35 dl dc v w
  = (Exit code,
     {| fs := fs w;
        trace :=
          trace w ++ [ECall CGetSwath]
            ++ (if truthy v then [EPrint (SwathLoaded (basename f))] else [])
            ++ [ECall CFillAllChannels]
            ++ (if truthy v
                then [EPrint (InterpolationTook
                                (time_sub O (clock O (S (ticks w))) (clock O (ticks w))));
                      EPrint (ChannelsFull filled)]
                else [])
            ++ [ECall CGetChannels]
            ++ (if truthy v then [EPrint Level2Loaded] else [])
            ++ [ECall CGetCloudMask]
            ++ (if truthy v then [EPrint CloudMaskLoaded] else [])
            ++ [ECall CGetCloudsatMask];
        ticks := S (S (S (ticks w))) |}).
Proof.
  intros Hswath Hfill Hl2 Hcm H2 H1 Hexit. unfold extract_full_swath.
  rewrite Hswath.
  rewrite (bind_returns _ _ _ _ _ (call_run _ _ _)). cbn [fs trace ticks].
  rewrite (bind_returns _ _ _ _ _ (when_print_run _ _ _)). cbn [fs trace ticks].
  erewrite bind_returns by reflexivity. cbn [fs trace ticks].
  rewrite Hfill.
  rewrite (bind_returns _ _ _ _ _ (call_run _ _ _)). cbv beta iota. cbn [fs trace ticks].
  erewrite bind_returns by reflexivity. cbn [fs trace ticks].
  rewrite (bind_returns _ _ _ _ _ (when_print2_run _ _ _ _)). cbn [fs trace ticks].
  rewrite Hl2.
  rewrite (bind_returns _ _ _ _ _ (call_run _ _ _)). cbn [fs trace ticks].
  rewrite (bind_returns _ _ _ _ _ (when_print_run _ _ _)). cbn [fs trace ticks].
  rewrite Hcm.
  rewrite (bind_returns _ _ _ _ _ (call_run _ _ _)). cbn [fs trace ticks].
  rewrite (bind_returns _ _ _ _ _ (when_print_run _ _ _)). cbn [fs trace ticks].
  erewrite bind_returns by reflexivity. cbn [fs trace ticks].
  rewrite (bind_exits _ _ _ _ _
             (align_track_exit_run O (basename f) f dl dc _ lat lon code _ H2 H1 Hexit)).
  cbn [fs trace ticks]. f_equal. f_equal. by rewrite <- !app_assoc.
Qed.

End SwathExtras.

(** ** The exit of the interpreter and the layout of the tensor *)

Section SwathTensor.
Context {elem time span pixmap tile tmeta : Type}.
Variable O : @collaborators elem time span pixmap tile tmeta.
Implicit Types w : @world time tile tmeta.

(** X9. A request of the track aligner to leave the interpreter
    ([SystemExit] is no [Exception]) is not caught by the handler of
    line 78: the run ends with that exit code, prints neither the warning
    nor the alignment time, and no tensor is built. *)
Theorem aligner_exit_is_not_caught f d3 d6 d35 dl dc v w swath buffer filled l2 cm
    lat lon code :
  get_swath O f d3 = Return swath ->
  fill_all_channels O swath = Return (buffer, filled) ->
  get_channels O f d6 = Return l2 ->
  get_cloud_mask O f d35 = Return cm ->
  getitem_neg (filled_swath swath buffer) 2 = Return lat ->
  getitem_neg (filled_swath swath buffer) 1 = Return lon ->
  get_cloudsat_mask O f dl dc lat lon false = Exit code ->
  fst (extract_full_swath O f d3 d6 d35 dl dc v w) = Exit code
  /\ Forall (fun ev => forall e dt,
               ev <> EPrint (CouldntExtract (basename f) e)
               /\ ev <> EPrint (AlignmentTook dt))
       (drop (length (trace w))
          (trace (snd (extract_full_swath O f d3 d6 d35 dl dc v w)))).
Proof.
  intros Hswath Hfill Hl2 Hcm H2 H1 Hexit.
  rewrite (extract_full_swath_exit_run O f d3 d6 d35 dl dc v w _ _ _ _ _ lat lon code
             Hswath Hfill Hl2 Hcm H2 H1 Hexit).
  cbn [fst snd trace]. split; [done |]. rewrite drop_app_length.
  destruct (truthy v); cbn; repeat constructor; done.
Qed.

(** X10. The channels of the returned tensor are, in this order, the
    channels of the swath as the gap filler left them (not as they were
    loaded), the derived channels and the cloud mask; every value was
    converted twice, to the common dtype of the three grids and then to
    float16.  For buffers of the announced sizes the tensor is well
    formed and its last channel is the cloud mask. *)
Theorem fused_tensor_layout f d3 d6 d35 dl dc v w swath buffer filled l2 cm n k r c
    T meta tag name w' :
  get_swath O f d3 = Return swath ->
  fill_all_channels O swath = Return (buffer, filled) ->
  get_channels O f d6 = Return l2 ->
  get_cloud_mask O f d35 = Return cm ->
  shape swath = [n; r; c] -> shape l2 = [k; r; c] -> shape cm = [r; c] ->
  length buffer = n * (r * c) -> length (data l2) = k * (r * c) ->
  length (data cm) = r * c ->
  extract_full_swath O f d3 d6 d35 dl dc v w = (Return (T, meta, tag, name), w') ->
  data T
  = List.map
      (fun x =>
         cast O Float16
           (cast O (promote_types O (promote_types O (dtype_of swath) (dtype_of l2))
                      (dtype_of cm)) x))
      (buffer ++ data l2 ++ data cm)
  /\ well_formed T
  /\ getitem_neg T 1
     = Return
         {| shape := [r; c];
            dtype_of := Float16;
            data :=
              List.map
                (fun x =>
                   cast O Float16
                     (cast O (promote_types O
                                (promote_types O (dtype_of swath) (dtype_of l2))
                                (dtype_of cm)) x))
                (data cm) |}.
Proof.
  intros Hswath Hfill Hl2 Hcm Sa Sb Sc La Lb Lc Hrun.
  pose proof (extract_full_swath_inv O f d3 d6 d35 dl dc v w _ w' Hrun) as H.
  cbv beta iota in H.
  destruct H as (swath' & buffer' & filled' & l2' & cm' & stacked
                 & E1 & E2 & E3 & E4 & Hst & -> & _).
  rewrite Hswath in E1. injection E1 as <-.
  rewrite Hfill in E2. injection E2 as <- <-.
  rewrite Hl2 in E3. injection E3 as <-.
  rewrite Hcm in E4. injection E4 as <-.
  revert Hst. unfold vstack, concatenate0, atleast_2d, expand_first. simpl.
  rewrite Sa, Sb, Sc. simpl. rewrite Sa, Sb. simpl.
  rewrite !bool_decide_eq_true_2 by done. simpl. intros [= <-].
  set (dt := promote_types O (promote_types O (dtype_of swath) (dtype_of l2)) (dtype_of cm)).
  assert (Hdata :
    List.map (cast O Float16)
      (List.map (cast O dt) buffer ++ List.map (cast O dt) (data l2)
         ++ List.map (cast O dt) (data cm) ++ [])
    = List.map (fun x => cast O Float16 (cast O dt x)) (buffer ++ data l2 ++ data cm)).
  { by rewrite app_nil_r, !map_app, !map_map. }
  split; [exact Hdata |]. split.
  - unfold well_formed, astype, numel. simpl.
    rewrite length_map, app_nil_r, !length_app, !length_map. lia.
  - unfold getitem_neg, astype. cbn [shape dtype_of data].
    rewrite (proj2 (Nat.leb_le 1 (n + (k + 1)))) by lia.
    f_equal. f_equal.
    rewrite Hdata, !map_app, !app_assoc, <- map_app.
    rewrite drop_app_length'; last first.
    { rewrite length_map, length_app. unfold numel. simpl. nia. }
    apply firstn_all2. rewrite length_map. unfold numel. simpl. lia.
Qed.

(** X11. The name that [extract_full_swath] returns is the last component
    of the input path: it contains no slash, and for a path made by
    [os.path.join(d, n)] from a plain file name [n] it is [n]. *)
Theorem returned_name_is_the_file_name f d3 d6 d35 dl dc v w T meta tag name w' :
  extract_full_swath O f d3 d6 d35 dl dc v w = (Return (T, meta, tag, name), w') ->
  slash_free name = true
  /\ forall d n, plain_component n = true -> f = path_join2 d n -> name = n.
Proof.
  intros Hrun.
  pose proof (extract_full_swath_inv O f d3 d6 d35 dl dc v w _ w' Hrun) as H.
  cbv beta iota in H.
  destruct H as (swath & buffer & filled & l2 & cm & stacked & _ & _ & _ & _ & _ & _ & _ & ->).
  split; [apply basename_slash_free |].
  intros d n Hn ->. by apply basename_join.
Qed.

End SwathTensor.

(** ** More about [extract_tiles_from_swath] and the hook *)

Section DriverExtras.
Context {elem time span pixmap tile tmeta : Type}.
Variable O : @collaborators elem time span pixmap tile tmeta.
Implicit Types w : @world time tile tmeta.

(** X12. Only a [ValueError] of the sampler is turned into [exit(0)]: any
    other exception, and an exit request, reaches the caller as it is,
    with nothing printed, no directory made and nothing saved. *)
Theorem only_value_error_becomes_exit np swath_name save_dir tile_size v w res :
  sample_labelled_and_unlabelled_tiles O np tile_size = res ->
  (forall r, res <> Return r) ->
  (forall e, res = Raise e -> isinstance ValueError e = false) ->
  extract_tiles_from_swath O np swath_name save_dir tile_size v w
  = (outcome_map (fun _ => tt) res,
     {| fs := fs w; trace := trace w ++ [ECall CSampleTiles]; ticks := ticks w |}).
Proof.
  intros Hs Hnr He. unfold extract_tiles_from_swath.
  unfold mbind, M_bind, bind, try_except, call, emit, lift. simpl.
  rewrite Hs. destruct res as [r | e | c]; simpl.
  - by destruct (Hnr r).
  - by rewrite (He e eq_refl).
  - done.
Qed.

(** X13. The hook never runs to its end.  Whatever the arguments and the
    state of the disk, it ends with an exception or an exit request, it
    enters no collaborator but the file-name parser, and it leaves the
    file system as it found it: the call of line 207 passes keywords
    that [extract_full_swath] does not take. *)
Theorem main_never_returns argv w :
  (forall r, fst (main O argv w) <> Return r)
  /\ fs (snd (main O argv w)) = fs w
  /\ (trace (snd (main O argv w)) = trace w
      \/ trace (snd (main O argv w)) = trace w ++ [ECall CGetFileTimeInfo]).
Proof.
  unfold main, call, rglob, raise, emit, lift, mbind, M_bind, bind.
  destruct (list_index argv 1) as [save_dir | e | c]; [| by auto ..].
  destruct (list_index argv 2) as [myd02_filename | e | c]; [| by auto ..].
  destruct (os_path_split myd02_filename) as [root_dir filename].
  destruct (unpack_last_two _) as [[month day] | e | c]; [| by auto ..].
  cbn [fst snd fs trace ticks].
  destruct (get_file_time_info O myd02_filename) as [[[[year abs_day] hour] minute] | e | c];
    cbn [fst snd fs trace ticks]; [| by auto ..].
  destruct (List.filter _ (List.map fst _)); cbn [fst snd fs trace ticks]; by auto.
Qed.

Lemma last_of_suffix (l1 l2 : list string) (d : string) :
  l2 <> [] -> List.last (l1 ++ l2) d = List.last l2 d.
Proof.
  intros Hne. induction l1 as [| x l1 IH]; [done |].
  simpl. rewrite IH. destruct (l1 ++ l2) eqn:E; [| done].
  by apply app_eq_nil in E as [_ ->].
Qed.

(** Where no entry has the name, the search finds nothing, whatever the
    root. *)
Lemma rglob_nothing (root name : string) w :
  plain_name name = true ->
  (forall p, is_Some (fs w !! p) -> name ∉ p) ->
  rglob O root name w = (Return [], w).
Proof.
  intros Hplain H. unfold rglob. f_equal. f_equal.
  destruct (List.filter _ _) as [| p l] eqn:E; [done |].
  assert (In p (p :: l)) as Hin by by left.
  rewrite <- E in Hin. apply filter_In in Hin as [Hin Hp].
  apply list_elem_of_In, list_elem_of_fmap in Hin as ([p' nd] & -> & Hin).
  apply elem_of_map_to_list in Hin. simpl in Hp.
  unfold below_matching in Hp. apply andb_true_iff in Hp as [_ Hp].
  destruct (drop (length (path_parts root)) p') as [| c rel] eqn:Ed; [done |].
  unfold name_matches in Hp. rewrite Hplain in Hp. apply String.eqb_eq in Hp.
  destruct (H p'); [by eexists |].
  rewrite <- (take_drop (length (path_parts root)) p'), Ed, <- Hp.
  rewrite <- (last_of_suffix (take (length (path_parts root)) p') (c :: rel) "") by done.
  apply list_elem_of_In.
  destruct (exists_last (l:=take (length (path_parts root)) p' ++ c :: rel)) as (l' & a & ->).
  { by destruct (take _ _). }
  rewrite last_last. apply in_or_app. right. by left.
Qed.

(** X14. On a disk on which nothing has the canonical name, the hook gets
    as far as line 207 and ends there with a [TypeError]: the file-name
    parser is the only collaborator it has entered, and
    [extract_full_swath] is not run.  The input path has at least two
    directory components, the parser accepts its name, and the canonical
    name is a name without wildcard. *)
Theorem fresh_output_ends_in_type_error prog save_dir myd02_filename rest w
    year abs_day hour minute month day :
  unpack_last_two (str_split slash (fst (os_path_split myd02_filename)))
    = Return (month, day) ->
  get_file_time_info O myd02_filename = Return (year, abs_day, hour, minute) ->
  plain_name (canonical_name year abs_day hour minute) = true ->
  (forall p, is_Some (fs w !! p) -> canonical_name year abs_day hour minute ∉ p) ->
  main O (prog :: save_dir :: myd02_filename :: rest) w
  = (Raise (mkExn TypeError
              "extract_full_swath() got an unexpected keyword argument 'save_dir'"),
     {| fs := fs w; trace := trace w ++ [ECall CGetFileTimeInfo]; ticks := ticks w |}).
Proof.
  intros Hu Hinfo Hplain Hfresh. unfold main.
  do 2 (erewrite bind_returns by reflexivity).
  destruct (os_path_split myd02_filename) as [root_dir filename]. simpl in Hu.
  rewrite Hu. erewrite bind_returns by reflexivity. cbv beta iota.
  erewrite bind_returns; last first.
  { unfold call, emit, lift, mbind, M_bind, bind. by rewrite Hinfo. }
  cbv beta iota zeta.
  erewrite bind_returns; last first.
  { by apply rglob_nothing. }
  reflexivity.
Qed.

(** X15. With fewer than two arguments after the program name the hook
    ends with an [IndexError] and has done nothing. *)
Theorem missing_arguments_index_error argv w :
  length argv < 3 ->
  exists e, main O argv w = (Raise e, w) /\ exn_class e = IndexError.
Proof.
  intros Hlen. unfold main, mbind, M_bind, bind, lift, list_index.
  destruct (argv !! 1) as [save_dir |] eqn:E1; [| by eexists].
  destruct (argv !! 2) as [myd02_filename |] eqn:E2; [| by eexists].
  apply lookup_lt_Some in E2. lia.
Qed.

(** X16. The month and the day are the last two components of the
    directory of the input file.  When that directory contains no slash
    (a bare file name, or a file in a directory given by one name), the
    unpacking of line 190 fails: the hook ends with a [ValueError]
    before the file-name parser is called. *)
Theorem shallow_input_path_value_error prog save_dir myd02_filename rest w :
  slash_free (fst (os_path_split myd02_filename)) = true ->
  exists e,
    main O (prog :: save_dir :: myd02_filename :: rest) w = (Raise e, w)
    /\ exn_class e = ValueError.
Proof.
  intros Hs. unfold main.
  do 2 (erewrite bind_returns by reflexivity).
  destruct (os_path_split myd02_filename) as [root_dir filename]. simpl in Hs.
  rewrite (str_split_slash_free root_dir Hs).
  by eexists.
Qed.

End DriverExtras.

(** ** The suffix of a renamed file *)

Lemma list_ascii_of_string_app (a b : string) :
  list_ascii_of_string (a +:+ b) = list_ascii_of_string a ++ list_ascii_of_string b.
Proof.
  induction a as [| c a IH]; [done |].
  rewrite append_cons. cbn [list_ascii_of_string]. by rewrite IH.
Qed.

Lemma string_rev_app (a b : string) :
  String.rev (a +:+ b) = String.rev b +:+ String.rev a.
Proof.
  rewrite <- (string_of_list_ascii_of_string (String.rev (a +:+ b))).
  rewrite <- (string_of_list_ascii_of_string (String.rev b +:+ String.rev a)).
  f_equal. unfold String.rev.
  rewrite list_ascii_of_string_app, !list_ascii_rev_app, !app_nil_r.
  by rewrite list_ascii_of_string_app, List.rev_app_distr.
Qed.

Lemma prefix_app_self (p t : string) : String.prefix p (p +:+ t) = true.
Proof.
  induction p as [| c p IH]; [by destruct t |].
  rewrite append_cons. cbn [String.prefix]. by destruct (ascii_dec c c).
Qed.

(** [(s + p).endswith(p)] *)
Lemma endswith_app (p s : string) : endswith p (s +:+ p) = true.
Proof. unfold endswith. rewrite string_rev_app. apply prefix_app_self. Qed.

Lemma prefix_app_long (p s t : string) :
  String.length p <= String.length s -> String.prefix p (s +:+ t) = String.prefix p s.
Proof.
  revert p. induction s as [| b s IH]; intros p Hlen.
  - destruct p; [by destruct t | simpl in Hlen; lia].
  - rewrite append_cons. destruct p as [| a p]; [done |].
    cbn [String.prefix]. destruct (ascii_dec a b); [| done].
    apply IH. simpl in Hlen. lia.
Qed.

Lemma prefix_app_r (p s t : string) :
  String.prefix p s = true -> String.prefix p (s +:+ t) = true.
Proof.
  intros H. rewrite prefix_app_long; [done |]. by apply prefix_length.
Qed.

(** [".hdf"] does not overlap with itself: an occurrence that starts in
    [s] ends in [s]. *)
Lemma hdf_occurrence_inside (s : string) :
  String.prefix ".hdf" (s +:+ ".hdf") = true -> s = "" \/ 4 <= String.length s.
Proof.
  destruct s as [| c0 [| c1 [| c2 [| c3 s]]]]; [by left | | | | right; simpl; lia];
    intros H; exfalso; revert H; rewrite !append_cons; cbn [String.prefix String.append];
    repeat (destruct (ascii_dec _ _) as [? | ?]; try discriminate).
Qed.

Lemma str_replace_from_hdf_suffix (new : string) (skip : nat) (s : string) :
  skip <= String.length s ->
  str_replace_from ".hdf" new skip (s +:+ ".hdf")
  = str_replace_from ".hdf" new skip s +:+ new.
Proof.
  revert skip. induction s as [| c s IH]; intros skip Hk.
  - simpl in Hk. replace skip with 0 by lia.
    change ("" +:+ ".hdf") with ".hdf". cbn. by rewrite app_empty_r.
  - rewrite append_cons. cbn [str_replace_from]. destruct skip as [| k].
    + rewrite <- append_cons.
      destruct (String.prefix ".hdf" (String c s +:+ ".hdf")) eqn:E.
      * destruct (hdf_occurrence_inside _ E) as [? | Hlen]; [done |].
        rewrite prefix_app_long in E by done. rewrite E.
        cbn [String.length Nat.sub]. simpl in Hlen.
        rewrite IH by lia. by rewrite app_assoc_string.
      * destruct (String.prefix ".hdf" (String c s)) eqn:E2.
        { by rewrite (prefix_app_r _ _ _ E2) in E. }
        rewrite IH by lia. by rewrite append_cons.
    + apply IH. simpl in Hk. lia.
Qed.

(** A name that ends with [".hdf"] ends with the new suffix after the
    replacement. *)
Lemma str_replace_hdf_suffix (new s : string) :
  str_replace ".hdf" new (s +:+ ".hdf") = str_replace ".hdf" new s +:+ new.
Proof. unfold str_replace. apply str_replace_from_hdf_suffix. lia. Qed.

Lemma endswith_join (p d n : string) :
  endswith p n = true -> endswith p (path_join2 d n) = true.
Proof.
  intros H.
  assert (Hn : exists n0, n = n0 +:+ p).
  { unfold endswith in H.
    assert (Hp : forall a b, String.prefix a b = true -> exists r, b = a +:+ r).
    { induction a as [| x a IHa]; intros b Hb; [by exists b |].
      destruct b as [| y b]; [by simpl in Hb |]. cbn [String.prefix] in Hb.
      destruct (ascii_dec x y) as [<- |]; [| done].
      destruct (IHa b Hb) as [r ->]. by exists r. }
    destruct (Hp _ _ H) as [r Hr]. exists (String.rev r).
    apply (f_equal String.rev) in Hr.
    rewrite string_rev_app in Hr.
    assert (Hinv : forall x, String.rev (String.rev x) = x).
    { intros x. rewrite <- (string_of_list_ascii_of_string (String.rev (String.rev x))).
      rewrite <- (string_of_list_ascii_of_string x) at 2. f_equal.
      unfold String.rev. rewrite !list_ascii_rev_app, !app_nil_r.
      apply List.rev_involutive. }
    by rewrite !Hinv in Hr. }
  destruct Hn as [n0 ->]. unfold path_join2.
  destruct (startswith "/" (n0 +:+ p)); [apply endswith_app |].
  destruct (String.eqb d "" || endswith "/" d).
  - rewrite <- app_assoc_string. apply endswith_app.
  - rewrite <- !app_assoc_string. apply endswith_app.
Qed.

(** ** The picture of a swath and the plain save *)

Section VisualRuns.
Context {elem time span pixmap tile tmeta image : Type}.
Variable O : @collaborators elem time span pixmap tile tmeta.
Variable P : @Visual.visual_collaborators elem image.
Implicit Types w : @Visual.world elem image.
Implicit Types m : gmap (list string) (@Visual.node elem image).

Lemma visual_bind_returns {A B} (c : Visual.M A)
    (k : A -> Visual.M (elem:=elem) (image:=image) B) w a w1 :
  c w = (Return a, w1) -> (c ≫= k) w = k a w1.
Proof. intros H. unfold mbind, Visual.visual_M_bind, Visual.bind. by rewrite H. Qed.

Lemma visual_bind_raises {A B} (c : Visual.M A)
    (k : A -> Visual.M (elem:=elem) (image:=image) B) w e w1 :
  c w = (Raise e, w1) -> (c ≫= k) w = (Raise e, w1).
Proof. intros H. unfold mbind, Visual.visual_M_bind, Visual.bind. by rewrite H. Qed.

Lemma visual_mkdir_lookup m (d k : list string) :
  Visual.mkdir_if_absent m d !! k
  = match m !! k with
    | Some v => Some v
    | None => if decide (k = d) then Some Visual.Dir else None
    end.
Proof.
  unfold Visual.mkdir_if_absent. destruct (m !! d) as [v |] eqn:Ed.
  - destruct (m !! k) eqn:Ek; [done |]. case_decide; [congruence | done].
  - rewrite lookup_insert. case_decide as E.
    + subst. rewrite Ed. by rewrite decide_True.
    + rewrite decide_False by congruence. by destruct (m !! k).
Qed.

Lemma visual_fold_mkdir_lookup (l : list (list string)) m (k : list string) :
  fold_left Visual.mkdir_if_absent l m !! k
  = match m !! k with
    | Some v => Some v
    | None => if decide (k ∈ l) then Some Visual.Dir else None
    end.
Proof.
  revert m. induction l as [| d l IH]; intros m; simpl.
  - destruct (m !! k); [done |]. by destruct (decide (k ∈ [])) as [H%elem_of_nil |].
  - rewrite IH, visual_mkdir_lookup. destruct (m !! k); [done |].
    destruct (decide (k = d)) as [-> | Hne].
    + rewrite decide_True; [done | by left].
    + destruct (decide (k ∈ l)).
      * rewrite decide_True; [done | by right].
      * rewrite decide_False; [done |]. by intros [? | ?]%elem_of_cons.
Qed.

(** The directory is there afterwards; nothing else changes, except that
    missing directories above it are made. *)
Lemma visual_ensure_dir_made m (dr : string) :
  path_parts dr <> [] ->
  m !! path_parts dr = None \/ m !! path_parts dr = Some Visual.Dir ->
  Visual.ensure_dir m dr !! path_parts dr = Some Visual.Dir.
Proof.
  intros Hne [H | H]; unfold Visual.ensure_dir; rewrite H; [| done].
  rewrite visual_fold_mkdir_lookup, H. by rewrite decide_True by by apply self_in_ancestors.
Qed.

Lemma visual_ensure_dir_keeps m (dr : string) (k : list string) v :
  m !! k = Some v -> Visual.ensure_dir m dr !! k = Some v.
Proof.
  intros H. unfold Visual.ensure_dir. destruct (m !! path_parts dr); [done |].
  by rewrite visual_fold_mkdir_lookup, H.
Qed.

Lemma visual_ensure_dir_below m (dr : string) (k : list string) :
  length (path_parts dr) < length k -> Visual.ensure_dir m dr !! k = m !! k.
Proof.
  intros Hlen. unfold Visual.ensure_dir. destruct (m !! path_parts dr); [done |].
  rewrite visual_fold_mkdir_lookup. destruct (m !! k); [done |].
  case_decide as Hin; [| done]. apply ancestors_not_longer in Hin. lia.
Qed.

Lemma visual_not_blocked m (parts : list string) (c : string) :
  Visual.clear_way m parts -> Visual.blocked m (parts ++ [c]) = false.
Proof.
  intros Hclear. unfold Visual.blocked. rewrite proper_ancestors_snoc.
  destruct (existsb _ _) eqn:E; [| done].
  apply existsb_exists in E as (d & Hin%list_elem_of_In & Hd).
  by destruct (Hclear d Hin) as [H | H]; rewrite H in Hd.
Qed.

(** Lines 114-115, with nothing but directories above the directory. *)
Lemma visual_ensure_dir_run (dr : string) w :
  Visual.blocked (Visual.fs w) (path_parts dr) = false ->
  (present ← Visual.path_exists dr; Visual.when (negb present) (Visual.makedirs dr)) w
  = (Return tt,
     {| Visual.fs := Visual.ensure_dir (Visual.fs w) dr;
        Visual.trace :=
          Visual.trace w ++ (if decide (is_Some (Visual.fs w !! path_parts dr)) then []
                             else [Visual.EMakedirs dr]) |}).
Proof.
  intros Hfree.
  unfold mbind, Visual.visual_M_bind, Visual.bind, Visual.path_exists, Visual.makedirs,
    Visual.ensure_dir, Visual.when, Visual.ret.
  destruct (Visual.fs w !! path_parts dr) as [v |] eqn:E.
  - rewrite bool_decide_eq_true_2 by by eexists. cbn [negb].
    destruct (decide (is_Some (Some v))) as [_ | Hn]; [| destruct Hn; by eexists].
    rewrite app_nil_r. by destruct w.
  - rewrite bool_decide_eq_false_2 by (intros [? ?]; done). cbn [negb].
    rewrite E, Hfree.
    by destruct (decide (is_Some (@None (@Visual.node elem image)))) as [[? ?] | _].
Qed.

Lemma visual_ensure_dir_then {A} (dr : string)
    (k : Visual.M (elem:=elem) (image:=image) A) w :
  Visual.blocked (Visual.fs w) (path_parts dr) = false ->
  (present ← Visual.path_exists dr;
   Visual.when (negb present) (Visual.makedirs dr);; k) w
  = k {| Visual.fs := Visual.ensure_dir (Visual.fs w) dr;
         Visual.trace :=
           Visual.trace w ++ (if decide (is_Some (Visual.fs w !! path_parts dr)) then []
                              else [Visual.EMakedirs dr]) |}.
Proof.
  intros Hfree. pose proof (visual_ensure_dir_run dr w Hfree) as H.
  unfold mbind, Visual.visual_M_bind, Visual.bind, Visual.path_exists in *.
  cbv beta iota in *. by rewrite H.
Qed.

Lemma visual_call_run {A} (c : Visual.collab) (a : A) w :
  Visual.call c (Return a) w
  = (Return a,
     {| Visual.fs := Visual.fs w; Visual.trace := Visual.trace w ++ [Visual.ECall c] |}).
Proof. reflexivity. Qed.

Lemma visual_call_raises {A} (c : Visual.collab) (e : exn) w :
  Visual.call (A:=A) c (Raise e) w
  = (Raise e,
     {| Visual.fs := Visual.fs w; Visual.trace := Visual.trace w ++ [Visual.ECall c] |}).
Proof. reflexivity. Qed.

Lemma visual_when_print_run (b : bool) (l : Visual.line) w :
  Visual.when b (Visual.print l) w
  = (Return tt,
     {| Visual.fs := Visual.fs w;
        Visual.trace := Visual.trace w ++ (if b then [Visual.EPrint l] else []) |}).
Proof.
  destruct b; simpl; [done |]. unfold Visual.ret. destruct w; simpl. by rewrite app_nil_r.
Qed.

(** A file can be opened in a directory that exists, unless a directory
    has its name. *)
Lemma open_in_directory m (p : string) (d : list string) (c : string) :
  path_parts p = d ++ [c] ->
  m !! d = Some Visual.Dir ->
  m !! (d ++ [c]) <> Some Visual.Dir ->
  Visual.open_for_writing m p = Return tt.
Proof.
  intros Hp Hd Hc. unfold Visual.open_for_writing. rewrite Hp, removelast_last, Hd.
  destruct (m !! (d ++ [c])) as [[| img | a] |]; try done; by destruct (always_there d).
Qed.

Lemma write_file_run (file : string) (x : @Visual.node elem image) w :
  Visual.open_for_writing (Visual.fs w) file = Return tt ->
  Visual.write_file file x w
  = (Return tt,
     {| Visual.fs := <[path_parts file := x]> (Visual.fs w);
        Visual.trace := Visual.trace w ++ [Visual.ESave file] |}).
Proof. intros H. unfold Visual.write_file. by rewrite H. Qed.

Lemma rgb_dir_parts (save_dir : string) :
  path_parts (os_path_join save_dir ["rgb"]) = path_parts save_dir ++ ["rgb"].
Proof. by apply path_parts_join. Qed.

Lemma rgb_not_blocked (save_dir : string) m :
  Visual.clear_way m (path_parts save_dir) ->
  Visual.blocked m (path_parts (os_path_join save_dir ["rgb"])) = false.
Proof. intros H. rewrite rgb_dir_parts. by apply visual_not_blocked. Qed.

(** X17. The directory [save_dir/rgb] is made before the swath is loaded:
    when the loader fails, its exception reaches the caller and the
    directory stays behind.  Nothing but directories lies on the way to
    [save_dir]; paths are taken as written, without [..]. *)
Theorem failed_load_leaves_the_directory f d3 save_dir v w e :
  Visual.get_swath_rgb P f d3 = Raise e ->
  ".." ∉ path_parts save_dir ->
  Visual.plainly_keyed (Visual.fs w) ->
  Visual.clear_way (Visual.fs w) (path_parts save_dir) ->
  Visual.fs w !! (path_parts save_dir ++ ["rgb"]) = None ->
  exists w',
    Visual.extract_swath_rbg O P f d3 save_dir v w = (Raise e, w')
    /\ Visual.fs w' !! (path_parts save_dir ++ ["rgb"]) = Some Visual.Dir
    /\ Visual.trace w'
       = Visual.trace w ++ [Visual.EMakedirs (os_path_join save_dir ["rgb"]);
                            Visual.ECall Visual.CGetSwathRgb].
Proof.
  intros Hload _ _ Hclear Hnone. unfold Visual.extract_swath_rbg.
  rewrite <- rgb_dir_parts in Hnone.
  eexists.
  rewrite visual_ensure_dir_then by by apply rgb_not_blocked.
  rewrite Hload, (visual_bind_raises _ _ _ _ _ (visual_call_raises _ _ _)).
  cbn [Visual.fs Visual.trace]. split; [reflexivity |]. cbn [Visual.fs Visual.trace]. split.
  - rewrite <- rgb_dir_parts. apply visual_ensure_dir_made; [| by left].
    rewrite rgb_dir_parts. by destruct (path_parts save_dir).
  - rewrite Hnone.
    destruct (decide (is_Some (@None (@Visual.node elem image)))) as [[? ?] | _]; [done |].
    by rewrite <- app_assoc.
Qed.

(** X18. When the gap filler reports another number of channels than
    three, the function says so, whatever the verbosity, and returns:
    no picture is built and none is saved.  Nothing but directories
    lies on the way to [save_dir]; paths are taken as written, without
    [..]. *)
Theorem interpolation_failure_is_reported f d3 save_dir v w rgb buffer filled :
  Visual.get_swath_rgb P f d3 = Return rgb ->
  fill_all_channels O rgb = Return (buffer, filled) ->
  length filled <> 3 ->
  ".." ∉ path_parts save_dir ->
  Visual.plainly_keyed (Visual.fs w) ->
  Visual.clear_way (Visual.fs w) (path_parts save_dir) ->
  Visual.extract_swath_rbg O P f d3 save_dir v w
  = (Return tt,
     {| Visual.fs := Visual.ensure_dir (Visual.fs w) (os_path_join save_dir ["rgb"]);
        Visual.trace :=
          Visual.trace w
            ++ (if decide (is_Some (Visual.fs w !! path_parts (os_path_join save_dir ["rgb"])))
                then [] else [Visual.EMakedirs (os_path_join save_dir ["rgb"])])
            ++ [Visual.ECall Visual.CGetSwathRgb; Visual.ECall Visual.CFillAllChannels;
                Visual.EPrint (Visual.RgbFailed (basename f))] |}).
Proof.
  intros Hload Hfill Hlen _ _ Hclear. unfold Visual.extract_swath_rbg.
  rewrite visual_ensure_dir_then by by apply rgb_not_blocked.
  rewrite Hload, (visual_bind_returns _ _ _ _ _ (visual_call_run _ _ _)).
  cbn [Visual.fs Visual.trace].
  rewrite Hfill, (visual_bind_returns _ _ _ _ _ (visual_call_run _ _ _)).
  cbv beta iota. cbn [Visual.fs Visual.trace].
  rewrite (proj2 (Nat.eqb_neq _ _) Hlen).
  unfold Visual.print, Visual.emit. cbn [Visual.fs Visual.trace].
  by rewrite <- !app_assoc.
Qed.

(** X19. With three filled channels, a swath that can be transposed and
    turned into a picture, a file name whose extension [Image.save]
    knows, and nothing in the way on disk (nothing but directories on
    the way to [save_dir/rgb], no directory with the name of the file),
    the picture is saved as [save_dir/rgb/<name>], where [<name>] is the
    basename of the input with [.hdf] replaced by [.png]; the directory
    exists afterwards; and the message is printed only for a verbosity
    above 0.  Paths are taken as written, without [..]. *)
Theorem picture_is_saved f d3 save_dir v w rgb buffer filled tr img :
  Visual.get_swath_rgb P f d3 = Return rgb ->
  fill_all_channels O rgb = Return (buffer, filled) ->
  length filled = 3 ->
  Visual.transpose_1_2_0 (filled_swath rgb buffer) = Return tr ->
  Visual.fromarray P (astype O UInt8 tr) = Return img ->
  Visual.image_format P
    (os_path_join save_dir ["rgb"; str_replace ".hdf" ".png" (basename f)]) = Return tt ->
  plain_component (basename f) = true ->
  ".." ∉ path_parts save_dir ->
  Visual.plainly_keyed (Visual.fs w) ->
  Visual.clear_way (Visual.fs w) (path_parts save_dir ++ ["rgb"]) ->
  Visual.fs w !! (path_parts save_dir ++ ["rgb"; str_replace ".hdf" ".png" (basename f)])
    <> Some Visual.Dir ->
  exists w',
    Visual.extract_swath_rbg O P f d3 save_dir v w = (Return tt, w')
    /\ Visual.fs w' !! (path_parts save_dir
                          ++ ["rgb"; str_replace ".hdf" ".png" (basename f)])
       = Some (Visual.Picture img)
    /\ Visual.fs w' !! (path_parts save_dir ++ ["rgb"]) = Some Visual.Dir
    /\ (forall k x,
          k <> path_parts save_dir ++ ["rgb"; str_replace ".hdf" ".png" (basename f)] ->
          Visual.fs w !! k = Some x -> Visual.fs w' !! k = Some x)
    /\ Visual.trace w'
       = Visual.trace w
           ++ (if decide (is_Some (Visual.fs w !! (path_parts save_dir ++ ["rgb"])))
               then [] else [Visual.EMakedirs (os_path_join save_dir ["rgb"])])
           ++ [Visual.ECall Visual.CGetSwathRgb; Visual.ECall Visual.CFillAllChannels;
               Visual.ECall Visual.CFromArray;
               Visual.ESave
                 (os_path_join save_dir ["rgb"; str_replace ".hdf" ".png" (basename f)])]
           ++ (if (0 <? v)%Z
               then [Visual.EPrint
                       (Visual.RgbSaved
                          (os_path_join save_dir
                             ["rgb"; str_replace ".hdf" ".png" (basename f)]))]
               else []).
Proof.
  intros Hload Hfill Hlen Htr Himg Hfmt Hplain _ _ Hclear Hfile.
  assert (Hdir : Visual.fs w !! (path_parts save_dir ++ ["rgb"]) = None
                 \/ Visual.fs w !! (path_parts save_dir ++ ["rgb"]) = Some Visual.Dir).
  { apply Hclear, self_in_ancestors. by destruct (path_parts save_dir). }
  assert (Hfree : Visual.blocked (Visual.fs w) (path_parts (os_path_join save_dir ["rgb"]))
                  = false).
  { apply rgb_not_blocked. intros k Hk. apply Hclear.
    rewrite <- (proper_ancestors_snoc _ "rgb") in Hk.
    by apply proper_ancestor_is_ancestor. }
  set (name := str_replace ".hdf" ".png" (basename f)) in *.
  assert (Hname : plain_component name = true).
  { by apply (str_replace_hdf_plain_component ".png"). }
  assert (Hparts : path_parts (os_path_join save_dir ["rgb"; name])
                   = (path_parts save_dir ++ ["rgb"]) ++ [name]).
  { change (os_path_join save_dir ["rgb"; name])
      with (path_join2 (os_path_join save_dir ["rgb"]) name).
    by rewrite path_parts_join, rgb_dir_parts. }
  rewrite <- rgb_dir_parts in Hdir.
  unfold Visual.extract_swath_rbg. fold name.
  rewrite visual_ensure_dir_then by done.
  rewrite Hload, (visual_bind_returns _ _ _ _ _ (visual_call_run _ _ _)).
  cbn [Visual.fs Visual.trace].
  rewrite Hfill, (visual_bind_returns _ _ _ _ _ (visual_call_run _ _ _)).
  cbv beta iota. cbn [Visual.fs Visual.trace].
  rewrite (proj2 (Nat.eqb_eq _ _) Hlen).
  rewrite Htr. erewrite visual_bind_returns by reflexivity.
  rewrite Himg, (visual_bind_returns _ _ _ _ _ (visual_call_run _ _ _)).
  cbn [Visual.fs Visual.trace].
  change (os_path_join (os_path_join save_dir ["rgb"]) [name])
    with (os_path_join save_dir ["rgb"; name]).
  unfold Visual.image_save. rewrite Hfmt.
  erewrite visual_bind_returns; last first.
  { erewrite visual_bind_returns by reflexivity.
    apply write_file_run. cbn [Visual.fs].
    apply (open_in_directory _ _ _ _ Hparts).
    - rewrite <- rgb_dir_parts. apply visual_ensure_dir_made; [| done].
      rewrite rgb_dir_parts. by destruct (path_parts save_dir).
    - rewrite visual_ensure_dir_below.
      + by rewrite <- app_assoc.
      + rewrite rgb_dir_parts, !length_app. simpl. lia. }
  rewrite visual_when_print_run. cbn [Visual.fs Visual.trace].
  eexists. split; [reflexivity |]. cbn [Visual.fs Visual.trace].
  rewrite Hparts. split; [| split; [| split]].
  - rewrite <- app_assoc. by rewrite lookup_insert_eq.
  - rewrite lookup_insert_ne.
    + rewrite <- rgb_dir_parts. apply visual_ensure_dir_made; [| done].
      rewrite rgb_dir_parts. by destruct (path_parts save_dir).
    + intros E. apply (f_equal length) in E. rewrite !length_app in E. simpl in E. lia.
  - intros k x Hk Hx. rewrite lookup_insert_ne.
    + by apply visual_ensure_dir_keeps.
    + rewrite <- app_assoc. by intros <-.
  - rewrite rgb_dir_parts. by rewrite <- !app_assoc.
Qed.

End VisualRuns.

(** ** The transposed picture and the saved swath *)

Section VisualArrays.
Context {elem time span pixmap tile tmeta image : Type}.
Variable O : @collaborators elem time span pixmap tile tmeta.
Variable P : @Visual.visual_collaborators elem image.
Implicit Types w : @Visual.world elem image.

Lemma bind_seq_length {A} (f : nat -> list A) (m n s : nat) :
  (forall x, s <= x < s + n -> length (f x) = m) ->
  length (seq s n ≫= f) = n * m.
Proof.
  revert s. induction n as [| n IH]; intros s Hf; [done |].
  cbn [seq mbind list_bind]. rewrite length_app, Hf by lia.
  change (length (seq (S s) n ≫= f) + m * 0 = n * m) || idtac.
  rewrite (IH (S s)); [simpl; lia |]. intros x Hx. apply Hf. lia.
Qed.

Lemma bind_seq_lookup {A} (f : nat -> list A) (m n s i j : nat) :
  (forall x, s <= x < s + n -> length (f x) = m) ->
  i < n -> j < m ->
  (seq s n ≫= f) !! (i * m + j) = f (s + i) !! j.
Proof.
  revert s i. induction n as [| n IH]; intros s i Hf Hi Hj; [lia |].
  cbn [seq mbind list_bind]. destruct i as [| i].
  - rewrite lookup_app_l by (rewrite Hf; lia). by rewrite Nat.add_0_r.
  - rewrite lookup_app_r by (rewrite Hf; simpl; lia). rewrite Hf by lia.
    replace (S i * m + j - m) with (i * m + j) by (simpl; lia).
    rewrite (IH (S s)); [| intros x Hx; apply Hf; lia | lia | done].
    by replace (S s + i) with (s + S i) by lia.
Qed.

Lemma channel_index_in_range (c h w k i j : nat) :
  k < c -> i < h -> j < w -> (k * h + i) * w + j < c * (h * (w * 1)).
Proof.
  intros Hk Hi Hj.
  assert (H1 : k * h + i + 1 <= c * h) by nia.
  assert (H2 : (k * h + i + 1) * w <= c * h * w) by (apply Nat.mul_le_mono_r; lia).
  nia.
Qed.

(** X20. The array handed to [Image.fromarray] is channel-last: for a well
    formed swath of shape (c, h, w) the transposition of line 124
    returns a well formed array of shape (h, w, c) whose element at
    (i, j, k) is the element at (k, i, j) of the swath. *)
Theorem transposed_picture_is_channel_last (a : @ndarray elem) (c h w : nat) :
  shape a = [c; h; w] -> well_formed a ->
  exists tr,
    Visual.transpose_1_2_0 a = Return tr
    /\ shape tr = [h; w; c]
    /\ dtype_of tr = dtype_of a
    /\ well_formed tr
    /\ forall i j k, i < h -> j < w -> k < c ->
         data tr !! ((i * w + j) * c + k) = data a !! ((k * h + i) * w + j).
Proof.
  intros Hs Hwf. unfold Visual.transpose_1_2_0. rewrite Hs. eexists.
  split; [reflexivity |]. cbn [shape dtype_of data].
  unfold well_formed in *. rewrite Hs in Hwf. unfold numel in *. simpl in Hwf.
  set (cell := fun i j k => option_list (data a !! ((k * h + i) * w + j))).
  assert (Hcell : forall i j k, i < h -> j < w -> k < c -> length (cell i j k) = 1).
  { intros i j k Hi Hj Hk. unfold cell.
    destruct (data a !! ((k * h + i) * w + j)) eqn:E; [done |].
    apply lookup_ge_None in E.
    pose proof (channel_index_in_range c h w k i j Hk Hi Hj). lia. }
  set (pixel := fun i j => seq 0 c ≫= cell i j).
  assert (Hpixel : forall i j, i < h -> j < w -> length (pixel i j) = c * 1).
  { intros i j Hi Hj. apply bind_seq_length. intros k Hk. apply Hcell; lia. }
  set (row := fun i => seq 0 w ≫= pixel i).
  assert (Hrow : forall i, i < h -> length (row i) = w * (c * 1)).
  { intros i Hi. apply bind_seq_length. intros j Hj. apply Hpixel; lia. }
  change (seq 0 h ≫= (fun i => seq 0 w ≫= (fun j => seq 0 c ≫= (fun k =>
            option_list (data a !! ((k * h + i) * w + j))))))
    with (seq 0 h ≫= row).
  split; [done |]. split; [done |]. cbn [shape dtype_of data]. split.
  - rewrite (bind_seq_length row (w * (c * 1))); [simpl; lia |].
    intros i Hi. apply Hrow. lia.
  - intros i j k Hi Hj Hk.
    replace ((i * w + j) * c + k) with (i * (w * (c * 1)) + (j * (c * 1) + (k * 1 + 0)))
      by lia.
    rewrite (bind_seq_lookup row (w * (c * 1)) h 0 i);
      [| intros x Hx; apply Hrow; lia | done | nia].
    unfold row. rewrite (bind_seq_lookup (pixel (0 + i)) (c * 1) w 0 j);
      [| intros x Hx; apply Hpixel; lia | done | nia].
    unfold pixel. rewrite (bind_seq_lookup (cell (0 + i) (0 + j)) 1 c 0 k);
      [| intros x Hx; apply Hcell; lia | done | lia].
    unfold cell. simpl.
    destruct (data a !! ((k * h + i) * w + j)) eqn:E; [done |].
    apply lookup_ge_None in E.
    pose proof (channel_index_in_range c h w k i j Hk Hi Hj). lia.
Qed.

Lemma save_as_npy_run (np_swath : @ndarray elem) (filename save_subdir : string) v w :
  Visual.open_for_writing (Visual.fs w)
    (npy_file (os_path_join save_subdir [str_replace ".hdf" ".npy" filename])) = Return tt ->
  Visual.save_as_npy np_swath filename save_subdir v w
  = (Return tt,
     {| Visual.fs :=
          <[path_parts
              (npy_file (os_path_join save_subdir [str_replace ".hdf" ".npy" filename]))
            := Visual.Array np_swath]> (Visual.fs w);
        Visual.trace :=
          Visual.trace w
            ++ [Visual.ESave
                  (npy_file (os_path_join save_subdir [str_replace ".hdf" ".npy" filename]))]
            ++ (if truthy v
                then [Visual.EPrint
                        (Visual.SwathSaved
                           (os_path_join save_subdir [str_replace ".hdf" ".npy" filename]))]
                else []) |}).
Proof.
  intros Hopen. unfold Visual.save_as_npy, Visual.np_save.
  rewrite (visual_bind_returns _ _ _ _ _ (write_file_run _ _ _ Hopen)).
  rewrite visual_when_print_run. cbn [Visual.fs Visual.trace]. by rewrite <- app_assoc.
Qed.

(** X21. For a file name that ends with [.hdf], saved into an existing
    directory, the swath is stored under the name with [.hdf] replaced
    by [.npy], and the message, printed for every verbosity other than
    0, names that very file. *)
Theorem hdf_swath_is_saved_where_the_message_says
    (np_swath : @ndarray elem) (stem save_subdir : string) v w :
  plain_component (stem +:+ ".hdf") = true ->
  Visual.fs w !! path_parts save_subdir = Some Visual.Dir ->
  Visual.fs w !! (path_parts save_subdir ++ [str_replace ".hdf" ".npy" stem +:+ ".npy"])
    <> Some Visual.Dir ->
  Visual.save_as_npy np_swath (stem +:+ ".hdf") save_subdir v w
  = (Return tt,
     {| Visual.fs :=
          <[path_parts save_subdir ++ [str_replace ".hdf" ".npy" stem +:+ ".npy"]
            := Visual.Array np_swath]> (Visual.fs w);
        Visual.trace :=
          Visual.trace w
            ++ [Visual.ESave
                  (os_path_join save_subdir [str_replace ".hdf" ".npy" stem +:+ ".npy"])]
            ++ (if truthy v
                then [Visual.EPrint
                        (Visual.SwathSaved
                           (os_path_join save_subdir
                              [str_replace ".hdf" ".npy" stem +:+ ".npy"]))]
                else []) |}).
Proof.
  intros Hplain Hdir Hfile.
  pose proof (str_replace_plain_component _ Hplain) as Hname.
  pose proof (str_replace_hdf_suffix ".npy" stem) as Hsuffix.
  set (n := str_replace ".hdf" ".npy" stem +:+ ".npy") in *.
  assert (Hnpy : npy_file (os_path_join save_subdir [n]) = os_path_join save_subdir [n]).
  { unfold npy_file. cbn [os_path_join fold_left].
    by rewrite (endswith_join ".npy" save_subdir n (endswith_app _ _)). }
  assert (Hparts : path_parts (os_path_join save_subdir [n]) = path_parts save_subdir ++ [n]).
  { cbn [os_path_join fold_left]. apply path_parts_join. by rewrite <- Hsuffix. }
  rewrite save_as_npy_run; rewrite Hsuffix, Hnpy.
  - by rewrite Hparts.
  - by apply (open_in_directory _ _ _ _ Hparts).
Qed.

(** X22. [np.save] appends [.npy] to a path that does not end with it,
    the message does not: for such a path the swath is stored under the
    longer name, and the message names a path under which nothing was
    stored. *)
Theorem message_can_name_an_unwritten_file
    (np_swath : @ndarray elem) (filename save_subdir : string) v w :
  plain_component filename = true ->
  endswith ".npy" (os_path_join save_subdir [str_replace ".hdf" ".npy" filename]) = false ->
  Visual.fs w !! path_parts save_subdir = Some Visual.Dir ->
  Visual.fs w !! (path_parts save_subdir ++ [str_replace ".hdf" ".npy" filename +:+ ".npy"])
    <> Some Visual.Dir ->
  exists w',
    Visual.save_as_npy np_swath filename save_subdir v w = (Return tt, w')
    /\ Visual.fs w' !! (path_parts save_subdir
                          ++ [str_replace ".hdf" ".npy" filename +:+ ".npy"])
       = Some (Visual.Array np_swath)
    /\ Visual.fs w' !! path_parts (os_path_join save_subdir
                                     [str_replace ".hdf" ".npy" filename])
       = Visual.fs w !! path_parts (os_path_join save_subdir
                                      [str_replace ".hdf" ".npy" filename])
    /\ Visual.trace w'
       = Visual.trace w
           ++ [Visual.ESave
                 (os_path_join save_subdir [str_replace ".hdf" ".npy" filename] +:+ ".npy")]
           ++ (if truthy v
               then [Visual.EPrint
                       (Visual.SwathSaved
                          (os_path_join save_subdir [str_replace ".hdf" ".npy" filename]))]
               else []).
Proof.
  intros Hplain Hend Hdir Hfile.
  pose proof (str_replace_plain_component _ Hplain) as Hname.
  set (n := str_replace ".hdf" ".npy" filename) in *.
  assert (Hnpy : npy_file (os_path_join save_subdir [n])
                 = os_path_join save_subdir [n] +:+ ".npy").
  { unfold npy_file. by rewrite Hend. }
  assert (Hparts : path_parts (os_path_join save_subdir [n] +:+ ".npy")
                   = path_parts save_subdir ++ [n +:+ ".npy"]).
  { cbn [os_path_join fold_left].
    apply path_parts_join_suffix; [done | done | by apply kept_component_npy]. }
  assert (Hshort : path_parts (os_path_join save_subdir [n]) = path_parts save_subdir ++ [n]).
  { cbn [os_path_join fold_left]. by apply path_parts_join. }
  eexists. rewrite save_as_npy_run; fold n; rewrite Hnpy.
  - split; [reflexivity |]. cbn [Visual.fs Visual.trace]. rewrite Hparts, Hshort.
    split; [by rewrite lookup_insert_eq |]. split; [| done].
    rewrite lookup_insert_ne; [done |].
    intros E. apply app_inv_head in E. injection E as E.
    apply (f_equal String.length) in E. rewrite string_length_app in E. simpl in E. lia.
  - by apply (open_in_directory _ _ _ _ Hparts).
Qed.

(** X23. [save_as_npy] makes no directory.  When [save_subdir] does not
    exist, [np.save] raises an [OSError], nothing is stored and nothing
    is printed, whatever the verbosity.  [save_subdir] is a path with a
    name in it (not the working directory, the root or what [..] leads
    to from them), written like the entries of the file system without
    [..]. *)
Theorem save_as_npy_needs_the_directory
    (np_swath : @ndarray elem) (filename save_subdir : string) v w :
  plain_component filename = true ->
  ".." ∉ path_parts save_subdir ->
  Visual.plainly_keyed (Visual.fs w) ->
  always_there (path_parts save_subdir) = false ->
  Visual.fs w !! path_parts save_subdir = None ->
  exists e,
    Visual.save_as_npy np_swath filename save_subdir v w = (Raise e, w)
    /\ isinstance OSError e = true.
Proof.
  intros Hplain _ _ Hnamed Hdir.
  pose proof (str_replace_plain_component _ Hplain) as Hname.
  set (n := str_replace ".hdf" ".npy" filename) in *.
  assert (Hparts : exists c,
            path_parts (npy_file (os_path_join save_subdir [n]))
            = path_parts save_subdir ++ [c]).
  { unfold npy_file. cbn [os_path_join fold_left].
    destruct (endswith ".npy" (path_join2 save_subdir n)).
    - exists n. by apply path_parts_join.
    - exists (n +:+ ".npy").
      apply path_parts_join_suffix; [done | done | by apply kept_component_npy]. }
  destruct Hparts as [c Hparts].
  unfold Visual.save_as_npy, Visual.np_save. fold n.
  unfold mbind, Visual.visual_M_bind, Visual.bind, Visual.write_file,
    Visual.open_for_writing.
  rewrite Hparts, removelast_last, Hdir, Hnamed.
  destruct (Visual.fs w !! (path_parts save_subdir ++ [c])) as [[| img | a] |];
    by eexists.
Qed.

End VisualArrays.

(** ** The further properties on the reference configuration *)

Ltac no_dotdot :=
  let H := fresh in
  intros H; vm_compute in H;
  repeat (apply elem_of_cons in H as [H | H]; [discriminate |]);
  by apply elem_of_nil in H.

(** The entries of a one-entry file system. *)
Ltac one_entry p :=
  let k := fresh "k" in
  let x := fresh "x" in
  let Hx := fresh "Hx" in
  intros k [x Hx]; try unfold world_with_out in Hx; try unfold disk_with_out in Hx;
  cbn [fs Visual.fs] in Hx; apply lookup_singleton_Some in Hx as [<- _];
  split; [by exists p | no_dotdot].

(** Each member of a concrete list in turn. *)
Ltac each_member H :=
  vm_compute in H;
  repeat (apply elem_of_cons in H as [-> | H]; [vm_compute; tauto |]);
  by apply elem_of_nil in H.
Lemma tiles_are_saved_witness :
  exists w',
    extract_tiles_from_swath demo demo_swath "x.hdf" "out" 1 1 world_with_out = (Return tt, w')
    /\ fs w' !! path_parts (tile_file "out" "label" "tiles" "x.hdf")
       = Some (File (PTiles [[1%Z]]))
    /\ fs w' !! path_parts (tile_file "out" "label" "metadata" "x.hdf")
       = Some (File (PMeta [7]))
    /\ fs w' !! path_parts (tile_file "out" "nonlabel" "tiles" "x.hdf")
       = Some (File (PTiles [[2%Z]; [3%Z]]))
    /\ fs w' !! path_parts (tile_file "out" "nonlabel" "metadata" "x.hdf")
       = Some (File (PMeta [8; 9]))
    /\ (forall d, d ∈ tile_dirs "out" -> fs w' !! path_parts d = Some Dir)
    /\ (forall k x,
          fs world_with_out !! k = Some x ->
          (forall kind what, k <> path_parts (tile_file "out" kind what "x.hdf")) ->
          fs w' !! k = Some x).
Proof.
  apply (tiles_are_saved demo demo_swath "x.hdf" "out" 1 1 world_with_out).
  - reflexivity.
  - reflexivity.
  - reflexivity.
  - reflexivity.
  - reflexivity.
  - reflexivity.
  - no_dotdot.
  - one_entry "out".
  - intros d Hd k Hk. unfold tile_dirs in Hd.
    repeat (apply elem_of_cons in Hd as [-> | Hd]; [each_member Hk |]).
    by apply elem_of_nil in Hd.
  - intros file Hfile. unfold tile_files in Hfile.
    repeat (apply elem_of_cons in Hfile as [-> | Hfile]; [vm_compute; discriminate |]).
    by apply elem_of_nil in Hfile.
Defined.

Lemma tiles_rerun_changes_nothing_witness :
  exists w1 w2,
    extract_tiles_from_swath demo demo_swath "x.hdf" "out" 1 1 world_with_out = (Return tt, w1)
    /\ extract_tiles_from_swath demo demo_swath "x.hdf" "out" 1 1 w1 = (Return tt, w2)
    /\ fs w2 = fs w1
    /\ forall dr, EMakedirs dr ∉ drop (length (trace w1)) (trace w2).
Proof.
  apply (tiles_rerun_changes_nothing demo demo_swath "x.hdf" "out" 1 1 world_with_out
           [[1%Z]] [[2%Z]; [3%Z]] [7] [8; 9]).
  - reflexivity.
  - reflexivity.
  - reflexivity.
  - reflexivity.
  - reflexivity.
  - reflexivity.
  - no_dotdot.
  - one_entry "out".
  - intros d Hd k Hk. unfold tile_dirs in Hd.
    repeat (apply elem_of_cons in Hd as [-> | Hd]; [each_member Hk |]).
    by apply elem_of_nil in Hd.
  - intros file Hfile. unfold tile_files in Hfile.
    repeat (apply elem_of_cons in Hfile as [-> | Hfile]; [vm_compute; discriminate |]).
    by apply elem_of_nil in Hfile.
Defined.

Lemma only_value_error_becomes_exit_witness :
  extract_tiles_from_swath demo_out_of_memory demo_swath "x.hdf" "out" 3 1 empty_world
  = (outcome_map (fun _ => tt)
       (Raise (A:=list (list Z) * list (list Z) * list nat * list nat)
          (mkExn (Derived "MemoryError" Exception) "")),
     {| fs := fs empty_world;
        trace := trace empty_world ++ [ECall CSampleTiles];
        ticks := ticks empty_world |}).
Proof.
  apply (only_value_error_becomes_exit demo_out_of_memory demo_swath "x.hdf" "out" 3 1
           empty_world).
  - reflexivity.
  - intros r. discriminate.
  - intros e [= <-]. reflexivity.
Defined.

Lemma swath_call_order_witness :
  without_console
    (drop (length (trace empty_world))
       (trace (snd (extract_full_swath demo demo_input "g" "l2" "cm" "lidar" "cs" 1
                      empty_world))))
  = [ECall CGetSwath; ECall CFillAllChannels; ECall CGetChannels; ECall CGetCloudMask;
     ECall CGetCloudsatMask]
  /\ ticks (snd (extract_full_swath demo demo_input "g" "l2" "cm" "lidar" "cs" 1
                   empty_world))
     = ticks empty_world + 4.
Proof.
  eapply (swath_call_order demo demo_input "g" "l2" "cm" "lidar" "cs" 1 empty_world).
  - reflexivity.
  - reflexivity.
  - reflexivity.
  - reflexivity.
  - reflexivity.
  - reflexivity.
  - reflexivity.
  - intros c. discriminate.
Defined.

Lemma silent_run_prints_only_the_warning_witness :
  List.filter is_print
    (drop (length (trace empty_world))
       (trace (snd (extract_full_swath demo_night demo_input "g" "l2" "cm" "lidar" "cs" 0
                      empty_world))))
  = [EPrint (CouldntExtract (basename demo_input)
               (mkExn OSError "no CloudSat granule for this swath"))].
Proof.
  eapply (silent_run_prints_only_the_warning demo_night demo_input "g" "l2" "cm" "lidar" "cs"
            empty_world _ _ _ _ _ _ _
            (Raise (mkExn OSError "no CloudSat granule for this swath"))).
  - reflexivity.
  - reflexivity.
  - reflexivity.
  - reflexivity.
  - reflexivity.
  - reflexivity.
  - reflexivity.
  - intros c. discriminate.
Defined.

Lemma verbose_run_console_witness :
  List.filter is_print
    (drop (length (trace empty_world))
       (trace (snd (extract_full_swath demo_night demo_input "g" "l2" "cm" "lidar" "cs" 1
                      empty_world))))
  = [EPrint (SwathLoaded (basename demo_input));
     EPrint (InterpolationTook
               (time_sub demo_night (clock demo_night (ticks empty_world + 1))
                  (clock demo_night (ticks empty_world))));
     EPrint (ChannelsFull [2; 3; 4; 5; 6; 8; 9; 10; 11; 12; 13; 14]);
     EPrint Level2Loaded;
     EPrint CloudMaskLoaded]
    ++ [EPrint (CouldntExtract (basename demo_input)
                  (mkExn OSError "no CloudSat granule for this swath"))]
    ++ [EPrint (AlignmentTook
                  (time_sub demo_night (clock demo_night (ticks empty_world + 3))
                     (clock demo_night (ticks empty_world + 2))))].
Proof.
  eapply (verbose_run_console demo_night demo_input "g" "l2" "cm" "lidar" "cs" 1 empty_world
            _ _ _ _ _ _ _ (Raise (mkExn OSError "no CloudSat granule for this swath"))).
  - reflexivity.
  - reflexivity.
  - reflexivity.
  - reflexivity.
  - reflexivity.
  - reflexivity.
  - reflexivity.
  - intros c. discriminate.
  - discriminate.
Defined.

Lemma shape_mismatch_is_fatal_witness :
  exists e,
    fst (extract_full_swath
           (demo_with (Return demo_swath) (Return demo_l2) (Return demo_wide_cm)
              (Return ((3, 9)%Z, [(0, 1)], PyDict ∅)))
           demo_input "g" "l2" "cm" "lidar" "cs" 1 empty_world) = Raise e
    /\ exn_class e = ValueError
    /\ ECall CGetCloudsatMask
         ∈ drop (length (trace empty_world))
             (trace (snd (extract_full_swath
                            (demo_with (Return demo_swath) (Return demo_l2)
                               (Return demo_wide_cm)
                               (Return ((3, 9)%Z, [(0, 1)], PyDict ∅)))
                            demo_input "g" "l2" "cm" "lidar" "cs" 1 empty_world))).
Proof.
  eapply (shape_mismatch_is_fatal _ demo_input "g" "l2" "cm" "lidar" "cs" 1 empty_world
            demo_swath _ _ demo_l2 demo_wide_cm 15 3 1 1 1 1 1 2).
  - reflexivity.
  - reflexivity.
  - reflexivity.
  - reflexivity.
  - reflexivity.
  - lia.
  - reflexivity.
  - reflexivity.
  - intros [_ H]. discriminate.
  - intros lat lon code. discriminate.
Defined.

Lemma too_few_channels_skip_alignment_witness :
  exists e w',
    extract_full_swath
      (demo_with (Return demo_flat_swath) (Return demo_l2) (Return demo_cm)
         (Return ((3, 9)%Z, [(0, 1)], PyDict ∅)))
      demo_input "g" "l2" "cm" "lidar" "cs" 1 empty_world
    = (Return (astype demo Float16 (mkArr [1 + (3 + (1 + 0)); 1; 1] Float32
                                      [5; 100; 101; 102; 1]%Z),
               PyNone, usability_tag (seq 0 15), basename demo_input), w')
    /\ exn_class e = IndexError
    /\ EPrint (CouldntExtract (basename demo_input) e)
         ∈ drop (length (trace empty_world)) (trace w')
    /\ ECall CGetCloudsatMask ∉ drop (length (trace empty_world)) (trace w').
Proof.
  eapply (too_few_channels_skip_alignment
            (demo_with (Return demo_flat_swath) (Return demo_l2) (Return demo_cm)
               (Return ((3, 9)%Z, [(0, 1)], PyDict ∅)))
            demo_input "g" "l2" "cm" "lidar" "cs" 1 empty_world demo_flat_swath).
  - reflexivity.
  - reflexivity.
  - reflexivity.
  - reflexivity.
  - intros n rest [= <- <-]. lia.
  - reflexivity.
Defined.

Lemma loader_failure_is_fatal_witness :
  fst (extract_full_swath
         (demo_with (Return demo_swath) (Raise (mkExn OSError "no level 2 file"))
            (Return demo_cm) (Return ((3, 9)%Z, [(0, 1)], PyDict ∅)))
         demo_input "g" "l2" "cm" "lidar" "cs" 1 empty_world)
  = Raise (mkExn OSError "no level 2 file")
  /\ ECall CGetCloudsatMask
       ∉ drop (length (trace empty_world))
           (trace (snd (extract_full_swath
                          (demo_with (Return demo_swath)
                             (Raise (mkExn OSError "no level 2 file"))
                             (Return demo_cm) (Return ((3, 9)%Z, [(0, 1)], PyDict ∅)))
                          demo_input "g" "l2" "cm" "lidar" "cs" 1 empty_world))).
Proof.
  apply (loader_failure_is_fatal
           (demo_with (Return demo_swath) (Raise (mkExn OSError "no level 2 file"))
              (Return demo_cm) (Return ((3, 9)%Z, [(0, 1)], PyDict ∅)))
           demo_input "g" "l2" "cm" "lidar" "cs" 1 empty_world).
  right. exists demo_swath. split; [reflexivity |].
  right. eexists _, _. split; [reflexivity |].
  left. reflexivity.
Defined.

Lemma aligner_exit_is_not_caught_witness :
  fst (extract_full_swath
         (demo_with (Return demo_swath) (Return demo_l2) (Return demo_cm) (Exit 3))
         demo_input "g" "l2" "cm" "lidar" "cs" 1 empty_world)
  = Exit 3
  /\ Forall (fun ev => forall e dt,
               ev <> EPrint (CouldntExtract (basename demo_input) e)
               /\ ev <> EPrint (AlignmentTook dt))
       (drop (length (trace empty_world))
          (trace (snd (extract_full_swath
                         (demo_with (Return demo_swath) (Return demo_l2) (Return demo_cm)
                            (Exit 3))
                         demo_input "g" "l2" "cm" "lidar" "cs" 1 empty_world)))).
Proof.
  eapply (aligner_exit_is_not_caught
            (demo_with (Return demo_swath) (Return demo_l2) (Return demo_cm) (Exit 3))
            demo_input "g" "l2" "cm" "lidar" "cs" 1 empty_world).
  - reflexivity.
  - reflexivity.
  - reflexivity.
  - reflexivity.
  - reflexivity.
  - reflexivity.
  - reflexivity.
Defined.

Lemma fused_tensor_layout_witness :
  exists T,
    data T
    = List.map
        (fun x =>
           cast demo Float16
             (cast demo (promote_types demo
                           (promote_types demo (dtype_of demo_swath) (dtype_of demo_l2))
                           (dtype_of demo_cm)) x))
        (List.map Z.of_nat (seq 0 15) ++ data demo_l2 ++ data demo_cm)
    /\ well_formed T
    /\ getitem_neg T 1
       = Return
           {| shape := [1; 1];
              dtype_of := Float16;
              data :=
                List.map
                  (fun x =>
                     cast demo Float16
                       (cast demo (promote_types demo
                                     (promote_types demo (dtype_of demo_swath)
                                        (dtype_of demo_l2))
                                     (dtype_of demo_cm)) x))
                  (data demo_cm) |}.
Proof.
  eexists.
  eapply (fused_tensor_layout demo demo_input "g" "l2" "cm" "lidar" "cs" 1 empty_world
            demo_swath _ _ demo_l2 demo_cm 15 3 1 1).
  - reflexivity.
  - reflexivity.
  - reflexivity.
  - reflexivity.
  - reflexivity.
  - reflexivity.
  - reflexivity.
  - reflexivity.
  - reflexivity.
  - reflexivity.
  - vm_compute. reflexivity.
Defined.

Lemma returned_name_is_the_file_name_witness :
  slash_free "MYD021KM.A2008002.1355.hdf" = true
  /\ forall d n,
       plain_component n = true -> demo_input = path_join2 d n ->
       "MYD021KM.A2008002.1355.hdf" = n.
Proof.
  eapply (returned_name_is_the_file_name demo demo_input "g" "l2" "cm" "lidar" "cs" 1
            empty_world).
  vm_compute. reflexivity.
Defined.

Lemma fresh_output_ends_in_type_error_witness :
  main demo ["pipeline.py"; "out"; demo_input] empty_world
  = (Raise (mkExn TypeError
              "extract_full_swath() got an unexpected keyword argument 'save_dir'"),
     {| fs := fs empty_world;
        trace := trace empty_world ++ [ECall CGetFileTimeInfo];
        ticks := ticks empty_world |}).
Proof.
  apply (fresh_output_ends_in_type_error demo "pipeline.py" "out" demo_input [] empty_world
           "2008" "002" "13" "55" "01" "02").
  - reflexivity.
  - reflexivity.
  - reflexivity.
  - intros p [x Hx]. discriminate.
Defined.

Lemma missing_arguments_index_error_witness :
  exists e,
    main demo ["pipeline.py"; "out"] empty_world = (Raise e, empty_world)
    /\ exn_class e = IndexError.
Proof.
  apply (missing_arguments_index_error demo ["pipeline.py"; "out"] empty_world).
  simpl. lia.
Defined.

Lemma shallow_input_path_value_error_witness :
  exists e,
    main demo ["pipeline.py"; "out"; "data/MYD021KM.A2008002.1355.hdf"] empty_world
      = (Raise e, empty_world)
    /\ exn_class e = ValueError.
Proof.
  apply (shallow_input_path_value_error demo "pipeline.py" "out"
           "data/MYD021KM.A2008002.1355.hdf" [] empty_world).
  reflexivity.
Defined.

Lemma failed_load_leaves_the_directory_witness :
  exists w',
    Visual.extract_swath_rbg demo_three demo_no_picture demo_input "g" "out" 1 disk_with_out
      = (Raise (mkExn OSError "no such granule"), w')
    /\ Visual.fs w' !! (path_parts "out" ++ ["rgb"]) = Some Visual.Dir
    /\ Visual.trace w'
       = Visual.trace disk_with_out
           ++ [Visual.EMakedirs (os_path_join "out" ["rgb"]);
               Visual.ECall Visual.CGetSwathRgb].
Proof.
  apply (failed_load_leaves_the_directory demo_three demo_no_picture demo_input "g" "out" 1
           disk_with_out).
  - reflexivity.
  - no_dotdot.
  - one_entry "out".
  - intros k Hk. each_member Hk.
  - reflexivity.
Defined.

Lemma interpolation_failure_is_reported_witness :
  Visual.extract_swath_rbg demo demo_visual demo_input "g" "out" 0 disk_with_out
  = (Return tt,
     {| Visual.fs := Visual.ensure_dir (Visual.fs disk_with_out) (os_path_join "out" ["rgb"]);
        Visual.trace :=
          Visual.trace disk_with_out
            ++ (if decide (is_Some (Visual.fs disk_with_out
                                      !! path_parts (os_path_join "out" ["rgb"])))
                then [] else [Visual.EMakedirs (os_path_join "out" ["rgb"])])
            ++ [Visual.ECall Visual.CGetSwathRgb; Visual.ECall Visual.CFillAllChannels;
                Visual.EPrint (Visual.RgbFailed (basename demo_input))] |}).
Proof.
  eapply (interpolation_failure_is_reported demo demo_visual demo_input "g" "out" 0
            disk_with_out).
  - reflexivity.
  - reflexivity.
  - simpl. lia.
  - no_dotdot.
  - one_entry "out".
  - intros k Hk. each_member Hk.
Defined.

Lemma picture_is_saved_witness :
  exists w',
    Visual.extract_swath_rbg demo_three demo_visual demo_input "g" "out" 1 disk_with_out
      = (Return tt, w')
    /\ Visual.fs w' !! (path_parts "out"
                          ++ ["rgb"; str_replace ".hdf" ".png" (basename demo_input)])
       = Some (Visual.Picture (mkArr [1; 2; 3] UInt8 [10; 20; 30; 11; 21; 31]%Z))
    /\ Visual.fs w' !! (path_parts "out" ++ ["rgb"]) = Some Visual.Dir
    /\ (forall k x,
          k <> path_parts "out" ++ ["rgb"; str_replace ".hdf" ".png" (basename demo_input)] ->
          Visual.fs disk_with_out !! k = Some x -> Visual.fs w' !! k = Some x)
    /\ Visual.trace w'
       = Visual.trace disk_with_out
           ++ (if decide (is_Some (Visual.fs disk_with_out !! (path_parts "out" ++ ["rgb"])))
               then [] else [Visual.EMakedirs (os_path_join "out" ["rgb"])])
           ++ [Visual.ECall Visual.CGetSwathRgb; Visual.ECall Visual.CFillAllChannels;
               Visual.ECall Visual.CFromArray;
               Visual.ESave
                 (os_path_join "out"
                    ["rgb"; str_replace ".hdf" ".png" (basename demo_input)])]
           ++ (if (0 <? 1)%Z
               then [Visual.EPrint
                       (Visual.RgbSaved
                          (os_path_join "out"
                             ["rgb"; str_replace ".hdf" ".png" (basename demo_input)]))]
               else []).
Proof.
  eapply (picture_is_saved demo_three demo_visual demo_input "g" "out" 1 disk_with_out
            demo_rgb).
  - reflexivity.
  - reflexivity.
  - reflexivity.
  - reflexivity.
  - reflexivity.
  - reflexivity.
  - reflexivity.
  - no_dotdot.
  - one_entry "out".
  - intros k Hk. each_member Hk.
  - discriminate.
Defined.

Lemma transposed_picture_is_channel_last_witness :
  exists tr,
    Visual.transpose_1_2_0 demo_rgb = Return tr
    /\ shape tr = [1; 2; 3]
    /\ dtype_of tr = dtype_of demo_rgb
    /\ well_formed tr
    /\ forall i j k, i < 1 -> j < 2 -> k < 3 ->
         data tr !! ((i * 2 + j) * 3 + k) = data demo_rgb !! ((k * 1 + i) * 2 + j).
Proof.
  apply (transposed_picture_is_channel_last demo_rgb 3 1 2).
  - reflexivity.
  - reflexivity.
Defined.

Lemma hdf_swath_is_saved_where_the_message_says_witness :
  Visual.save_as_npy demo_swath ("MYD021KM.A2008002.1355" +:+ ".hdf") "out" 1 disk_with_out
  = (Return tt,
     {| Visual.fs :=
          <[path_parts "out"
              ++ [str_replace ".hdf" ".npy" "MYD021KM.A2008002.1355" +:+ ".npy"]
            := Visual.Array demo_swath]> (Visual.fs disk_with_out);
        Visual.trace :=
          Visual.trace disk_with_out
            ++ [Visual.ESave
                  (os_path_join "out"
                     [str_replace ".hdf" ".npy" "MYD021KM.A2008002.1355" +:+ ".npy"])]
            ++ (if truthy 1
                then [Visual.EPrint
                        (Visual.SwathSaved
                           (os_path_join "out"
                              [str_replace ".hdf" ".npy" "MYD021KM.A2008002.1355"
                               +:+ ".npy"]))]
                else []) |}).
Proof.
  apply (hdf_swath_is_saved_where_the_message_says (image:=@ndarray Z) demo_swath
           "MYD021KM.A2008002.1355" "out" 1 disk_with_out).
  - reflexivity.
  - reflexivity.
  - discriminate.
Defined.

Lemma message_can_name_an_unwritten_file_witness :
  exists w',
    Visual.save_as_npy demo_swath "swath.dat" "out" 1 disk_with_out = (Return tt, w')
    /\ Visual.fs w' !! (path_parts "out" ++ [str_replace ".hdf" ".npy" "swath.dat" +:+ ".npy"])
       = Some (Visual.Array demo_swath)
    /\ Visual.fs w' !! path_parts (os_path_join "out" [str_replace ".hdf" ".npy" "swath.dat"])
       = Visual.fs disk_with_out
           !! path_parts (os_path_join "out" [str_replace ".hdf" ".npy" "swath.dat"])
    /\ Visual.trace w'
       = Visual.trace disk_with_out
           ++ [Visual.ESave
                 (os_path_join "out" [str_replace ".hdf" ".npy" "swath.dat"] +:+ ".npy")]
           ++ (if truthy 1
               then [Visual.EPrint
                       (Visual.SwathSaved
                          (os_path_join "out" [str_replace ".hdf" ".npy" "swath.dat"]))]
               else []).
Proof.
  apply (message_can_name_an_unwritten_file (image:=@ndarray Z) demo_swath "swath.dat" "out"
           1 disk_with_out).
  - reflexivity.
  - reflexivity.
  - reflexivity.
  - discriminate.
Defined.

Lemma save_as_npy_needs_the_directory_witness :
  exists e,
    Visual.save_as_npy demo_swath "swath.hdf" "out" 1 empty_disk = (Raise e, empty_disk)
    /\ isinstance OSError e = true.
Proof.
  apply (save_as_npy_needs_the_directory (image:=@ndarray Z) demo_swath "swath.hdf" "out" 1
           empty_disk).
  - reflexivity.
  - no_dotdot.
  - intros k [x Hx]. discriminate.
  - reflexivity.
  - reflexivity.
Defined.
